(** * LifeLine green-corridor dispatch: the patient and the real-time workflows

    A shallow embedding of the dispatch pipeline of
    [patient_initiate_ambulance_workflow.py],
    [patient_initiate_ambulance_dashboard.py] and
    [realtime_incident_ambulance_workflow.py], and the properties of the
    severity scorer, the hospital matcher, the route estimator and the
    corridor activator.

    Conventions of the embedding.
    - Python [int] is [Z].  Python [float] is a rational [Q] that is a
      binary64 value: every float operation is the exact operation followed
      by [b64], rounding to nearest with ties to even on a 53-bit mantissa.
      The exponent range is unbounded (no overflow to infinity, no
      subnormals); distances in kilometres and times in minutes stay far
      inside the normal range.
    - [str] is [string] (ASCII).
    - What the code reads from outside (the clock, [random], [input], the
      geodesic distance of geopy, [hash], the Cerebras endpoint) is an
      explicit argument.
    - A Python exception that the code lets escape is [None]. *)

From Stdlib Require Import ZArith QArith Qround Qabs Lqa Lia.
From Stdlib Require Import List String Ascii Bool Sorted Permutation.
From Stdlib Require Import DecimalString DecimalNat DecimalFacts.
From stdpp Require Import base list.
Import ListNotations.

#[local] Open Scope string_scope.
#[local] Open Scope list_scope.
#[local] Open Scope Z_scope.

(* ================================================================== *)
(** * Python values *)
(* ================================================================== *)

Module PyFloat.

(** Nearest integer to [u / v] for [0 < v], ties to the even one. *)
Definition rne (u v : Z) : Z :=
  let f := u / v in
  match 2 * (u mod v) ?= v with
  | Lt => f
  | Gt => f + 1
  | Eq => if Z.even f then f else f + 1
  end.

(** [2 ^ e] for any integer exponent. *)
Definition bpow (e : Z) : Q :=
  if 0 <=? e then inject_Z (2 ^ e) else 1 # Z.to_pos (2 ^ (- e)).

(** The fraction [p / q] divided by [2 ^ e], as numerator and denominator. *)
Definition scaled_num (p e : Z) : Z := if 0 <=? e then p else p * 2 ^ (- e).
Definition scaled_den (q e : Z) : Z := if 0 <=? e then q * 2 ^ e else q.

(** Exponent of the last mantissa bit of [p / q]: the [e] with
    [2^52 <= (p/q) / 2^e < 2^53]. *)
Definition ulp_exp (p q : Z) : Z :=
  let e0 := Z.log2 p - Z.log2 q - 53 in
  if scaled_num p e0 <? 2 ^ 53 * scaled_den q e0 then e0 else e0 + 1.

Definition b64_pos (p q : Z) : Q :=
  let e := ulp_exp p q in
  inject_Z (rne (scaled_num p e) (scaled_den q e)) * bpow e.

(** Rounding of a rational to binary64. *)
Definition b64 (x : Q) : Q :=
  let x' := Qred x in
  match Qnum x' with
  | Z0 => 0%Q
  | Zpos p => b64_pos (Zpos p) (Zpos (Qden x'))
  | Zneg p => (- b64_pos (Zpos p) (Zpos (Qden x')))%Q
  end.

(** Half an ulp, relative: [2 ^ -53]. *)
Definition eps64 : Q := 1 # (2 ^ 53).

Definition fadd (x y : Q) : Q := b64 (x + y).
Definition fmul (x y : Q) : Q := b64 (x * y).
Definition fdiv (x y : Q) : Q := b64 (x / y).

(** A decimal literal of the source, and [float(n)] for an [int]. *)
Definition lit (x : Q) : Q := b64 x.
Definition of_int (n : Z) : Q := b64 (inject_Z n).

(** [int(x)]: truncation toward zero. *)
Definition py_int (x : Q) : Z := if Qle_bool 0 x then Qfloor x else Qceiling x.

(** [round(x, 2)]: the float nearest to [x] rounded half-even at two
    decimals. *)
Definition py_round2 (x : Q) : Q :=
  let c := Qred (x * inject_Z 100) in
  b64 (inject_Z (rne (Qnum c) (Zpos (Qden c))) / inject_Z 100).

Definition fltb (x y : Q) : bool := negb (Qle_bool y x).
Definition feqb (x y : Q) : bool := Qeq_bool x y.

End PyFloat.

Module PyStr.

Definition is_space (c : ascii) : bool :=
  let n := N_of_ascii c in
  ((9 <=? n) && (n <=? 13) || (28 <=? n) && (n <=? 32))%N.

Fixpoint lstrip (s : string) : string :=
  match s with
  | String c rest => if is_space c then lstrip rest else s
  | EmptyString => EmptyString
  end.

Fixpoint rev_append (s acc : string) : string :=
  match s with
  | EmptyString => acc
  | String c rest => rev_append rest (String c acc)
  end.

Definition rev (s : string) : string := rev_append s EmptyString.

(** [s.strip()] *)
Definition strip (s : string) : string := rev (lstrip (rev (lstrip s))).

Definition upper_char (c : ascii) : ascii :=
  let n := N_of_ascii c in
  if ((97 <=? n) && (n <=? 122))%N then ascii_of_N (n - 32) else c.

(** [s.upper()] *)
Fixpoint upper (s : string) : string :=
  match s with
  | EmptyString => EmptyString
  | String c rest => String (upper_char c) (upper rest)
  end.

(** [s.lower().startswith('y')] *)
Definition lower_startswith_y (s : string) : bool :=
  match s with
  | String c _ => (N_of_ascii c =? 121)%N || (N_of_ascii c =? 89)%N
  | EmptyString => false
  end.

(** [s[-k:]] *)
Definition suffix (k : nat) (s : string) : string :=
  substring (String.length s - k) k s.

(** [s[:k]] *)
Definition prefix (k : nat) (s : string) : string := substring 0 k s.

Definition is_digit (c : ascii) : bool :=
  let n := N_of_ascii c in ((48 <=? n) && (n <=? 57))%N.

Definition digit_val (c : ascii) : Z := Z.of_N (N_of_ascii c) - 48.

(** The digit part of an integer literal: digits, single underscores
    between digits only. *)
Fixpoint digitpart (s : string) (acc : Z) (after_digit : bool) : option Z :=
  match s with
  | EmptyString => if after_digit then Some acc else None
  | String c rest =>
      if is_digit c then digitpart rest (10 * acc + digit_val c) true
      else if (N_of_ascii c =? 95)%N && after_digit then digitpart rest acc false
      else None
  end.

(** [int(s)] on a stripped string; [None] is [ValueError]. *)
Definition int_of_str (s : string) : option Z :=
  match s with
  | String "+" rest => digitpart rest 0 false
  | String "-" rest => option_map Z.opp (digitpart rest 0 false)
  | _ => digitpart s 0 false
  end.

(** [re.search(r'\d+', s)] followed by [int(match.group())]: the value of
    the first maximal run of digits. *)
Fixpoint digit_run (s : string) (acc : Z) : Z :=
  match s with
  | String c rest => if is_digit c then digit_run rest (10 * acc + digit_val c) else acc
  | EmptyString => acc
  end.

Fixpoint search_digits (s : string) : option Z :=
  match s with
  | EmptyString => None
  | String c rest =>
      if is_digit c then Some (digit_run rest (digit_val c)) else search_digits rest
  end.

(** [str(n)] for a natural number. *)
Definition of_nat (n : nat) : string := NilZero.string_of_uint (Nat.to_uint n).

(** [x in xs] on a list of strings. *)
Definition mem (x : string) (xs : list string) : bool :=
  existsb (String.eqb x) xs.

(** Truthiness of a string. *)
Definition truthy (s : string) : bool :=
  match s with EmptyString => false | _ => true end.

End PyStr.

(** [datetime.now()]: the two readings the code takes from it. *)
Record datetime := {
  strftime_compact : string;   (* strftime('%Y%m%d%H%M%S') *)
  hour : Z
}.

(* ================================================================== *)
(** * The patient workflow: [patient_initiate_ambulance_workflow.py] *)
(* ================================================================== *)

Module Patient.

Import PyFloat.

Module EmergencyType.
Inductive t :=
  CARDIAC | STROKE | ACCIDENT | BREATHING | UNCONSCIOUS
| BLEEDING | BURNS | POISONING | OTHER.

Definition value (e : t) : string :=
  match e with
  | CARDIAC => "cardiac" | STROKE => "stroke" | ACCIDENT => "accident"
  | BREATHING => "breathing" | UNCONSCIOUS => "unconscious"
  | BLEEDING => "bleeding" | BURNS => "burns" | POISONING => "poisoning"
  | OTHER => "other"
  end.

Definition eqb (a b : t) : bool :=
  match a, b with
  | CARDIAC, CARDIAC | STROKE, STROKE | ACCIDENT, ACCIDENT
  | BREATHING, BREATHING | UNCONSCIOUS, UNCONSCIOUS | BLEEDING, BLEEDING
  | BURNS, BURNS | POISONING, POISONING | OTHER, OTHER => true
  | _, _ => false
  end.
End EmergencyType.

Module CriticalityLevel.
Inductive t := CRITICAL | SERIOUS | MODERATE | MINOR.

Definition value (c : t) : string :=
  match c with
  | CRITICAL => "critical" | SERIOUS => "serious"
  | MODERATE => "moderate" | MINOR => "minor"
  end.

Definition eqb (a b : t) : bool :=
  match a, b with
  | CRITICAL, CRITICAL | SERIOUS, SERIOUS
  | MODERATE, MODERATE | MINOR, MINOR => true
  | _, _ => false
  end.

(** Position of a tier on the scale minor < moderate < serious < critical. *)
Definition rank (c : t) : Z :=
  match c with MINOR => 0 | MODERATE => 1 | SERIOUS => 2 | CRITICAL => 3 end.
End CriticalityLevel.

Module PatientCondition.
Inductive t := CONSCIOUS | UNCONSCIOUS | RESPONSIVE | UNRESPONSIVE.
End PatientCondition.

Module FamilyEmergencyRequest.
Record t := {
  request_id : string;
  caller_name : string;
  caller_phone : string;
  alternate_phone : option string;
  patient_name : string;
  patient_age : Z;
  patient_gender : string;
  relationship_to_patient : string;
  emergency_location : string;
  detailed_address : string;
  landmark : option string;
  gps_lat : Q;
  gps_lon : Q;
  emergency_type : EmergencyType.t;
  criticality_level : CriticalityLevel.t;
  patient_condition : PatientCondition.t;
  symptoms_description : string;
  is_patient_breathing : bool;
  is_patient_conscious : bool;
  any_bleeding : bool;
  medical_history : option string;
  current_medications : option string;
  timestamp : datetime;
  status : string
}.
End FamilyEmergencyRequest.

Module PatientAssessment.
Record t := {
  request_id : string;
  patient_critical_score : Z;
  severity_level : CriticalityLevel.t;
  green_corridor_required : bool;
  ambulance_priority : string;
  medical_preparations_needed : list string;
  estimated_response_time : Z;
  ai_recommendation : string;
  risk_factors : list string
}.
End PatientAssessment.

Module RealTimeHospital.
Record t := {
  id : string;
  name : string;
  location : string;
  gps_lat : Q;
  gps_lon : Q;
  available_beds : Z;
  icu_beds : Z;
  trauma_level : Z;
  distance_km : Q;
  current_load : string;
  specialties : list string;
  estimated_admission_time : Z
}.
End RealTimeHospital.

Module PatientRoute.
Record t := {
  ambulance_id : string;
  request_id : string;
  pickup_location : Q * Q;          (* {"lat": .., "lon": ..} *)
  hospital_destination : RealTimeHospital.t;
  distance_km : Q;
  estimated_time_normal : Z;
  estimated_time_green_corridor : Z;
  time_saved_minutes : Z;
  route_priority : string;
  traffic_conditions : string
}.
End PatientRoute.

Module PatientGreenCorridor.
Record t := {
  corridor_id : string;
  request_id : string;
  ambulance_id : string;
  activation_reason : string;
  activation_time : datetime;
  affected_signals : Z;
  estimated_time_saved : Z;
  traffic_police_notified : bool;
  status : string
}.
End PatientGreenCorridor.

(* ---------------------------------------------------------------- *)
(** ** Intake *)

(** The three base coordinates of the Delhi/NCR region, in the order of
    the [base_coords] dict. *)
Definition base_coords : list (string * (Q * Q)) :=
  [ ("delhi_central", (lit (286139 # 10000), lit (772090 # 10000)));
    ("gurgaon",       (lit (284595 # 10000), lit (770266 # 10000)));
    ("noida",         (lit (285355 # 10000), lit (773910 # 10000))) ]%Q.

(** The draws of [random.choice] and of the two [random.uniform(-0.05,
    0.05)]. *)
Record GpsDraws := {
  choice_index : nat;
  uniform_lat : Q;
  uniform_lon : Q
}.

Definition auto_gps (d : GpsDraws) : Q * Q :=
  let values := map snd base_coords in
  let '(base_lat, base_lon) :=
    nth (choice_index d mod length values) values (0, 0)%Q in
  (fadd base_lat (uniform_lat d), fadd base_lon (uniform_lon d)).

(** The criticality computed inline by [collect_family_emergency_details]. *)
Definition cli_criticality (is_conscious is_breathing any_bleeding : bool)
    (emergency_type : EmergencyType.t) (patient_age : Z) : CriticalityLevel.t :=
  let criticality_score := 0 in
  let criticality_score :=
    if negb is_conscious then criticality_score + 4 else criticality_score in
  let criticality_score :=
    if negb is_breathing then criticality_score + 5 else criticality_score in
  let criticality_score :=
    if any_bleeding then criticality_score + 2 else criticality_score in
  let criticality_score :=
    if existsb (EmergencyType.eqb emergency_type)
         [EmergencyType.CARDIAC; EmergencyType.STROKE]
    then criticality_score + 3 else criticality_score in
  let criticality_score :=
    if 65 <? patient_age then criticality_score + 1 else criticality_score in
  let criticality_score :=
    if patient_age <? 5 then criticality_score + 2 else criticality_score in
  if 8 <=? criticality_score then CriticalityLevel.CRITICAL
  else if 5 <=? criticality_score then CriticalityLevel.SERIOUS
  else if 2 <=? criticality_score then CriticalityLevel.MODERATE
  else CriticalityLevel.MINOR.

(** The same computation as written in [dashboard_collect_family_emergency]
    of [patient_initiate_ambulance_dashboard.py]. *)
Definition dashboard_criticality (is_conscious is_breathing any_bleeding : bool)
    (emergency_type : EmergencyType.t) (patient_age : Z) : CriticalityLevel.t :=
  let s0 := 0 in
  let s1 := if negb is_conscious then s0 + 4 else s0 in
  let s2 := if negb is_breathing then s1 + 5 else s1 in
  let s3 := if any_bleeding then s2 + 2 else s2 in
  let s4 :=
    if existsb (EmergencyType.eqb emergency_type)
         [EmergencyType.CARDIAC; EmergencyType.STROKE]
    then s3 + 3 else s3 in
  let s5 := if 65 <? patient_age then s4 + 1 else s4 in
  let s6 := if patient_age <? 5 then s5 + 2 else s5 in
  if 8 <=? s6 then CriticalityLevel.CRITICAL
  else if 5 <=? s6 then CriticalityLevel.SERIOUS
  else if 2 <=? s6 then CriticalityLevel.MODERATE
  else CriticalityLevel.MINOR.

(** The [FamilyEmergencyRequest(...)] call shared by the two intakes. *)
Definition make_request (now_id now_ts : datetime) (gps : Q * Q)
    (caller_name caller_phone patient_name : string) (patient_age : Z)
    (emergency_location detailed_address : string)
    (emergency_type : EmergencyType.t) (criticality_level : CriticalityLevel.t)
    (is_conscious is_breathing any_bleeding : bool) (symptoms : string)
    : FamilyEmergencyRequest.t :=
  {| FamilyEmergencyRequest.request_id := ("EMR_" ++ strftime_compact now_id)%string;
     FamilyEmergencyRequest.caller_name := caller_name;
     FamilyEmergencyRequest.caller_phone := caller_phone;
     FamilyEmergencyRequest.alternate_phone := None;
     FamilyEmergencyRequest.patient_name := patient_name;
     FamilyEmergencyRequest.patient_age := patient_age;
     FamilyEmergencyRequest.patient_gender := "Unknown";
     FamilyEmergencyRequest.relationship_to_patient := "Family";
     FamilyEmergencyRequest.emergency_location := emergency_location;
     FamilyEmergencyRequest.detailed_address := detailed_address;
     FamilyEmergencyRequest.landmark := None;
     FamilyEmergencyRequest.gps_lat := fst gps;
     FamilyEmergencyRequest.gps_lon := snd gps;
     FamilyEmergencyRequest.emergency_type := emergency_type;
     FamilyEmergencyRequest.criticality_level := criticality_level;
     FamilyEmergencyRequest.patient_condition :=
       if is_conscious then PatientCondition.CONSCIOUS
       else PatientCondition.UNCONSCIOUS;
     FamilyEmergencyRequest.symptoms_description := symptoms;
     FamilyEmergencyRequest.is_patient_breathing := is_breathing;
     FamilyEmergencyRequest.is_patient_conscious := is_conscious;
     FamilyEmergencyRequest.any_bleeding := any_bleeding;
     FamilyEmergencyRequest.medical_history := None;
     FamilyEmergencyRequest.current_medications := None;
     FamilyEmergencyRequest.timestamp := now_ts;
     FamilyEmergencyRequest.status := "RECEIVED" |}.

(** *** The command-line dialogue

    The lines typed by the caller are a list; a read from the exhausted
    list is the [EOFError] of [input], which the function lets escape. *)
Definition Input (A : Type) : Type := list string -> option (A * list string).

Definition ret {A} (a : A) : Input A := fun stdin => Some (a, stdin).

Definition bind {A B} (m : Input A) (k : A -> Input B) : Input B :=
  fun stdin =>
    match m stdin with
    | Some (a, rest) => k a rest
    | None => None
    end.

Notation "'do' x <- m ;; k" := (bind m (fun x => k))
  (at level 10, x name, m at level 9, k at level 200).

(** [input(prompt)] *)
Definition input : Input string :=
  fun stdin =>
    match stdin with
    | line :: rest => Some (line, rest)
    | [] => None
    end.

(** [while True: try: patient_age = int(input(..).strip()); break
    except ValueError: ...] *)
Fixpoint read_age (stdin : list string) : option (Z * list string) :=
  match stdin with
  | [] => None
  | line :: rest =>
      match PyStr.int_of_str (PyStr.strip line) with
      | Some n => Some (n, rest)
      | None => read_age rest
      end
  end.

(** The loop that reads the emergency type until the answer is an integer
    in 1..6. *)
Fixpoint read_choice (stdin : list string) : option (Z * list string) :=
  match stdin with
  | [] => None
  | line :: rest =>
      match PyStr.int_of_str (PyStr.strip line) with
      | Some n => if (1 <=? n) && (n <=? 6) then Some (n, rest) else read_choice rest
      | None => read_choice rest
      end
  end.

Definition emergency_types : list EmergencyType.t :=
  [ EmergencyType.CARDIAC; EmergencyType.STROKE; EmergencyType.ACCIDENT;
    EmergencyType.BREATHING; EmergencyType.UNCONSCIOUS; EmergencyType.OTHER ].

Definition collect_family_emergency_details
    (draws : GpsDraws) (now_id now_ts : datetime)
    : Input FamilyEmergencyRequest.t :=
  do caller_name <- input ;;
  do caller_phone <- input ;;
  do patient_name <- input ;;
  do patient_age <- read_age ;;
  do emergency_location <- input ;;
  do detailed_address <- input ;;
  do choice <- read_choice ;;
  do is_conscious <- input ;;
  do is_breathing <- input ;;
  do any_bleeding <- input ;;
  do symptoms <- input ;;
  let caller_name := PyStr.strip caller_name in
  let caller_phone := PyStr.strip caller_phone in
  let patient_name := PyStr.strip patient_name in
  let emergency_location := PyStr.strip emergency_location in
  let detailed_address := PyStr.strip detailed_address in
  let gps := auto_gps draws in
  let emergency_type :=
    nth (Z.to_nat (choice - 1)) emergency_types EmergencyType.OTHER in
  let is_conscious := PyStr.lower_startswith_y is_conscious in
  let is_breathing := PyStr.lower_startswith_y is_breathing in
  let any_bleeding := PyStr.lower_startswith_y any_bleeding in
  let symptoms := PyStr.strip symptoms in
  let criticality_level :=
    cli_criticality is_conscious is_breathing any_bleeding
      emergency_type patient_age in
  ret (make_request now_id now_ts gps caller_name caller_phone patient_name
         patient_age emergency_location detailed_address emergency_type
         criticality_level is_conscious is_breathing any_bleeding symptoms).

(** *** The dashboard intake *)
Definition dashboard_collect_family_emergency
    (draws : GpsDraws) (now_id now_ts : datetime)
    (caller_name caller_phone patient_name : string) (patient_age : Z)
    (emergency_location detailed_address : string)
    (emergency_type : EmergencyType.t)
    (is_conscious is_breathing any_bleeding : bool) (symptoms : string)
    : FamilyEmergencyRequest.t :=
  let gps := auto_gps draws in
  let criticality_level :=
    dashboard_criticality is_conscious is_breathing any_bleeding
      emergency_type patient_age in
  make_request now_id now_ts gps caller_name caller_phone patient_name
    patient_age emergency_location detailed_address emergency_type
    criticality_level is_conscious is_breathing any_bleeding symptoms.

(** The submit handler of the dashboard form: [if all([caller_name, ...])]
    builds the request, [else] shows an error and builds nothing. *)
Definition dashboard_form_submit
    (draws : GpsDraws) (now_id now_ts : datetime)
    (caller_name caller_phone patient_name : string) (patient_age : Z)
    (emergency_location detailed_address : string)
    (emergency_type : EmergencyType.t)
    (is_conscious is_breathing any_bleeding : bool) (symptoms : string)
    : option FamilyEmergencyRequest.t :=
  if forallb PyStr.truthy
       [caller_name; caller_phone; patient_name; emergency_location;
        detailed_address; symptoms]
  then Some (dashboard_collect_family_emergency draws now_id now_ts
               caller_name caller_phone patient_name patient_age
               emergency_location detailed_address emergency_type
               is_conscious is_breathing any_bleeding symptoms)
  else None.

(* ---------------------------------------------------------------- *)
(** ** The severity scorer *)

Definition emergency_scores : list (EmergencyType.t * Z) :=
  [ (EmergencyType.CARDIAC, 4); (EmergencyType.STROKE, 4);
    (EmergencyType.ACCIDENT, 3); (EmergencyType.BREATHING, 3);
    (EmergencyType.UNCONSCIOUS, 4); (EmergencyType.BLEEDING, 3);
    (EmergencyType.BURNS, 2); (EmergencyType.POISONING, 3);
    (EmergencyType.OTHER, 1) ].

(** [d.get(k, default)] *)
Fixpoint dict_get (d : list (EmergencyType.t * Z)) (k : EmergencyType.t)
    (default : Z) : Z :=
  match d with
  | [] => default
  | (k', v) :: rest => if EmergencyType.eqb k' k then v else dict_get rest k default
  end.

Definition assess_patient_with_ai (emergency_request : FamilyEmergencyRequest.t)
    : PatientAssessment.t :=
  let age := FamilyEmergencyRequest.patient_age emergency_request in
  let pcs_score := 0 in
  let risk_factors : list string := [] in
  (* Age factors *)
  let '(pcs_score, risk_factors) :=
    if age <? 1 then (pcs_score + 3, risk_factors ++ ["Infant (high risk)"])
    else if age <? 5 then (pcs_score + 2, risk_factors ++ ["Young child"])
    else if 75 <? age then (pcs_score + 2, risk_factors ++ ["Elderly patient"])
    else if 65 <? age then (pcs_score + 1, risk_factors ++ ["Senior patient"])
    else (pcs_score, risk_factors) in
  (* Consciousness and breathing *)
  let '(pcs_score, risk_factors) :=
    if negb (FamilyEmergencyRequest.is_patient_conscious emergency_request)
    then (pcs_score + 4, risk_factors ++ ["Unconscious"])
    else (pcs_score, risk_factors) in
  let '(pcs_score, risk_factors) :=
    if negb (FamilyEmergencyRequest.is_patient_breathing emergency_request)
    then (pcs_score + 5, risk_factors ++ ["Breathing difficulties"])
    else (pcs_score, risk_factors) in
  (* Bleeding *)
  let '(pcs_score, risk_factors) :=
    if FamilyEmergencyRequest.any_bleeding emergency_request
    then (pcs_score + 2, risk_factors ++ ["Active bleeding"])
    else (pcs_score, risk_factors) in
  (* Emergency type severity *)
  let pcs_score :=
    pcs_score + dict_get emergency_scores
                  (FamilyEmergencyRequest.emergency_type emergency_request) 1 in
  let risk_factors :=
    risk_factors ++
    [(EmergencyType.value (FamilyEmergencyRequest.emergency_type emergency_request)
      ++ " emergency")%string] in
  (* Cap PCS at 10 *)
  let pcs_score := Z.min pcs_score 10 in
  (* Determine severity and requirements *)
  let '(severity, green_corridor_required, ambulance_priority, preparations,
        ai_recommendation, estimated_response) :=
    if 8 <=? pcs_score then
      (CriticalityLevel.CRITICAL, true, "CRITICAL",
       ["Trauma team activation"; "ICU bed preparation";
        "Blood bank notification"; "Specialist on standby"; "Ventilator ready"],
       "IMMEDIATE CRITICAL RESPONSE - Green corridor activation required", 8)
    else if 6 <=? pcs_score then
      (CriticalityLevel.SERIOUS, true, "HIGH",
       ["Emergency team alert"; "Emergency bed ready";
        "Blood type & cross-match"; "Cardiac monitor ready"],
       "URGENT RESPONSE - Green corridor recommended", 12)
    else if 4 <=? pcs_score then
      (CriticalityLevel.MODERATE, false, "MEDIUM",
       ["Emergency bed preparation"; "Nursing team alert";
        "Basic monitoring setup"],
       "Standard emergency response with priority routing", 18)
    else
      (CriticalityLevel.MINOR, false, "LOW",
       ["Outpatient assessment area"; "Basic examination setup"],
       "Standard response - monitor during transport", 25) in
  {| PatientAssessment.request_id :=
       FamilyEmergencyRequest.request_id emergency_request;
     PatientAssessment.patient_critical_score := pcs_score;
     PatientAssessment.severity_level := severity;
     PatientAssessment.green_corridor_required := green_corridor_required;
     PatientAssessment.ambulance_priority := ambulance_priority;
     PatientAssessment.medical_preparations_needed := preparations;
     PatientAssessment.estimated_response_time := estimated_response;
     PatientAssessment.ai_recommendation := ai_recommendation;
     PatientAssessment.risk_factors := risk_factors |}.

(* ---------------------------------------------------------------- *)
(** ** The hospital matcher *)

(** An entry of the [hospital_data] table. *)
Record HospitalData := {
  hd_id : string;
  hd_name : string;
  hd_location : string;
  hd_gps_lat : Q;
  hd_gps_lon : Q;
  hd_trauma_level : Z;
  hd_specialties : list string
}.

Definition hospital_data : list HospitalData :=
  [ {| hd_id := "AIIMS_DELHI"; hd_name := "AIIMS New Delhi";
       hd_location := "Ansari Nagar, New Delhi";
       hd_gps_lat := lit (285672 # 10000); hd_gps_lon := lit (772100 # 10000);
       hd_trauma_level := 1;
       hd_specialties := ["trauma"; "neurosurgery"; "cardiology"; "emergency"] |};
    {| hd_id := "SAFDARJUNG"; hd_name := "Safdarjung Hospital";
       hd_location := "Safdarjung Enclave, New Delhi";
       hd_gps_lat := lit (285638 # 10000); hd_gps_lon := lit (772066 # 10000);
       hd_trauma_level := 1;
       hd_specialties := ["trauma"; "emergency"; "orthopedics"; "neurology"] |};
    {| hd_id := "FORTIS_DELHI"; hd_name := "Fortis Hospital Shalimar Bagh";
       hd_location := "Shalimar Bagh, Delhi";
       hd_gps_lat := lit (287041 # 10000); hd_gps_lon := lit (771025 # 10000);
       hd_trauma_level := 2;
       hd_specialties := ["cardiology"; "trauma"; "emergency"] |};
    {| hd_id := "MAX_SAKET"; hd_name := "Max Super Speciality Hospital Saket";
       hd_location := "Saket, New Delhi";
       hd_gps_lat := lit (285244 # 10000); hd_gps_lon := lit (772066 # 10000);
       hd_trauma_level := 2;
       hd_specialties := ["trauma"; "emergency"; "cardiology"] |} ].

(** What one iteration of the availability loop reads from outside: the
    geodesic distance to the hospital, the hour of [datetime.now()] and the
    two [random.randint] draws of the branch taken. *)
Record Reading := {
  geodesic_km : Q;
  current_hour : Z;
  beds_randint : Z;
  icu_randint : Z
}.

(** The time-based availability simulation: beds, ICU beds, load. *)
Definition simulate_availability (trauma_level : Z) (r : Reading)
    : Z * Z * string :=
  let base_beds := if trauma_level =? 1 then 25 else 15 in
  if (14 <=? current_hour r) && (current_hour r <=? 18) then
    (Z.max 0 (base_beds - beds_randint r), Z.max 0 (10 - icu_randint r), "HIGH")
  else if (22 <=? current_hour r) || (current_hour r <=? 6) then
    (Z.max 0 (base_beds - beds_randint r), Z.max 0 (10 - icu_randint r), "MEDIUM")
  else
    (Z.max 0 (base_beds - beds_randint r), Z.max 0 (10 - icu_randint r), "NORMAL").

(** The critical override applied to the simulated availability. *)
Definition critical_override (severity : CriticalityLevel.t)
    (sim : Z * Z * string) : Z * Z * string :=
  let '(available_beds, icu_beds, load) := sim in
  if CriticalityLevel.eqb severity CriticalityLevel.CRITICAL
     && (available_beds =? 0)
  then (1, Z.max 1 icu_beds, "CRITICAL_OVERRIDE")
  else (available_beds, icu_beds, load).

(** The [RealTimeHospital] built by one iteration. *)
Definition probe_hospital (assessment : PatientAssessment.t)
    (h_data : HospitalData) (r : Reading) : RealTimeHospital.t :=
  let distance := geodesic_km r in
  let '(available_beds, icu_beds, load) :=
    critical_override (PatientAssessment.severity_level assessment)
      (simulate_availability (hd_trauma_level h_data) r) in
  {| RealTimeHospital.id := hd_id h_data;
     RealTimeHospital.name := hd_name h_data;
     RealTimeHospital.location := hd_location h_data;
     RealTimeHospital.gps_lat := hd_gps_lat h_data;
     RealTimeHospital.gps_lon := hd_gps_lon h_data;
     RealTimeHospital.available_beds := available_beds;
     RealTimeHospital.icu_beds := icu_beds;
     RealTimeHospital.trauma_level := hd_trauma_level h_data;
     RealTimeHospital.distance_km := py_round2 distance;
     RealTimeHospital.current_load := load;
     RealTimeHospital.specialties := hd_specialties h_data;
     RealTimeHospital.estimated_admission_time :=
       if negb (String.eqb load "HIGH") then 30 else 45 |}.

(** [for h_data in hospital_data: ...]: the hospitals appended to
    [available_hospitals], in the order of the table; iteration [i] takes
    reading [i]. *)
Fixpoint availability_loop (assessment : PatientAssessment.t)
    (readings : nat -> Reading) (i : nat) (table : list HospitalData)
    : list RealTimeHospital.t :=
  match table with
  | [] => []
  | h_data :: rest =>
      let hospital := probe_hospital assessment h_data (readings i) in
      let tail := availability_loop assessment readings (S i) rest in
      (* Include hospitals with beds OR critical cases (override) *)
      if (0 <? RealTimeHospital.available_beds hospital)
         || CriticalityLevel.eqb (PatientAssessment.severity_level assessment)
              CriticalityLevel.CRITICAL
      then hospital :: tail
      else tail
  end.

(** The sort key of the nested function [hospital_priority]. *)
Definition hospital_priority (emergency_request : FamilyEmergencyRequest.t)
    (h : RealTimeHospital.t) : Z * Q * Z :=
  let specialties := RealTimeHospital.specialties h in
  let emergency_type := FamilyEmergencyRequest.emergency_type emergency_request in
  let specialty_match := 0 in
  let specialty_match :=
    if EmergencyType.eqb emergency_type EmergencyType.CARDIAC
       && PyStr.mem "cardiology" specialties
    then 1
    else if EmergencyType.eqb emergency_type EmergencyType.STROKE
            && existsb (fun s => PyStr.mem s specialties)
                 ["neurology"; "neurosurgery"]
    then 1
    else if PyStr.mem "trauma" specialties || PyStr.mem "emergency" specialties
    then 2
    else specialty_match in
  (specialty_match, RealTimeHospital.distance_km h,
   - RealTimeHospital.available_beds h).

(** [a < b] on the key tuples. *)
Definition key_ltb (a b : Z * Q * Z) : bool :=
  let '(a1, a2, a3) := a in
  let '(b1, b2, b3) := b in
  if negb (a1 =? b1) then a1 <? b1
  else if negb (feqb a2 b2) then fltb a2 b2
  else a3 <? b3.

(** [list.sort(key=...)]: a stable sort that compares keys with [<]. *)
Fixpoint insert_by_key {A} (key : A -> Z * Q * Z) (x : A) (l : list A) : list A :=
  match l with
  | [] => [x]
  | y :: l' =>
      if key_ltb (key y) (key x) then y :: insert_by_key key x l' else x :: l
  end.

Definition sort_by_key {A} (key : A -> Z * Q * Z) (l : list A) : list A :=
  foldr (insert_by_key key) [] l.

Definition check_hospital_bed_availability
    (readings : nat -> Reading)
    (emergency_request : FamilyEmergencyRequest.t)
    (assessment : PatientAssessment.t) : list RealTimeHospital.t :=
  let available_hospitals :=
    availability_loop assessment readings 0 hospital_data in
  sort_by_key (hospital_priority emergency_request) available_hospitals.

(* ---------------------------------------------------------------- *)
(** ** The route estimator *)

(** Traffic label and speed (km/h) by the hour of the day. *)
Definition traffic_of_hour (current_hour : Z) : string * Z :=
  if (7 <=? current_hour) && (current_hour <=? 10)
     || (17 <=? current_hour) && (current_hour <=? 20)
  then ("HEAVY", 15)
  else if (11 <=? current_hour) && (current_hour <=? 16)
  then ("MODERATE", 25)
  else ("LIGHT", 35).

Definition calculate_patient_route (now : datetime)
    (emergency_request : FamilyEmergencyRequest.t)
    (hospital : RealTimeHospital.t) (assessment : PatientAssessment.t)
    : PatientRoute.t :=
  let pickup_location :=
    (FamilyEmergencyRequest.gps_lat emergency_request,
     FamilyEmergencyRequest.gps_lon emergency_request) in
  let distance := RealTimeHospital.distance_km hospital in
  let '(traffic_conditions, base_speed) := traffic_of_hour (hour now) in
  (* Normal travel time calculation *)
  let normal_time := py_int (fmul (fdiv distance (of_int base_speed)) (of_int 60)) in
  let '(green_corridor_time, route_priority) :=
    if PatientAssessment.green_corridor_required assessment
    then (py_int (fmul (of_int normal_time) (lit (55 # 100))), "GREEN_CORRIDOR")
    else (py_int (fmul (of_int normal_time) (lit (85 # 100))), "PRIORITY") in
  let time_saved := normal_time - green_corridor_time in
  {| PatientRoute.ambulance_id :=
       ("AMB_" ++ PyStr.suffix 4 (FamilyEmergencyRequest.request_id emergency_request))%string;
     PatientRoute.request_id := FamilyEmergencyRequest.request_id emergency_request;
     PatientRoute.pickup_location := pickup_location;
     PatientRoute.hospital_destination := hospital;
     PatientRoute.distance_km := distance;
     PatientRoute.estimated_time_normal := normal_time;
     PatientRoute.estimated_time_green_corridor := green_corridor_time;
     PatientRoute.time_saved_minutes := time_saved;
     PatientRoute.route_priority := route_priority;
     PatientRoute.traffic_conditions := traffic_conditions |}.

(* ---------------------------------------------------------------- *)
(** ** The corridor activator *)

Definition activate_patient_green_corridor (now : datetime)
    (route : PatientRoute.t) (assessment : PatientAssessment.t)
    : option PatientGreenCorridor.t :=
  if negb (PatientAssessment.green_corridor_required assessment) then None
  else
    (* ~1.8 signals per km *)
    let affected_signals :=
      py_int (fmul (PatientRoute.distance_km route) (lit (18 # 10))) in
    let activation_reason :=
      (PyStr.upper (CriticalityLevel.value (PatientAssessment.severity_level assessment))
       ++ " patient - " ++ PatientAssessment.ai_recommendation assessment)%string in
    Some {| PatientGreenCorridor.corridor_id := ("GC_" ++ PatientRoute.request_id route)%string;
            PatientGreenCorridor.request_id := PatientRoute.request_id route;
            PatientGreenCorridor.ambulance_id := PatientRoute.ambulance_id route;
            PatientGreenCorridor.activation_reason := activation_reason;
            PatientGreenCorridor.activation_time := now;
            PatientGreenCorridor.affected_signals := affected_signals;
            PatientGreenCorridor.estimated_time_saved :=
              PatientRoute.time_saved_minutes route;
            PatientGreenCorridor.traffic_police_notified := true;
            PatientGreenCorridor.status := "ACTIVATED" |}.

(** Steps 4 and 5 of the plan: the route to the first hospital of the list,
    when there is one, and the corridor for it. *)
Definition plan_route (now : datetime) (req : FamilyEmergencyRequest.t)
    (assess : PatientAssessment.t) (hospitals : list RealTimeHospital.t)
    : option PatientRoute.t :=
  match hospitals with
  | h0 :: _ => Some (calculate_patient_route now req h0 assess)
  | [] => None
  end.

Definition plan_corridor (now : datetime) (route : option PatientRoute.t)
    (assess : PatientAssessment.t) : option PatientGreenCorridor.t :=
  match route with
  | Some r => activate_patient_green_corridor now r assess
  | None => None
  end.

End Patient.

(* ================================================================== *)
(** * The real-time workflow: [realtime_incident_ambulance_workflow.py] *)
(* ================================================================== *)

Module Realtime.

Import PyFloat.

Module AccidentSeverity.
Inductive t := MINOR | MODERATE | SERIOUS | CRITICAL.
End AccidentSeverity.

Module GreenCorridorStatus.
Inductive t := INACTIVE | ACTIVATED | ACTIVE | COMPLETED.
End GreenCorridorStatus.

Module Accident.
Record t := {
  id : string;
  description : string;
  location : string;
  gps_lat : Q;
  gps_lon : Q;
  timestamp : datetime;
  severity_indicators : list string;
  news_sources : list string;
  confidence_score : Q
}.
End Accident.

Module DetectedAccidents.
Record t := { accidents : list Accident.t }.
End DetectedAccidents.

Module PCSAssessment.
Record t := {
  accident_id : string;
  patient_critical_score : Z;
  severity_level : AccidentSeverity.t;
  recommendation : string;
  score_breakdown : list (string * Z);
  estimated_patients : Z;
  priority_level : string
}.
End PCSAssessment.

Module PCSResults.
Record t := { assessments : list PCSAssessment.t }.
End PCSResults.

Module Hospital.
Record t := {
  id : string;
  name : string;
  location : string;
  gps_lat : Q;
  gps_lon : Q;
  trauma_level : Z;
  available_beds : Z;
  specialties : list string;
  distance_km : Q
}.

(** [hospital.distance_km = d] and [hospital.available_beds -= 1]. *)
Definition set_distance_km (d : Q) (h : t) : t :=
  {| id := id h; name := name h; location := location h;
     gps_lat := gps_lat h; gps_lon := gps_lon h;
     trauma_level := trauma_level h; available_beds := available_beds h;
     specialties := specialties h; distance_km := d |}.

Definition decrement_beds (h : t) : t :=
  {| id := id h; name := name h; location := location h;
     gps_lat := gps_lat h; gps_lon := gps_lon h;
     trauma_level := trauma_level h; available_beds := available_beds h - 1;
     specialties := specialties h; distance_km := distance_km h |}.
End Hospital.

Module RouteOptimization.
(** [target_hospital] holds the hospital object itself, which later
    iterations keep mutating: it is the position of that hospital in the
    [hospitals] list. *)
Record t := {
  ambulance_id : string;
  accident_id : string;
  route_coordinates : list (Q * Q);     (* [{"lat": .., "lon": ..}, ..] *)
  distance_km : Q;
  estimated_time_normal : Z;
  estimated_time_green_corridor : Z;
  time_saved_minutes : Z;
  target_hospital : nat;
  traffic_intersections : Z
}.
End RouteOptimization.

Module RouteResults.
Record t := { routes : list RouteOptimization.t }.
End RouteResults.

(** [datetime.now() + timedelta(minutes=k)] *)
Record Moment := { base : datetime; plus_minutes : Z }.

Module TrafficIntersection.
Record t := {
  intersection_id : string;
  location : Q * Q;
  signal_status : string;
  activation_time : Moment;
  estimated_passage_time : Moment
}.
End TrafficIntersection.

Module GreenCorridorActivation.
Record t := {
  green_corridor_id : string;
  ambulance_id : string;
  accident_id : string;
  activation_time : datetime;
  status : GreenCorridorStatus.t;
  affected_intersections : list TrafficIntersection.t;
  total_intersections : Z;
  estimated_time_saved : Z
}.
End GreenCorridorActivation.

Module GreenCorridorResults.
Record t := { activations : list GreenCorridorActivation.t }.
End GreenCorridorResults.

(* ---------------------------------------------------------------- *)
(** ** The ETA oracle *)

(** The [route_data] dict: ['distance_km'] is read by subscript, the two
    other keys through [.get] with a default. *)
Record RouteData := {
  rd_distance_km : Q;
  rd_normal_time : option Z;
  rd_severity : option Z
}.

(** The two identical fallback branches. *)
Definition fallback_eta (severity normal_time : Z) : Z :=
  let improvement_factor :=
    if severity <? 6 then lit (7 # 10)
    else if severity <? 8 then lit (6 # 10) else lit (5 # 10) in
  Z.max (py_int (fmul (of_int normal_time) improvement_factor)) 3.

(** [response] is what [call_cerebras_api] returns; [None] when it raises,
    which the bare [except] catches. *)
Definition optimize_eta_with_cerebras (response : option string)
    (route_data : RouteData) : Z :=
  let severity := default 5 (rd_severity route_data) in
  let normal_time := default 15 (rd_normal_time route_data) in
  match response with
  | Some result =>
      match PyStr.search_digits result with
      | Some optimized_time =>
          (* Ensure realistic bounds *)
          let min_time :=
            Z.max (py_int (fmul (of_int normal_time) (lit (5 # 10)))) 3 in
          let max_time := py_int (fmul (of_int normal_time) (lit (9 # 10))) in
          Z.max min_time (Z.min optimized_time max_time)
      | None => fallback_eta severity normal_time
      end
  | None => fallback_eta severity normal_time
  end.

(* ---------------------------------------------------------------- *)
(** ** The route calculator and its bed ledger *)

(** What [calculate_route_with_cerebras] reads from outside. *)
Record World := {
  geodesic_km : Q * Q -> Q * Q -> Q;   (* geodesic(a, b).kilometers *)
  py_hash : string -> Z;               (* hash(s) *)
  cerebras : nat -> option string      (* the reply to the ETA prompt of
                                          the assessment at this position *)
}.

Definition hospitals_init : list Hospital.t :=
  [ {| Hospital.id := "AIIMS_TRAUMA"; Hospital.name := "AIIMS Trauma Center";
       Hospital.location := "New Delhi";
       Hospital.gps_lat := lit (285672 # 10000);
       Hospital.gps_lon := lit (772100 # 10000);
       Hospital.trauma_level := 1; Hospital.available_beds := 15;
       Hospital.specialties := ["trauma"; "neurosurgery"; "orthopedics"];
       Hospital.distance_km := 0 |};
    {| Hospital.id := "FORTIS_DELHI"; Hospital.name := "Fortis Hospital Delhi";
       Hospital.location := "Shalimar Bagh, Delhi";
       Hospital.gps_lat := lit (287041 # 10000);
       Hospital.gps_lon := lit (771025 # 10000);
       Hospital.trauma_level := 2; Hospital.available_beds := 8;
       Hospital.specialties := ["cardiology"; "trauma"; "emergency"];
       Hospital.distance_km := 0 |};
    {| Hospital.id := "MAX_SAKET"; Hospital.name := "Max Super Speciality Hospital";
       Hospital.location := "Saket, Delhi";
       Hospital.gps_lat := lit (285244 # 10000);
       Hospital.gps_lon := lit (772066 # 10000);
       Hospital.trauma_level := 1; Hospital.available_beds := 12;
       Hospital.specialties := ["trauma"; "cardiology"; "neurosurgery"];
       Hospital.distance_km := 0 |} ].

(** The [accident_locations] dict: the binding added last is found first. *)
Definition LocationDict := list (string * (Q * Q)).

Fixpoint dict_lookup (d : LocationDict) (k : string) : option (Q * Q) :=
  match d with
  | [] => None
  | (k', v) :: rest => if String.eqb k' k then Some v else dict_lookup rest k
  end.

Definition accident_locations_of (accident_data : option DetectedAccidents.t)
    : LocationDict :=
  match accident_data with
  | Some data =>
      foldl (fun d accident =>
               (Accident.id accident,
                (Accident.gps_lat accident, Accident.gps_lon accident)) :: d)
            [] (DetectedAccidents.accidents data)
  | None => []
  end.

Definition fallback_locations : list (Q * Q) :=
  [ (lit (286139 # 10000), lit (772090 # 10000));   (* Delhi center *)
    (lit (284595 # 10000), lit (770266 # 10000));   (* Gurgaon *)
    (lit (287041 # 10000), lit (771025 # 10000)) ]. (* North Delhi *)

Definition accident_location_of (w : World) (accident_locations : LocationDict)
    (assessment : PCSAssessment.t) : Q * Q :=
  match dict_lookup accident_locations (PCSAssessment.accident_id assessment) with
  | Some loc => loc
  | None =>
      let accident_hash := py_hash w (PCSAssessment.accident_id assessment) mod 3 in
      nth (Z.to_nat accident_hash) fallback_locations (0, 0)%Q
  end.

(** The pair ([best_hospital], [min_distance]): the two variables are
    assigned together, [None] is ([None], [float('inf')]) and
    [Some (i, d)] is (the hospital at position [i], [d]). *)
Definition Best := option (nat * Q).

(** [distance < min_distance] *)
Definition closer (distance : Q) (best : Best) : bool :=
  match best with
  | None => true
  | Some (_, min_distance) => fltb distance min_distance
  end.

(** [for hospital in hospitals:] of the severity-based selection; every
    hospital visited gets its [distance_km] overwritten. *)
Fixpoint select_loop (w : World) (accident_location : Q * Q) (score : Z)
    (i : nat) (hospitals : list Hospital.t) (best : Best)
    : list Hospital.t * Best :=
  match hospitals with
  | [] => ([], best)
  | hospital :: rest =>
      let hospital_location := (Hospital.gps_lat hospital, Hospital.gps_lon hospital) in
      let distance := geodesic_km w accident_location hospital_location in
      let hospital := Hospital.set_distance_km distance hospital in
      let best :=
        if 8 <=? score then
          (* Critical cases go to level 1 trauma centers *)
          if (Hospital.trauma_level hospital =? 1)
             && (0 <? Hospital.available_beds hospital)
          then if closer distance best then Some (i, distance) else best
          else best
        else if 6 <=? score then
          (* Serious cases *)
          if 0 <? Hospital.available_beds hospital
          then if closer distance best then Some (i, distance) else best
          else best
        else
          (* Moderate cases *)
          if (0 <? Hospital.available_beds hospital) && closer distance best
          then Some (i, distance) else best in
      let '(rest', best') :=
        select_loop w accident_location score (S i) rest best in
      (hospital :: rest', best')
  end.

(** The second loop, run when the first one found nothing: the nearest
    hospital with a bed. *)
Fixpoint nearest_available_loop (w : World) (accident_location : Q * Q)
    (i : nat) (hospitals : list Hospital.t) (best : Best) : Best :=
  match hospitals with
  | [] => best
  | hospital :: rest =>
      let best :=
        if 0 <? Hospital.available_beds hospital then
          let hospital_location :=
            (Hospital.gps_lat hospital, Hospital.gps_lon hospital) in
          let distance := geodesic_km w accident_location hospital_location in
          if closer distance best then Some (i, distance) else best
        else best in
      nearest_available_loop w accident_location (S i) rest best
  end.

(** The block under [if best_hospital:]: the timing of the route and the
    [RouteOptimization] built from it.  [reply] is the oracle's answer to the
    ETA prompt and [n_routes] is [len(routes)]. *)
Definition build_route (reply : option string) (n_routes : nat)
    (assessment : PCSAssessment.t) (accident_location : Q * Q)
    (best_hospital : nat) (target : Hospital.t) (min_distance : Q)
    : RouteOptimization.t :=
  let score := PCSAssessment.patient_critical_score assessment in
  let base_speed := 25 in
  (* Faster for critical cases *)
  let base_speed := if 7 <=? score then 35 else base_speed in
  (* Convert to minutes, minimum 5 min *)
  let normal_time :=
    Z.max (py_int (fmul (fdiv min_distance (of_int base_speed)) (of_int 60))) 5 in
  let route_data :=
    {| rd_distance_km := min_distance;
       rd_normal_time := Some normal_time;
       rd_severity := Some score |} in
  let green_corridor_time := optimize_eta_with_cerebras reply route_data in
  (* Minimum 1 minute saved *)
  let time_saved := Z.max (normal_time - green_corridor_time) 1 in
  {| RouteOptimization.ambulance_id :=
       ("AMB_" ++ PyStr.of_nat (n_routes + 1) ++ "##")%string;
     RouteOptimization.accident_id := PCSAssessment.accident_id assessment;
     RouteOptimization.route_coordinates :=
       [ accident_location; (Hospital.gps_lat target, Hospital.gps_lon target) ];
     RouteOptimization.distance_km := py_round2 min_distance;
     RouteOptimization.estimated_time_normal := normal_time;
     RouteOptimization.estimated_time_green_corridor := green_corridor_time;
     RouteOptimization.time_saved_minutes := time_saved;
     RouteOptimization.target_hospital := best_hospital;
     RouteOptimization.traffic_intersections :=
       Z.max (py_int (fmul min_distance (lit (15 # 10)))) 2 |}.

(** The body of [for assessment in pcs_results.assessments:].  [k] is the
    position of the assessment; the state is the hospital list and the
    routes built so far. *)
Definition route_step (w : World) (accident_locations : LocationDict) (k : nat)
    (state : list Hospital.t * list RouteOptimization.t)
    (assessment : PCSAssessment.t)
    : list Hospital.t * list RouteOptimization.t :=
  let '(hospitals, routes) := state in
  let score := PCSAssessment.patient_critical_score assessment in
  let accident_location := accident_location_of w accident_locations assessment in
  (* Find nearest available hospital *)
  let '(hospitals, best) :=
    select_loop w accident_location score 0 hospitals None in
  (* If no hospital found with above criteria, use nearest available *)
  let best :=
    match best with
    | Some _ => best
    | None => nearest_available_loop w accident_location 0 hospitals None
    end in
  match best with
  | Some (best_hospital, min_distance) =>
      match hospitals !! best_hospital with
      | Some target =>
          let route :=
            build_route (cerebras w k) (length routes) assessment
              accident_location best_hospital target min_distance in
          (* Reduce available beds for selected hospital *)
          (<[best_hospital := Hospital.decrement_beds target]> hospitals,
           routes ++ [route])
      | None => (hospitals, routes)   (* no such position: never taken *)
      end
  | None => (hospitals, routes)
  end.

Fixpoint route_loop (w : World) (accident_locations : LocationDict) (k : nat)
    (assessments : list PCSAssessment.t)
    (state : list Hospital.t * list RouteOptimization.t)
    : list Hospital.t * list RouteOptimization.t :=
  match assessments with
  | [] => state
  | assessment :: rest =>
      route_loop w accident_locations (S k) rest
        (route_step w accident_locations k state assessment)
  end.

(** The function returns the routes; the hospital list it leaves behind is
    returned with them. *)
Definition calculate_route_with_cerebras (w : World)
    (pcs_results : option PCSResults.t)
    (accident_data : option DetectedAccidents.t)
    : RouteResults.t * list Hospital.t :=
  match pcs_results with
  | None => ({| RouteResults.routes := [] |}, [])
  | Some pcs =>
      match PCSResults.assessments pcs with
      | [] => ({| RouteResults.routes := [] |}, [])
      | assessments =>
          let accident_locations := accident_locations_of accident_data in
          let '(hospitals, routes) :=
            route_loop w accident_locations 0 assessments (hospitals_init, []) in
          ({| RouteResults.routes := routes |}, hospitals)
      end
  end.

(* ---------------------------------------------------------------- *)
(** ** The corridor activator *)

(** [f"{n:02d}"] *)
Definition pad2 (n : nat) : string :=
  if (n <? 10)%nat then ("0" ++ PyStr.of_nat n)%string else PyStr.of_nat n.

Definition make_intersection (now : datetime) (route : RouteOptimization.t)
    (i : nat) : TrafficIntersection.t :=
  let origin := nth 0 (RouteOptimization.route_coordinates route) (0, 0)%Q in
  {| TrafficIntersection.intersection_id :=
       ("INT_" ++ PyStr.suffix 3 (RouteOptimization.accident_id route)
        ++ "_" ++ pad2 (i + 1))%string;
     TrafficIntersection.location :=
       (fadd (fst origin) (fmul (of_int (Z.of_nat i)) (lit (1 # 1000))),
        fadd (snd origin) (fmul (of_int (Z.of_nat i)) (lit (1 # 1000))));
     TrafficIntersection.signal_status := "GREEN_PRIORITY";
     TrafficIntersection.activation_time :=
       {| base := now; plus_minutes := Z.of_nat i * 2 |};
     TrafficIntersection.estimated_passage_time :=
       {| base := now; plus_minutes := Z.of_nat i * 2 + 1 |} |}.

(** The activation built for one route, when its saving qualifies. *)
Definition activate_route (now : datetime) (route : RouteOptimization.t)
    : option GreenCorridorActivation.t :=
  (* Only activate green corridor for time savings > 5 minutes *)
  if 5 <=? RouteOptimization.time_saved_minutes route then
    let intersections :=
      map (make_intersection now route)
          (seq 0 (Z.to_nat (Z.min (RouteOptimization.traffic_intersections route) 10))) in
    Some {| GreenCorridorActivation.green_corridor_id :=
              ("GC_" ++ RouteOptimization.accident_id route)%string;
            GreenCorridorActivation.ambulance_id := RouteOptimization.ambulance_id route;
            GreenCorridorActivation.accident_id := RouteOptimization.accident_id route;
            GreenCorridorActivation.activation_time := now;
            GreenCorridorActivation.status := GreenCorridorStatus.ACTIVATED;
            GreenCorridorActivation.affected_intersections := intersections;
            GreenCorridorActivation.total_intersections :=
              Z.of_nat (length intersections);
            GreenCorridorActivation.estimated_time_saved :=
              RouteOptimization.time_saved_minutes route |}
  else None.

Definition activate_green_corridor_sumo (now : datetime)
    (route_results : option RouteResults.t) : GreenCorridorResults.t :=
  match route_results with
  | None => {| GreenCorridorResults.activations := [] |}
  | Some results =>
      {| GreenCorridorResults.activations :=
           omap (activate_route now) (RouteResults.routes results) |}
  end.

End Realtime.


(* ================================================================== *)
(** * The claims' own wording, for comparison with the code *)
(* ================================================================== *)

Module Claimed.

Import PyFloat.

(** The age-band weights as the specification lists them: age<5 -> +2,
    age>65 -> +1, age>75 -> +2.  [summed] adds the two bands above 65 for a
    patient above 75, otherwise the higher band alone applies. *)
Definition age_weight (summed : bool) (age : Z) : Z :=
  (if age <? 5 then 2 else 0)
  + (if 75 <? age then (if summed then 3 else 2)
     else if 65 <? age then 1 else 0).

(** The severity score of the specification: the weights summed and the
    total clamped to [0, 10]. *)
Definition severity_score (summed : bool)
    (r : Patient.FamilyEmergencyRequest.t) : Z :=
  let total :=
    (if Patient.FamilyEmergencyRequest.is_patient_conscious r then 0 else 4)
    + (if Patient.FamilyEmergencyRequest.is_patient_breathing r then 0 else 5)
    + (if Patient.FamilyEmergencyRequest.any_bleeding r then 2 else 0)
    + Patient.dict_get Patient.emergency_scores
        (Patient.FamilyEmergencyRequest.emergency_type r) 1
    + age_weight summed (Patient.FamilyEmergencyRequest.patient_age r) in
  Z.max 0 (Z.min 10 total).

(** The specialty-match rank of the specification: 0 when a specialty
    matches the category, 1 for a general trauma/emergency facility, 2
    otherwise.  A match is what the code tests: cardiology for a cardiac
    emergency, neurology or neurosurgery for a stroke. *)
Definition specialty_matches (e : Patient.EmergencyType.t)
    (specialties : list string) : bool :=
  match e with
  | Patient.EmergencyType.CARDIAC => PyStr.mem "cardiology" specialties
  | Patient.EmergencyType.STROKE =>
      PyStr.mem "neurology" specialties || PyStr.mem "neurosurgery" specialties
  | _ => false
  end.

Definition specialty_rank (e : Patient.EmergencyType.t)
    (specialties : list string) : Z :=
  if specialty_matches e specialties then 0
  else if PyStr.mem "trauma" specialties || PyStr.mem "emergency" specialties
  then 1 else 2.

(** The ranking key of the specification. *)
Definition ranking_key (req : Patient.FamilyEmergencyRequest.t)
    (h : Patient.RealTimeHospital.t) : Z * Q * Z :=
  (specialty_rank (Patient.FamilyEmergencyRequest.emergency_type req)
     (Patient.RealTimeHospital.specialties h),
   Patient.RealTimeHospital.distance_km h,
   - Patient.RealTimeHospital.available_beds h).

(** The baseline ETA of the specification: distance over speed, in whole
    minutes rounded up, at least one minute. *)
Definition baseline_eta (distance : Q) (speed : Z) : Z :=
  Z.max (Qceiling (distance / inject_Z speed * inject_Z 60)) 1.

(** The activation condition of the specification. *)
Definition corridor_condition (corridor_required : bool)
    (time_saved minimum : Z) : bool :=
  (corridor_required || (minimum <=? time_saved)) && (0 <? time_saved).

End Claimed.


(* ================================================================== *)
(** * Notions used to state the properties *)
(* ================================================================== *)

Module Notions.

(** An input line that the type menu of the CLI intake refuses: not a
    number, or a number outside 1..6. *)
Definition refused_choice (l : string) : Prop :=
  match PyStr.int_of_str (PyStr.strip l) with
  | Some n => ~ (1 <= n <= 6)
  | None => True
  end.

(** The order of the key tuples, as a proposition. *)
Definition key_lt (a b : Z * Q * Z) : Prop :=
  let '(a1, a2, a3) := a in
  let '(b1, b2, b3) := b in
  a1 < b1 \/ (a1 = b1 /\ ((a2 < b2)%Q \/ ((a2 == b2)%Q /\ a3 < b3))).

(** [a] does not come after [b]: [not (key b < key a)]. *)
Definition key_le {A : Type} (key : A -> Z * Q * Z) (a b : A) : Prop :=
  Patient.key_ltb (key b) (key a) = false.

(** The bed counters of the hospital list. *)
Definition beds (hospitals : list Realtime.Hospital.t) : list Z :=
  map Realtime.Hospital.available_beds hospitals.

(** What a [Best] can be after scanning [hospitals] from position [i]: the
    earlier value, or a position of the scanned part whose hospital has a
    bed, with a distance that the world measured. *)
Definition best_from (w : Realtime.World) (i : nat)
    (hospitals : list Realtime.Hospital.t)
    (before after : Realtime.Best) : Prop :=
  after = before
  \/ exists j h p q,
       hospitals !! j = Some h /\ 0 < Realtime.Hospital.available_beds h
       /\ after = Some ((i + j)%nat, Realtime.geodesic_km w p q).

(** Whole minutes up to this bound are floats without rounding, with room
    for the products the estimator forms. *)
Definition minutes_bound : Z := 2 ^ 40.

(** Distances are taken within this many kilometres (the Earth's
    antipodes are about 20,000 km apart). *)
Definition max_km : Q := inject_Z 100000.

End Notions.


(* ================================================================== *)
(** * Sample inputs *)
(* ================================================================== *)

Module Scenarios.

Import PyFloat.

(** A dashboard request with the given answers; the other fields are
    fixed. *)
Definition sample_request (age : Z) (t : Patient.EmergencyType.t)
    (conscious breathing bleeding : bool) : Patient.FamilyEmergencyRequest.t :=
  Patient.dashboard_collect_family_emergency
    {| Patient.choice_index := 0; Patient.uniform_lat := 0;
       Patient.uniform_lon := 0 |}
    {| strftime_compact := "20250930152000"; hour := 15 |}
    {| strftime_compact := "20250930152000"; hour := 15 |}
    "Rajesh Kumar" "+91-9876543210" "Sunita Kumar" age
    "Connaught Place, New Delhi" "B-12, Inner Circle" t
    conscious breathing bleeding "chest pain".

(** A critical cardiac request (unconscious, not breathing, aged 70). *)
Definition critical_cardiac : Patient.FamilyEmergencyRequest.t :=
  sample_request 70 Patient.EmergencyType.CARDIAC false false false.

(** A conscious adult with a bleeding wound: tier minor. *)
Definition minor_bleeding : Patient.FamilyEmergencyRequest.t :=
  sample_request 30 Patient.EmergencyType.OTHER true true true.

(** A caller near Shalimar Bagh at 15h: Fortis is 1.2 km away, the others
    more than 12 km; the draws are within the ranges of the peak branch. *)
Definition peak_readings (beds_draw icu_draw : Z) (i : nat) : Patient.Reading :=
  {| Patient.geodesic_km :=
       match i with
       | 0%nat => 124 # 10 | 1%nat => 129 # 10 | 2%nat => 12 # 10 | _ => 183 # 10
       end;
     Patient.current_hour := 15;
     Patient.beds_randint := beds_draw;
     Patient.icu_randint := icu_draw |}.

(** A caller 200 m from AIIMS at 8h: heavy traffic, normal-hours draws. *)
Definition near_readings (i : nat) : Patient.Reading :=
  {| Patient.geodesic_km :=
       match i with
       | 0%nat => 2 # 10 | 1%nat => 6 # 10 | 2%nat => 187 # 10 | _ => 49 # 10
       end;
     Patient.current_hour := 8;
     Patient.beds_randint := 12;
     Patient.icu_randint := 5 |}.

(** A caller in Gurgaon at 8h: every hospital is more than 20 km away. *)
Definition far_readings (i : nat) : Patient.Reading :=
  {| Patient.geodesic_km :=
       match i with
       | 0%nat => 224 # 10 | 1%nat => 221 # 10 | 2%nat => 335 # 10 | _ => 216 # 10
       end;
     Patient.current_hour := 8;
     Patient.beds_randint := 12;
     Patient.icu_randint := 5 |}.

(** A clock that reads [h] hours. *)
Definition at_hour (h : Z) : datetime :=
  {| strftime_compact := "20250930080000"; hour := h |}.

(** The patient pipeline from the request to the corridor. *)
Definition patient_run (readings : nat -> Patient.Reading) (now : datetime)
    (req : Patient.FamilyEmergencyRequest.t)
    : option Patient.PatientRoute.t * option Patient.PatientGreenCorridor.t :=
  let assess := Patient.assess_patient_with_ai req in
  let hospitals := Patient.check_hospital_bed_availability readings req assess in
  let route := Patient.plan_route now req assess hospitals in
  (route, Patient.plan_corridor now route assess).

(** An accident on Mathura Road, 3 km north of AIIMS: the world measures
    3.0 km to AIIMS, 16.1 km to Fortis and 7.7 km to Max, and the oracle
    answers every prompt with [reply]. *)
Definition accident_world (reply : option string) : Realtime.World :=
  {| Realtime.geodesic_km := fun _ hospital_location =>
       if Qeq_bool (fst hospital_location) (lit (285672 # 10000)) then 3 # 1
       else if Qeq_bool (fst hospital_location) (lit (287041 # 10000))
            then 161 # 10 else 77 # 10;
     Realtime.py_hash := fun _ => 0;
     Realtime.cerebras := fun _ => reply |}.

(** The report of that accident. *)
Definition accident_report : Realtime.Accident.t :=
  {| Realtime.Accident.id := "ACC_2025093015200001";
     Realtime.Accident.description := "Two-vehicle collision on Mathura Road";
     Realtime.Accident.location := "Mathura Road, New Delhi";
     Realtime.Accident.gps_lat := lit (285942 # 10000);
     Realtime.Accident.gps_lon := lit (772100 # 10000);
     Realtime.Accident.timestamp :=
       {| strftime_compact := "20250930152000"; hour := 15 |};
     Realtime.Accident.severity_indicators := ["injuries"];
     Realtime.Accident.news_sources := ["NDTV"];
     Realtime.Accident.confidence_score := lit (85 # 100) |}.

(** Its assessment: score 5, below the fast-lane threshold of 7. *)
Definition moderate_accident : Realtime.PCSAssessment.t :=
  {| Realtime.PCSAssessment.accident_id := "ACC_2025093015200001";
     Realtime.PCSAssessment.patient_critical_score := 5;
     Realtime.PCSAssessment.severity_level := Realtime.AccidentSeverity.MODERATE;
     Realtime.PCSAssessment.recommendation := "Expedited route";
     Realtime.PCSAssessment.score_breakdown :=
       [("multi_vehicle", 2); ("highway_location", 1); ("injuries", 2)];
     Realtime.PCSAssessment.estimated_patients := 2;
     Realtime.PCSAssessment.priority_level := "MEDIUM" |}.

(** The routes of the real-time estimator for that accident. *)
Definition accident_run (reply : option string) : list Realtime.RouteOptimization.t :=
  Realtime.RouteResults.routes
    (Realtime.calculate_route_with_cerebras (accident_world reply)
       (Some {| Realtime.PCSResults.assessments := [moderate_accident] |})
       (Some {| Realtime.DetectedAccidents.accidents := [accident_report] |})).1.

(** The first hospital of the real-time table. *)
Definition aiims_trauma : Realtime.Hospital.t :=
  {| Realtime.Hospital.id := "AIIMS_TRAUMA";
     Realtime.Hospital.name := "AIIMS Trauma Center";
     Realtime.Hospital.location := "New Delhi";
     Realtime.Hospital.gps_lat := lit (285672 # 10000);
     Realtime.Hospital.gps_lon := lit (772100 # 10000);
     Realtime.Hospital.trauma_level := 1;
     Realtime.Hospital.available_beds := 15;
     Realtime.Hospital.specialties := ["trauma"; "neurosurgery"; "orthopedics"];
     Realtime.Hospital.distance_km := 3 # 1 |}.

End Scenarios.


(* ================================================================== *)
(** * The real-time workflow, continued: fallback data, approval and
      hospital notifications *)
(* ================================================================== *)

Module PyFmt.

Definition lower_char (c : ascii) : ascii :=
  let n := N_of_ascii c in
  if ((65 <=? n) && (n <=? 90))%N then ascii_of_N (n + 32) else c.

(** [s.lower()] *)
Fixpoint lower (s : string) : string :=
  match s with
  | EmptyString => EmptyString
  | String c rest => String (lower_char c) (lower rest)
  end.

(** [str(n)] for an integer. *)
Definition of_Z (n : Z) : string :=
  if n <? 0 then ("-" ++ PyStr.of_nat (Z.to_nat (- n)))%string
  else PyStr.of_nat (Z.to_nat n).

(** [sep.join(l)] *)
Fixpoint join (sep : string) (l : list string) : string :=
  match l with
  | [] => EmptyString
  | [x] => x
  | x :: rest => (x ++ sep ++ join sep rest)%string
  end.

End PyFmt.

Module Dispatch.

Import PyFloat.
Import Realtime.

(** [AccidentSeverity.value] *)
Definition severity_value (s : AccidentSeverity.t) : string :=
  match s with
  | AccidentSeverity.MINOR => "minor"
  | AccidentSeverity.MODERATE => "moderate"
  | AccidentSeverity.SERIOUS => "serious"
  | AccidentSeverity.CRITICAL => "critical"
  end.

(* ---------------------------------------------------------------- *)
(** ** Fallback data *)

Definition create_demo_accidents (now_id now_ts : datetime) : DetectedAccidents.t :=
  {| DetectedAccidents.accidents :=
       [ {| Accident.id := ("ACC_" ++ strftime_compact now_id ++ "01")%string;
            Accident.description :=
              "Multi-vehicle collision on NH-1 near AIIMS Delhi, multiple injuries reported";
            Accident.location := "NH-1 near AIIMS Delhi";
            Accident.gps_lat := lit (286139 # 10000);
            Accident.gps_lon := lit (772090 # 10000);
            Accident.timestamp := now_ts;
            Accident.severity_indicators :=
              ["multi-vehicle"; "multiple injuries"; "highway"];
            Accident.news_sources := ["Cerebras Demo"];
            Accident.confidence_score := lit (90 # 100) |} ] |}.

(** The assessment appended by iteration [i] of [create_demo_pcs]. *)
Definition demo_assessment (i : nat) (accident_id : string) : PCSAssessment.t :=
  (* Scores will be 7, 6, 5, 7, 6, 5... *)
  let base_score := 7 - (Z.of_nat i mod 3) in
  {| PCSAssessment.accident_id := accident_id;
     PCSAssessment.patient_critical_score := base_score;
     PCSAssessment.severity_level :=
       if 6 <=? base_score then AccidentSeverity.SERIOUS
       else AccidentSeverity.MODERATE;
     PCSAssessment.recommendation :=
       if 6 <=? base_score then "Activate Green Corridor" else "Expedited route";
     PCSAssessment.score_breakdown :=
       if 6 <=? base_score
       then [("multi_vehicle", 3); ("highway_location", 1);
             ("multiple_injuries", base_score - 4)]
       else [("multi_vehicle", 2); ("highway_location", 1);
             ("injuries", base_score - 3)];
     PCSAssessment.estimated_patients := if 6 <=? base_score then 3 else 2;
     PCSAssessment.priority_level :=
       if 7 <=? base_score then "HIGH" else "MEDIUM" |}.

(** [for i, accident_id in enumerate(accident_ids):] from position [i]. *)
Fixpoint demo_loop (i : nat) (accident_ids : list string) : list PCSAssessment.t :=
  match accident_ids with
  | [] => []
  | accident_id :: rest => demo_assessment i accident_id :: demo_loop (S i) rest
  end.

Definition create_demo_pcs (now : datetime) (accident_ids : option (list string))
    : PCSResults.t :=
  let accident_ids :=
    match accident_ids with
    | None => [("ACC_" ++ strftime_compact now ++ "01")%string]
    | Some ids => ids
    end in
  {| PCSResults.assessments := demo_loop 0 accident_ids |}.

(* ---------------------------------------------------------------- *)
(** ** Human approval *)

(** [while True: decision = input(..).lower().strip() ...]: [true] for
    ["y"], [false] for ["n"] followed by the line read as the reason; any
    other answer asks again. *)
Fixpoint read_decision (stdin : list string) : option (bool * list string) :=
  match stdin with
  | [] => None
  | line :: rest =>
      let decision := PyStr.strip (PyFmt.lower line) in
      if String.eqb decision "y" then Some (true, rest)
      else if String.eqb decision "n" then
        match rest with
        | _reason :: rest' => Some (false, rest')
        | [] => None
        end
      else read_decision rest
  end.

(** [for i, accident in enumerate(detected_accidents.accidents, 1):] *)
Fixpoint approval_loop (accidents : list Accident.t) (stdin : list string)
    : option (list Accident.t * list string) :=
  match accidents with
  | [] => Some ([], stdin)
  | accident :: rest =>
      match read_decision stdin with
      | Some (decision, stdin') =>
          match approval_loop rest stdin' with
          | Some (approved_accidents, stdin'') =>
              Some (if decision then accident :: approved_accidents
                    else approved_accidents, stdin'')
          | None => None
          end
      | None => None
      end
  end.

Definition get_human_approval_for_accidents
    (detected_accidents : option DetectedAccidents.t)
    : Patient.Input DetectedAccidents.t :=
  fun stdin =>
    match detected_accidents with
    | None => Some ({| DetectedAccidents.accidents := [] |}, stdin)
    | Some detected =>
        match DetectedAccidents.accidents detected with
        | [] => Some ({| DetectedAccidents.accidents := [] |}, stdin)
        | accidents =>
            match approval_loop accidents stdin with
            | Some (approved_accidents, rest) =>
                Some ({| DetectedAccidents.accidents := approved_accidents |}, rest)
            | None => None
            end
        end
    end.

(* ---------------------------------------------------------------- *)
(** ** Hospital notifications *)

Module HospitalNotification.
Record t := {
  hospital_notification_id : string;
  hospital_id : string;
  patient_id : string;
  notification_time : datetime;
  eta_minutes : Z;
  severity_level : AccidentSeverity.t;
  triage_message : string;
  required_preparations : list string;
  hospital_response : string
}.
End HospitalNotification.

Module NotificationResults.
Record t := { notifications : list HospitalNotification.t }.
End NotificationResults.

(** [{assessment.accident_id: assessment for assessment in ...}]: the
    binding added last is found first. *)
Definition pcs_map_of (assessments : list PCSAssessment.t)
    : list (string * PCSAssessment.t) :=
  foldl (fun d assessment => (PCSAssessment.accident_id assessment, assessment) :: d)
        [] assessments.

Fixpoint pcs_map_get (d : list (string * PCSAssessment.t)) (k : string)
    : option PCSAssessment.t :=
  match d with
  | [] => None
  | (k', v) :: rest => if String.eqb k' k then Some v else pcs_map_get rest k
  end.

Definition preparations_for (score : Z) : list string :=
  if 8 <=? score then
    ["Trauma bay 1 cleared"; "Neurosurgeon alerted";
     "4 units O-negative blood prepared"; "Ventilator ready"; "OR on standby"]
  else if 6 <=? score then
    ["Emergency bay prepared"; "Trauma team alerted"; "2 units blood prepared"]
  else
    ["Emergency bed prepared"; "Nurse team alerted"].

(** The notification built for one route whose assessment was found;
    [target] is the hospital object the route holds. *)
Definition make_notification (now : datetime) (route : RouteOptimization.t)
    (target : Hospital.t) (pcs_assessment : PCSAssessment.t)
    : HospitalNotification.t :=
  let severity_text :=
    PyStr.upper (severity_value (PCSAssessment.severity_level pcs_assessment)) in
  let eta := RouteOptimization.estimated_time_green_corridor route in
  let triage_message :=
    (severity_text ++ " EMERGENCY - ETA " ++ PyFmt.of_Z eta ++ " MIN. ")%string in
  let preparations :=
    preparations_for (PCSAssessment.patient_critical_score pcs_assessment) in
  let triage_message :=
    (triage_message ++ "Prepare: " ++ PyFmt.join ", " (firstn 3 preparations)
     ++ ". " ++ PyFmt.of_Z (PCSAssessment.estimated_patients pcs_assessment)
     ++ " patient(s) estimated.")%string in
  {| HospitalNotification.hospital_notification_id :=
       ("HN_" ++ RouteOptimization.accident_id route)%string;
     HospitalNotification.hospital_id := Hospital.id target;
     HospitalNotification.patient_id :=
       ("TEMP_" ++ RouteOptimization.accident_id route)%string;
     HospitalNotification.notification_time := now;
     HospitalNotification.eta_minutes := eta;
     HospitalNotification.severity_level :=
       PCSAssessment.severity_level pcs_assessment;
     HospitalNotification.triage_message := triage_message;
     HospitalNotification.required_preparations := preparations;
     HospitalNotification.hospital_response :=
       "ACKNOWLEDGED - All preparations initiated" |}.

(** One iteration of [for route in route_results.routes:]; [None] is the
    [continue].  [hospitals] is the list the routes' hospitals live in. *)
Definition notify_route (now : datetime) (hospitals : list Hospital.t)
    (pcs_map : list (string * PCSAssessment.t)) (route : RouteOptimization.t)
    : option HospitalNotification.t :=
  match pcs_map_get pcs_map (RouteOptimization.accident_id route) with
  | None => None
  | Some pcs_assessment =>
      match hospitals !! RouteOptimization.target_hospital route with
      | Some target => Some (make_notification now route target pcs_assessment)
      | None => None   (* no such position: never taken *)
      end
  end.

(** [None] is the [AttributeError] raised by [pcs_results.assessments] on a
    missing [pcs_results]. *)
Definition notify_hospitals_fhir (now : datetime) (hospitals : list Hospital.t)
    (route_results : option RouteResults.t) (pcs_results : option PCSResults.t)
    : option NotificationResults.t :=
  match route_results with
  | None => Some {| NotificationResults.notifications := [] |}
  | Some results =>
      match RouteResults.routes results with
      | [] => Some {| NotificationResults.notifications := [] |}
      | routes =>
          match pcs_results with
          | None => None
          | Some pcs =>
              let pcs_map := pcs_map_of (PCSResults.assessments pcs) in
              Some {| NotificationResults.notifications :=
                        omap (notify_route now hospitals pcs_map) routes |}
          end
      end
  end.

End Dispatch.

(* ================================================================== *)
(** * Notions used to state the properties of the hospital selection *)
(* ================================================================== *)

Module Selection.

Import Realtime.

(** The distance the world measures from [loc] to a hospital. *)
Definition distance_to (w : World) (loc : Q * Q) (h : Hospital.t) : Q :=
  geodesic_km w loc (Hospital.gps_lat h, Hospital.gps_lon h).

(** [hospital.available_beds > 0] *)
Definition has_bed (h : Hospital.t) : bool := 0 <? Hospital.available_beds h.

(** The hospitals the severity-based loop may select for a score. *)
Definition eligible (score : Z) (h : Hospital.t) : bool :=
  if 8 <=? score then (Hospital.trauma_level h =? 1) && has_bed h else has_bed h.

(** The hospital [h] at position [j] is the nearest of those satisfying
    [P], and the first of the list among the nearest. *)
Definition first_nearest (w : World) (loc : Q * Q) (P : Hospital.t -> bool)
    (hospitals : list Hospital.t) (j : nat) (h : Hospital.t) : Prop :=
  hospitals !! j = Some h /\ P h = true
  /\ forall k hk, hospitals !! k = Some hk -> P hk = true ->
       (distance_to w loc h <= distance_to w loc hk)%Q
       /\ ((k < j)%nat -> (distance_to w loc h < distance_to w loc hk)%Q).

(** What a scan for the nearest hospital satisfying [P] has found. *)
Definition scanned (w : World) (loc : Q * Q) (P : Hospital.t -> bool)
    (hospitals : list Hospital.t) (best : Best) : Prop :=
  match best with
  | None => forall k hk, hospitals !! k = Some hk -> P hk = false
  | Some (j, d) =>
      exists h, first_nearest w loc P hospitals j h /\ d = distance_to w loc h
  end.

(** The hospital list after a scan: every [distance_km] overwritten. *)
Definition measured (w : World) (loc : Q * Q) (hospitals : list Hospital.t)
    : list Hospital.t :=
  map (fun h => Hospital.set_distance_km (distance_to w loc h) h) hospitals.

(** The sum of the bed counters. *)
Definition total_beds (hospitals : list Hospital.t) : Z :=
  foldr Z.add 0 (map Hospital.available_beds hospitals).

End Selection.

(* ================================================================== *)
(** * Notions used to state the properties of the approval dialogue *)
(* ================================================================== *)

Module Dialogue.

(** What the coordinator types for one accident: answers that are asked
    again, the answer that decides, and the reason typed after a "n". *)
Record Answer := {
  refused_lines : list string;
  decision_line : string;
  approves : bool;
  reason_line : string
}.

Definition typed (a : Answer) : list string :=
  refused_lines a ++ decision_line a
    :: (if approves a then [] else [reason_line a]).

(** A line that is neither "y" nor "n" once lowered and stripped. *)
Definition undecided (l : string) : Prop :=
  PyStr.strip (PyFmt.lower l) <> "y" /\ PyStr.strip (PyFmt.lower l) <> "n".

Definition well_formed (a : Answer) : Prop :=
  Forall undecided (refused_lines a)
  /\ PyStr.strip (PyFmt.lower (decision_line a)) = (if approves a then "y" else "n").

End Dialogue.

(* ================================================================== *)
(** * Notions used to state the properties of the availability draws *)
(* ================================================================== *)

Module Draws.

(** The two [random.randint] draws of a reading lie in the ranges of the
    branch its hour selects. *)
Definition valid_draws (r : Patient.Reading) : Prop :=
  let h := Patient.current_hour r in
  if (14 <=? h) && (h <=? 18) then
    18 <= Patient.beds_randint r <= 22 /\ 6 <= Patient.icu_randint r <= 9
  else if (22 <=? h) || (h <=? 6) then
    8 <= Patient.beds_randint r <= 12 /\ 3 <= Patient.icu_randint r <= 6
  else
    10 <= Patient.beds_randint r <= 16 /\ 4 <= Patient.icu_randint r <= 7.

End Draws.

(* ================================================================== *)
(** * The patient dashboard: the steps over the session state
      ([patient_initiate_ambulance_dashboard.py]) *)
(* ================================================================== *)

Module Dashboard.

Import Patient.

(** The entries of [st.session_state] that the workflow steps read and
    write. *)
Module Session.
Record t := {
  family_emergency_request : option FamilyEmergencyRequest.t;
  patient_assessment : option PatientAssessment.t;
  available_hospitals : list RealTimeHospital.t;
  selected_hospital : option RealTimeHospital.t;
  patient_route : option PatientRoute.t;
  green_corridor_active : option PatientGreenCorridor.t
}.
End Session.

(** The initial values of the session entries. *)
Definition initial : Session.t :=
  {| Session.family_emergency_request := None;
     Session.patient_assessment := None;
     Session.available_hospitals := [];
     Session.selected_hospital := None;
     Session.patient_route := None;
     Session.green_corridor_active := None |}.

(** [st.session_state.family_emergency_request = emergency_request], done
    by the form handler and by the sample-data button. *)
Definition load_request (emergency_request : FamilyEmergencyRequest.t)
    (s : Session.t) : Session.t :=
  {| Session.family_emergency_request := Some emergency_request;
     Session.patient_assessment := Session.patient_assessment s;
     Session.available_hospitals := Session.available_hospitals s;
     Session.selected_hospital := Session.selected_hospital s;
     Session.patient_route := Session.patient_route s;
     Session.green_corridor_active := Session.green_corridor_active s |}.

(** The select box of the hospital tab:
    [selected_hospital = available_hospitals[selected_index]]. *)
Definition select_hospital (selected_index : nat) (s : Session.t) : Session.t :=
  match Session.available_hospitals s !! selected_index with
  | Some hospital =>
      {| Session.family_emergency_request := Session.family_emergency_request s;
         Session.patient_assessment := Session.patient_assessment s;
         Session.available_hospitals := Session.available_hospitals s;
         Session.selected_hospital := Some hospital;
         Session.patient_route := Session.patient_route s;
         Session.green_corridor_active := Session.green_corridor_active s |}
  | None => s   (* the select box offers the positions of the list only *)
  end.

(** Each step returns the session it leaves and the value it returns. *)
Definition dashboard_assess_patient_with_ai (s : Session.t)
    : Session.t * option PatientAssessment.t :=
  match Session.family_emergency_request s with
  | None => (s, None)
  | Some emergency_request =>
      let assessment := assess_patient_with_ai emergency_request in
      ({| Session.family_emergency_request := Session.family_emergency_request s;
          Session.patient_assessment := Some assessment;
          Session.available_hospitals := Session.available_hospitals s;
          Session.selected_hospital := Session.selected_hospital s;
          Session.patient_route := Session.patient_route s;
          Session.green_corridor_active := Session.green_corridor_active s |},
       Some assessment)
  end.

Definition dashboard_check_hospital_availability (readings : nat -> Reading)
    (s : Session.t) : Session.t * option (list RealTimeHospital.t) :=
  match Session.family_emergency_request s, Session.patient_assessment s with
  | Some emergency_request, Some assessment =>
      match check_hospital_bed_availability readings emergency_request assessment with
      | [] => (s, None)
      | hospital0 :: rest =>
          ({| Session.family_emergency_request := Session.family_emergency_request s;
              Session.patient_assessment := Session.patient_assessment s;
              Session.available_hospitals := hospital0 :: rest;
              Session.selected_hospital := Some hospital0;
              Session.patient_route := Session.patient_route s;
              Session.green_corridor_active := Session.green_corridor_active s |},
           Some (hospital0 :: rest))
      end
  | _, _ => (s, None)
  end.

Definition dashboard_calculate_route (now : datetime) (s : Session.t)
    : Session.t * option PatientRoute.t :=
  match Session.family_emergency_request s, Session.patient_assessment s,
        Session.available_hospitals s with
  | Some emergency_request, Some assessment, hospital0 :: _ =>
      let route := calculate_patient_route now emergency_request hospital0 assessment in
      ({| Session.family_emergency_request := Session.family_emergency_request s;
          Session.patient_assessment := Session.patient_assessment s;
          Session.available_hospitals := Session.available_hospitals s;
          Session.selected_hospital := Some (PatientRoute.hospital_destination route);
          Session.patient_route := Some route;
          Session.green_corridor_active := Session.green_corridor_active s |},
       Some route)
  | _, _, _ => (s, None)
  end.

Definition dashboard_activate_green_corridor (now : datetime) (s : Session.t)
    : Session.t * option PatientGreenCorridor.t :=
  match Session.patient_route s, Session.patient_assessment s with
  | Some route, Some assessment =>
      match activate_patient_green_corridor now route assessment with
      | Some green_corridor =>
          ({| Session.family_emergency_request := Session.family_emergency_request s;
              Session.patient_assessment := Session.patient_assessment s;
              Session.available_hospitals := Session.available_hospitals s;
              Session.selected_hospital := Session.selected_hospital s;
              Session.patient_route := Session.patient_route s;
              Session.green_corridor_active := Some green_corridor |},
           Some green_corridor)
      | None => (s, None)
      end
  | _, _ => (s, None)
  end.

(** The four steps in the order of the tabs, on one clock reading. *)
Definition run_steps (readings : nat -> Reading) (now : datetime)
    (s : Session.t) : Session.t :=
  let s := (dashboard_assess_patient_with_ai s).1 in
  let s := (dashboard_check_hospital_availability readings s).1 in
  let s := (dashboard_calculate_route now s).1 in
  (dashboard_activate_green_corridor now s).1.

End Dashboard.

(* ================================================================== *)
(** * The real-time dashboard: the review of the detected accidents
      ([realtime_incident_ambulance_dashboard.py]) *)
(* ================================================================== *)

Module Review.

Section Lists.

(** The accidents, with the [==] that [in] and [list.remove] use. *)
Context {A : Type}.
Variable eqb : A -> A -> bool.

(** [x in l]: some item of [l] equals [x]. *)
Fixpoint py_in (x : A) (l : list A) : bool :=
  match l with
  | [] => false
  | item :: l' => eqb item x || py_in x l'
  end.

(** [l.remove(x)]: without the first item that equals [x].  The source
    calls it under [if x in l] only. *)
Fixpoint py_remove (x : A) (l : list A) : list A :=
  match l with
  | [] => []
  | item :: l' => if eqb item x then l' else item :: py_remove x l'
  end.

(** The three lists of [st.session_state] that the review works on. *)
Record Lists := {
  detected_accidents : list A;
  approved_accidents : list A;
  rejected_accidents : list (A * string)
}.

Definition approve_accident (accident : A) (s : Lists) : Lists :=
  if negb (py_in accident (approved_accidents s)) then
    {| approved_accidents := approved_accidents s ++ [accident];
       detected_accidents :=
         if py_in accident (detected_accidents s)
         then py_remove accident (detected_accidents s)
         else detected_accidents s;
       rejected_accidents := rejected_accidents s |}
  else s.

Definition reject_accident (accident : A) (reason : string) (s : Lists) : Lists :=
  match reason with
  | EmptyString => s
  | _ =>
      {| rejected_accidents := rejected_accidents s ++ [(accident, reason)];
         detected_accidents :=
           if py_in accident (detected_accidents s)
           then py_remove accident (detected_accidents s)
           else detected_accidents s;
         approved_accidents := approved_accidents s |}
  end.

(** The [total_incidents] of the overview tab. *)
Definition total_incidents (s : Lists) : nat :=
  (length (detected_accidents s) + length (approved_accidents s)
   + length (rejected_accidents s))%nat.

(** A press of one of the two buttons shown beside a pending accident. *)
Inductive Click :=
| Approve (accident : A)
| Reject (accident : A) (reason : string).

Definition clicked (c : Click) : A :=
  match c with Approve accident => accident | Reject accident _ => accident end.

Definition click (s : Lists) (c : Click) : Lists :=
  match c with
  | Approve accident => approve_accident accident s
  | Reject accident reason => reject_accident accident reason s
  end.

(** The buttons are drawn for the accidents of [detected_accidents]: each
    press is on an accident that is pending when it is pressed. *)
Fixpoint on_pending (s : Lists) (cs : list Click) : Prop :=
  match cs with
  | [] => True
  | c :: cs' =>
      py_in (clicked c) (detected_accidents s) = true
      /\ on_pending (click s c) cs'
  end.

(** No item equals a later one. *)
Definition distinct (l : list A) : Prop :=
  forall i j x y, (i < j)%nat -> l !! i = Some x -> l !! j = Some y ->
    eqb x y = false.

End Lists.

End Review.


(* ================================================================== *)
(** * Properties of the rounding model *)
(* ================================================================== *)

Module PyFloatFacts.

Import PyFloat.

Lemma rne_bounds u v : 0 < v -> - v <= 2 * (rne u v * v - u) <= v.
Proof.
  intros Hv. unfold rne.
  pose proof (Z.div_mod u v ltac:(lia)) as Hd.
  pose proof (Z.mod_pos_bound u v Hv) as Hm.
  destruct (Z.compare_spec (2 * (u mod v)) v); [destruct (Z.even (u / v))| |]; nia.
Qed.

Lemma rne_ge K u v : 0 < v -> K * v <= u -> K <= rne u v.
Proof.
  intros Hv H.
  assert (K <= u / v) by (apply Z.div_le_lower_bound; lia).
  unfold rne. destruct (_ ?= _); [destruct (Z.even _)| |]; lia.
Qed.

Lemma rne_le K u v : 0 < v -> u <= K * v -> rne u v <= K.
Proof.
  intros Hv H. unfold rne.
  pose proof (Z.div_mod u v ltac:(lia)) as Hd.
  pose proof (Z.mod_pos_bound u v Hv) as Hm.
  destruct (Z.compare_spec (2 * (u mod v)) v); [destruct (Z.even (u / v))| |]; nia.
Qed.

Lemma scaled_den_pos q e : 0 < q -> 0 < scaled_den q e.
Proof.
  intros Hq. unfold scaled_den. destruct (Z.leb_spec 0 e); [|lia].
  pose proof (Z.pow_pos_nonneg 2 e ltac:(lia) ltac:(lia)). nia.
Qed.

Lemma scaled_succ p q e :
  0 < p -> 0 < q ->
  scaled_num p e * scaled_den q (e + 1) = 2 * scaled_num p (e + 1) * scaled_den q e.
Proof.
  intros Hp Hq. unfold scaled_num, scaled_den.
  destruct (Z.leb_spec 0 e), (Z.leb_spec 0 (e + 1)); try lia.
  - rewrite Z.pow_add_r by lia. change (2 ^ 1) with 2. ring.
  - replace (- e) with 1 by lia. replace (e + 1) with 0 by lia.
    change (2 ^ 1) with 2. change (2 ^ 0) with 1. ring.
  - replace (- e) with (- (e + 1) + 1) by lia.
    rewrite Z.pow_add_r by lia. change (2 ^ 1) with 2. ring.
Qed.

Ltac pow2_consts :=
  change (2 ^ 52) with 4503599627370496 in *;
  change (2 ^ 53) with 9007199254740992 in *;
  change (2 ^ 54) with 18014398509481984 in *.

(** The scaled value lies in the binade [2^52, 2^53). *)
Lemma ulp_exp_spec p q :
  0 < p -> 0 < q ->
  2 ^ 52 * scaled_den q (ulp_exp p q) <= scaled_num p (ulp_exp p q)
    < 2 ^ 53 * scaled_den q (ulp_exp p q).
Proof.
  intros Hp Hq.
  pose proof (Z.log2_spec p Hp) as Ha. pose proof (Z.log2_spec q Hq) as Hb.
  pose proof (Z.log2_nonneg p) as Ha0. pose proof (Z.log2_nonneg q) as Hb0.
  unfold Z.succ in *. rewrite Z.pow_add_r in Ha, Hb by lia. change (2 ^ 1) with 2 in *.
  set (a := Z.log2 p) in *. set (b := Z.log2 q) in *.
  assert (H0 : 2 ^ 52 * scaled_den q (a - b - 53) < scaled_num p (a - b - 53)
               < 2 ^ 54 * scaled_den q (a - b - 53)).
  { unfold scaled_num, scaled_den. destruct (Z.leb_spec 0 (a - b - 53)).
    - assert (Hab : 2 ^ a = 2 ^ b * 2 ^ 53 * 2 ^ (a - b - 53)).
      { rewrite <- !Z.pow_add_r by lia. f_equal. lia. }
      pose proof (Z.pow_pos_nonneg 2 (a - b - 53) ltac:(lia) ltac:(lia)).
      pose proof (Z.pow_pos_nonneg 2 b ltac:(lia) ltac:(lia)).
      pow2_consts. nia.
    - assert (Hab : 2 ^ a * 2 ^ (- (a - b - 53)) = 2 ^ b * 2 ^ 53).
      { rewrite <- !Z.pow_add_r by lia. f_equal. lia. }
      pose proof (Z.pow_pos_nonneg 2 (- (a - b - 53)) ltac:(lia) ltac:(lia)).
      pose proof (Z.pow_pos_nonneg 2 b ltac:(lia) ltac:(lia)).
      pow2_consts. nia. }
  unfold ulp_exp. fold a b.
  destruct (Z.ltb_spec (scaled_num p (a - b - 53)) (2 ^ 53 * scaled_den q (a - b - 53))).
  - lia.
  - pose proof (scaled_succ p q (a - b - 53) Hp Hq) as Hs.
    pose proof (scaled_den_pos q (a - b - 53) Hq).
    pose proof (scaled_den_pos q (a - b - 53 + 1) Hq).
    pow2_consts. nia.
Qed.

Lemma bpow_nonneg_eq e : 0 <= e -> bpow e = inject_Z (2 ^ e).
Proof. intros H. unfold bpow. destruct (Z.leb_spec 0 e); [reflexivity | lia]. Qed.

Lemma bpow_neg_inv e : e < 0 -> (bpow e * inject_Z (2 ^ (- e)) == 1)%Q.
Proof.
  intros H. unfold bpow. destruct (Z.leb_spec 0 e); [lia|].
  pose proof (Z.pow_pos_nonneg 2 (- e) ltac:(lia) ltac:(lia)) as Hp.
  unfold Qeq, Qmult, inject_Z. cbn [Qnum Qden].
  rewrite Pos.mul_1_r, Z2Pos.id by lia. lia.
Qed.

Lemma bpow_pos e : (0 < bpow e)%Q.
Proof.
  unfold bpow. destruct (Z.leb_spec 0 e).
  - pose proof (Z.pow_pos_nonneg 2 e ltac:(lia) ltac:(lia)).
    rewrite <- (Zlt_Qlt 0). lia.
  - reflexivity.
Qed.

Lemma scaled_repr p q e :
  (inject_Z (scaled_num p e) * bpow e * inject_Z q
   == inject_Z p * inject_Z (scaled_den q e))%Q.
Proof.
  unfold scaled_num, scaled_den. destruct (Z.leb_spec 0 e).
  - rewrite bpow_nonneg_eq by lia. rewrite !inject_Z_mult. ring.
  - rewrite inject_Z_mult.
    setoid_replace (inject_Z p * inject_Z (2 ^ (- e)) * bpow e * inject_Z q)%Q
      with (inject_Z p * inject_Z q * (bpow e * inject_Z (2 ^ (- e))))%Q using relation Qeq by ring.
    rewrite bpow_neg_inv by lia. ring.
Qed.

(** Rounding a positive fraction moves it by at most [2^-53] of itself. *)
Lemma b64_pos_rel_err p q :
  0 < p -> 0 < q ->
  let x := (inject_Z p / inject_Z q)%Q in
  (x * (1 - eps64) <= b64_pos p q <= x * (1 + eps64))%Q.
Proof.
  intros Hp Hq x.
  pose proof (ulp_exp_spec p q Hp Hq) as [Hlo Hhi].
  pose proof (scaled_den_pos q (ulp_exp p q) Hq) as HV.
  pose proof (rne_bounds (scaled_num p (ulp_exp p q)) (scaled_den q (ulp_exp p q)) HV)
    as [Hm1 Hm2].
  pose proof (scaled_repr p q (ulp_exp p q)) as Hr.
  pose proof (bpow_pos (ulp_exp p q)) as Hbp.
  unfold b64_pos.
  set (e := ulp_exp p q) in *. set (U := scaled_num p e) in *.
  set (V := scaled_den q e) in *. set (m := rne U V) in *.
  assert (HqQ : (0 < inject_Z q)%Q) by (rewrite <- (Zlt_Qlt 0); lia).
  assert (HVQ : (0 < inject_Z V)%Q) by (rewrite <- (Zlt_Qlt 0); lia).
  assert (Hx : (x * inject_Z V == inject_Z U * bpow e)%Q).
  { unfold x. apply (Qmult_inj_r _ _ (inject_Z q)); [lra|].
    setoid_replace (inject_Z p / inject_Z q * inject_Z V * inject_Z q)%Q
      with (inject_Z p * inject_Z V)%Q using relation Qeq by (field; lra).
    rewrite <- Hr. ring. }
  assert (H1 : (inject_Z U * (1 - eps64) <= inject_Z m * inject_Z V)%Q).
  { assert (Hz : (2 ^ 53 - 1) * U <= 2 ^ 53 * (m * V)) by (pow2_consts; lia).
    rewrite Zle_Qle in Hz. rewrite !inject_Z_mult in Hz.
    unfold eps64. change (2 ^ 53)%positive with 9007199254740992%positive.
    change (inject_Z (2 ^ 53 - 1)) with (9007199254740991 # 1)%Q in Hz.
    change (inject_Z (2 ^ 53)) with (9007199254740992 # 1)%Q in Hz. lra. }
  assert (H2 : (inject_Z m * inject_Z V <= inject_Z U * (1 + eps64))%Q).
  { assert (Hz : 2 ^ 53 * (m * V) <= (2 ^ 53 + 1) * U) by (pow2_consts; lia).
    rewrite Zle_Qle in Hz. rewrite !inject_Z_mult in Hz.
    unfold eps64. change (2 ^ 53)%positive with 9007199254740992%positive.
    change (inject_Z (2 ^ 53 + 1)) with (9007199254740993 # 1)%Q in Hz.
    change (inject_Z (2 ^ 53)) with (9007199254740992 # 1)%Q in Hz. lra. }
  split.
  - apply (Qmult_le_r _ _ (inject_Z V)); [exact HVQ|].
    setoid_replace (x * (1 - eps64) * inject_Z V)%Q
      with (x * inject_Z V * (1 - eps64))%Q using relation Qeq by ring.
    rewrite Hx.
    setoid_replace (inject_Z U * bpow e * (1 - eps64))%Q
      with (inject_Z U * (1 - eps64) * bpow e)%Q using relation Qeq by ring.
    setoid_replace (inject_Z m * bpow e * inject_Z V)%Q
      with (inject_Z m * inject_Z V * bpow e)%Q using relation Qeq by ring.
    apply Qmult_le_compat_r; [exact H1 | lra].
  - apply (Qmult_le_r _ _ (inject_Z V)); [exact HVQ|].
    setoid_replace (x * (1 + eps64) * inject_Z V)%Q
      with (x * inject_Z V * (1 + eps64))%Q using relation Qeq by ring.
    rewrite Hx.
    setoid_replace (inject_Z U * bpow e * (1 + eps64))%Q
      with (inject_Z U * (1 + eps64) * bpow e)%Q using relation Qeq by ring.
    setoid_replace (inject_Z m * bpow e * inject_Z V)%Q
      with (inject_Z m * inject_Z V * bpow e)%Q using relation Qeq by ring.
    apply Qmult_le_compat_r; [exact H2 | lra].
Qed.

(** Rounding never crosses an integer below [2^53]. *)
Lemma b64_pos_ge_int p q N :
  0 < p -> 0 < q -> 0 <= N < 2 ^ 53 -> N * q <= p ->
  (inject_Z N <= b64_pos p q)%Q.
Proof.
  intros Hp Hq HN Hx.
  pose proof (ulp_exp_spec p q Hp Hq) as [Hlo Hhi].
  pose proof (scaled_den_pos q (ulp_exp p q) Hq) as HV.
  unfold b64_pos. set (e := ulp_exp p q) in *.
  destruct (Z.leb_spec 0 e) as [He|He].
  - rewrite bpow_nonneg_eq by lia. rewrite <- inject_Z_mult, <- Zle_Qle.
    assert (Hm : 2 ^ 52 <= rne (scaled_num p e) (scaled_den q e))
      by (apply rne_ge; lia).
    destruct (Z.eq_dec e 0) as [E0|E0].
    + rewrite E0 in *. change (2 ^ 0) with 1.
      assert (N <= rne (scaled_num p 0) (scaled_den q 0)).
      { apply rne_ge; [exact HV|]. unfold scaled_num, scaled_den. simpl. lia. }
      lia.
    + assert (2 ^ 1 <= 2 ^ e) by (apply Z.pow_le_mono_r; lia).
      change (2 ^ 1) with 2 in *. pow2_consts. nia.
  - pose proof (Z.pow_pos_nonneg 2 (- e) ltac:(lia) ltac:(lia)) as Hpw.
    assert (Hm : N * 2 ^ (- e) <= rne (scaled_num p e) (scaled_den q e)).
    { apply rne_ge; [exact HV|]. unfold scaled_num, scaled_den.
      destruct (Z.leb_spec 0 e); [lia|]. nia. }
    rewrite Zle_Qle, inject_Z_mult in Hm.
    apply (Qmult_le_compat_r _ _ (bpow e)) in Hm; [|pose proof (bpow_pos e); lra].
    setoid_replace (inject_Z N * inject_Z (2 ^ (- e)) * bpow e)%Q
      with (inject_Z N * (bpow e * inject_Z (2 ^ (- e))))%Q using relation Qeq in Hm by ring.
    rewrite bpow_neg_inv in Hm by lia. lra.
Qed.

Lemma b64_pos_le_int p q N :
  0 < p -> 0 < q -> 0 <= N < 2 ^ 53 -> p <= N * q ->
  (b64_pos p q <= inject_Z N)%Q.
Proof.
  intros Hp Hq HN Hx.
  pose proof (ulp_exp_spec p q Hp Hq) as [Hlo Hhi].
  pose proof (scaled_den_pos q (ulp_exp p q) Hq) as HV.
  unfold b64_pos. set (e := ulp_exp p q) in *.
  destruct (Z.leb_spec 0 e) as [He|He].
  - rewrite bpow_nonneg_eq by lia. rewrite <- inject_Z_mult, <- Zle_Qle.
    assert (E0 : e = 0).
    { destruct (Z.eq_dec e 0) as [E0|E0]; [exact E0|exfalso].
      assert (2 ^ 1 <= 2 ^ e) by (apply Z.pow_le_mono_r; lia).
      unfold scaled_num, scaled_den in Hlo. destruct (Z.leb_spec 0 e); [|lia].
      change (2 ^ 1) with 2 in *. pow2_consts. nia. }
    rewrite E0 in *. change (2 ^ 0) with 1.
    assert (rne (scaled_num p 0) (scaled_den q 0) <= N).
    { apply rne_le; [exact HV|]. unfold scaled_num, scaled_den. simpl. lia. }
    lia.
  - pose proof (Z.pow_pos_nonneg 2 (- e) ltac:(lia) ltac:(lia)) as Hpw.
    assert (Hm : rne (scaled_num p e) (scaled_den q e) <= N * 2 ^ (- e)).
    { apply rne_le; [exact HV|]. unfold scaled_num, scaled_den.
      destruct (Z.leb_spec 0 e); [lia|]. nia. }
    rewrite Zle_Qle, inject_Z_mult in Hm.
    apply (Qmult_le_compat_r _ _ (bpow e)) in Hm; [|pose proof (bpow_pos e); lra].
    setoid_replace (inject_Z N * inject_Z (2 ^ (- e)) * bpow e)%Q
      with (inject_Z N * (bpow e * inject_Z (2 ^ (- e))))%Q using relation Qeq in Hm by ring.
    rewrite bpow_neg_inv in Hm by lia. lra.
Qed.

Lemma Qred_num_den x :
  (inject_Z (Qnum (Qred x)) / inject_Z (Zpos (Qden (Qred x))) == x)%Q.
Proof.
  rewrite <- (Qred_correct x) at 3. destruct (Qred x) as [n d]. cbn [Qnum Qden].
  rewrite (Qmake_Qdiv n d). reflexivity.
Qed.

Lemma Qred_num_sign x : (0 <= x)%Q -> 0 <= Qnum (Qred x).
Proof.
  intros H. rewrite <- (Qred_correct x) in H. destruct (Qred x) as [n d].
  unfold Qle in H. cbn in *. lia.
Qed.

#[global] Instance b64_Proper : Proper (Qeq ==> Qeq) b64.
Proof. intros x y H. unfold b64. rewrite (Qred_complete x y H). reflexivity. Qed.

Lemma b64_rel_err x :
  (0 <= x)%Q -> (x * (1 - eps64) <= b64 x <= x * (1 + eps64))%Q.
Proof.
  intros Hx. pose proof (Qred_num_sign x Hx) as Hs.
  pose proof (Qred_num_den x) as Hq. unfold b64.
  destruct (Qnum (Qred x)) as [|p|p] eqn:E; [| |lia].
  - assert (x == 0)%Q by (rewrite <- Hq; reflexivity).
    split; rewrite H; lra.
  - pose proof (b64_pos_rel_err (Zpos p) (Zpos (Qden (Qred x))) ltac:(lia) ltac:(lia)) as H.
    cbv zeta in H. rewrite Hq in H. exact H.
Qed.

Lemma b64_ge_int x N :
  0 <= N < 2 ^ 53 -> (inject_Z N <= x)%Q -> (inject_Z N <= b64 x)%Q.
Proof.
  intros HN Hx.
  assert (H0 : (0 <= x)%Q).
  { assert (0 <= inject_Z N)%Q by (rewrite <- (Zle_Qle 0); lia). lra. }
  pose proof (Qred_num_sign x H0) as Hs. unfold b64.
  rewrite <- (Qred_correct x) in Hx. destruct (Qred x) as [n d]. cbn [Qnum Qden] in *.
  destruct n as [|p|p]; [| |lia].
  - unfold Qle in *. cbn in *. lia.
  - apply b64_pos_ge_int; try lia. unfold Qle in Hx. cbn in Hx. lia.
Qed.

Lemma b64_le_int x N :
  0 <= N < 2 ^ 53 -> (0 <= x)%Q -> (x <= inject_Z N)%Q -> (b64 x <= inject_Z N)%Q.
Proof.
  intros HN H0 Hx.
  pose proof (Qred_num_sign x H0) as Hs. unfold b64.
  rewrite <- (Qred_correct x) in Hx. destruct (Qred x) as [n d]. cbn [Qnum Qden] in *.
  destruct n as [|p|p]; [| |lia].
  - rewrite <- (Zle_Qle 0). lia.
  - apply b64_pos_le_int; try lia. unfold Qle in Hx. cbn in Hx. lia.
Qed.

Lemma b64_nonneg x : (0 <= x)%Q -> (0 <= b64 x)%Q.
Proof. intros H. apply (b64_ge_int x 0); [pow2_consts; lia | exact H]. Qed.

(** Integers below [2^53] are binary64 values. *)
Lemma of_int_exact N : 0 <= N < 2 ^ 53 -> (of_int N == inject_Z N)%Q.
Proof.
  intros HN. unfold of_int. apply Qle_antisym.
  - apply b64_le_int; [exact HN | rewrite <- (Zle_Qle 0); lia | lra].
  - apply b64_ge_int; [exact HN | lra].
Qed.

(** [int(x)] of a non-negative float is its floor. *)
Lemma py_int_spec x :
  (0 <= x)%Q -> (inject_Z (py_int x) <= x < inject_Z (py_int x) + 1)%Q.
Proof.
  intros H. unfold py_int.
  destruct (Qle_bool 0 x) eqn:E.
  - split; [apply Qfloor_le|].
    pose proof (Qlt_floor x) as Hl. rewrite inject_Z_plus in Hl. exact Hl.
  - apply Qle_bool_iff in H. congruence.
Qed.

Lemma py_int_nonneg x : (0 <= x)%Q -> 0 <= py_int x.
Proof.
  intros H. destruct (py_int_spec x H) as [_ Hu].
  assert (Hq : (inject_Z (-1) < inject_Z (py_int x))%Q).
  { change (inject_Z (-1)) with (-1 # 1)%Q. lra. }
  rewrite <- Zlt_Qlt in Hq. lia.
Qed.

Lemma py_int_le x N : (0 <= x)%Q -> (x < inject_Z N + 1)%Q -> py_int x <= N.
Proof.
  intros H0 H. destruct (py_int_spec x H0) as [Hl _].
  assert (Hq : (inject_Z (py_int x) < inject_Z (N + 1))%Q)
    by (rewrite inject_Z_plus; change (inject_Z 1) with 1%Q; lra).
  rewrite <- Zlt_Qlt in Hq. lia.
Qed.

Lemma py_int_ge x N : (inject_Z N <= x)%Q -> 0 <= N -> N <= py_int x.
Proof.
  intros H HN.
  assert (H0 : (0 <= x)%Q).
  { assert (0 <= inject_Z N)%Q by (rewrite <- (Zle_Qle 0); lia). lra. }
  destruct (py_int_spec x H0) as [_ Hu].
  assert (Hq : (inject_Z N < inject_Z (py_int x + 1))%Q)
    by (rewrite inject_Z_plus; change (inject_Z 1) with 1%Q; lra).
  rewrite <- Zlt_Qlt in Hq. lia.
Qed.

End PyFloatFacts.

(* ================================================================== *)
(** * The severity scorer *)
(* ================================================================== *)

Module ScorerFacts.

Import Patient.

(** The weight the scorer adds for the category. *)
Lemma category_weight_table t :
  dict_get emergency_scores t 1 =
  match t with
  | EmergencyType.CARDIAC | EmergencyType.STROKE | EmergencyType.UNCONSCIOUS => 4
  | EmergencyType.ACCIDENT | EmergencyType.BREATHING
  | EmergencyType.BLEEDING | EmergencyType.POISONING => 3
  | EmergencyType.BURNS => 2
  | EmergencyType.OTHER => 1
  end.
Proof. destruct t; reflexivity. Qed.

(** Unfolding of the scorer into the raw sum and the tier chosen from the
    capped score. *)
Lemma assess_score_sum r :
  PatientAssessment.patient_critical_score (assess_patient_with_ai r) =
  Z.min 10
    ((if FamilyEmergencyRequest.patient_age r <? 1 then 3
      else if FamilyEmergencyRequest.patient_age r <? 5 then 2
      else if 75 <? FamilyEmergencyRequest.patient_age r then 2
      else if 65 <? FamilyEmergencyRequest.patient_age r then 1 else 0)
     + (if FamilyEmergencyRequest.is_patient_conscious r then 0 else 4)
     + (if FamilyEmergencyRequest.is_patient_breathing r then 0 else 5)
     + (if FamilyEmergencyRequest.any_bleeding r then 2 else 0)
     + dict_get emergency_scores (FamilyEmergencyRequest.emergency_type r) 1).
Proof.
  unfold assess_patient_with_ai.
  destruct (FamilyEmergencyRequest.patient_age r <? 1);
    [|destruct (FamilyEmergencyRequest.patient_age r <? 5);
      [|destruct (75 <? FamilyEmergencyRequest.patient_age r);
        [|destruct (65 <? FamilyEmergencyRequest.patient_age r)]]];
  destruct (FamilyEmergencyRequest.is_patient_conscious r),
           (FamilyEmergencyRequest.is_patient_breathing r),
           (FamilyEmergencyRequest.any_bleeding r); cbn -[Z.min dict_get Z.leb];
  repeat match goal with
         | |- context [if ?c then _ else _] => destruct c
         end; cbn -[Z.min dict_get]; rewrite (Z.min_comm 10); f_equal; lia.
Qed.

Lemma assess_tier r :
  let a := assess_patient_with_ai r in
  let s := PatientAssessment.patient_critical_score a in
  (PatientAssessment.severity_level a, PatientAssessment.green_corridor_required a) =
  if 8 <=? s then (CriticalityLevel.CRITICAL, true)
  else if 6 <=? s then (CriticalityLevel.SERIOUS, true)
  else if 4 <=? s then (CriticalityLevel.MODERATE, false)
  else (CriticalityLevel.MINOR, false).
Proof.
  cbv zeta. rewrite assess_score_sum. unfold assess_patient_with_ai.
  destruct (FamilyEmergencyRequest.patient_age r <? 1);
    [|destruct (FamilyEmergencyRequest.patient_age r <? 5);
      [|destruct (75 <? FamilyEmergencyRequest.patient_age r);
        [|destruct (65 <? FamilyEmergencyRequest.patient_age r)]]];
  destruct (FamilyEmergencyRequest.is_patient_conscious r),
           (FamilyEmergencyRequest.is_patient_breathing r),
           (FamilyEmergencyRequest.any_bleeding r);
  destruct (FamilyEmergencyRequest.emergency_type r); reflexivity.
Qed.

End ScorerFacts.

Module ScorerClaims.

Import Patient.
Import Notions.
Import Scenarios.

Ltac split_tests :=
  repeat match goal with
         | |- context [Z.ltb ?a ?b] => destruct (Z.ltb_spec a b)
         | |- context [Z.leb ?a ?b] => destruct (Z.leb_spec a b)
         | H : context [Z.ltb ?a ?b] |- _ => destruct (Z.ltb_spec a b)
         | H : context [Z.leb ?a ?b] |- _ => destruct (Z.leb_spec a b)
         end.

(** C2, as amended.  The score is the capped sum of the additive weights:
    an age-band weight (3 below one year, 2 from one to four, 2 above 75, 1
    from 66 to 75, 0 otherwise), 4 for unconsciousness, 5 for non-breathing,
    2 for bleeding and the category weight of the table.  It lies in
    [0, 10]; the tier is critical iff score >= 8, serious iff 6 <= score < 8,
    moderate iff 4 <= score < 6 and minor otherwise, so a higher score never
    gets a lower tier. *)
Theorem severity_score_weights_and_tiers (r : FamilyEmergencyRequest.t) :
  let a := assess_patient_with_ai r in
  let s := PatientAssessment.patient_critical_score a in
  let age := FamilyEmergencyRequest.patient_age r in
  (exists w_age : Z,
      s = Z.min 10
            (w_age
             + (if FamilyEmergencyRequest.is_patient_conscious r then 0 else 4)
             + (if FamilyEmergencyRequest.is_patient_breathing r then 0 else 5)
             + (if FamilyEmergencyRequest.any_bleeding r then 2 else 0)
             + match FamilyEmergencyRequest.emergency_type r with
               | EmergencyType.CARDIAC | EmergencyType.STROKE
               | EmergencyType.UNCONSCIOUS => 4
               | EmergencyType.ACCIDENT | EmergencyType.BREATHING
               | EmergencyType.BLEEDING | EmergencyType.POISONING => 3
               | EmergencyType.BURNS => 2
               | EmergencyType.OTHER => 1
               end)
      /\ (age < 1 -> w_age = 3)
      /\ (1 <= age < 5 -> w_age = 2)
      /\ (75 < age -> w_age = 2)
      /\ (65 < age <= 75 -> w_age = 1)
      /\ (5 <= age <= 65 -> w_age = 0))
  /\ 0 <= s <= 10
  /\ (PatientAssessment.severity_level a = CriticalityLevel.CRITICAL <-> 8 <= s)
  /\ (PatientAssessment.severity_level a = CriticalityLevel.SERIOUS <-> 6 <= s < 8)
  /\ (PatientAssessment.severity_level a = CriticalityLevel.MODERATE <-> 4 <= s < 6)
  /\ (PatientAssessment.severity_level a = CriticalityLevel.MINOR <-> s < 4)
  /\ (forall r' : FamilyEmergencyRequest.t,
        let a' := assess_patient_with_ai r' in
        s <= PatientAssessment.patient_critical_score a' ->
        CriticalityLevel.rank (PatientAssessment.severity_level a)
        <= CriticalityLevel.rank (PatientAssessment.severity_level a')).
Proof.
  cbv zeta.
  assert (Htier : forall q,
    (PatientAssessment.severity_level (assess_patient_with_ai q) = CriticalityLevel.CRITICAL
       <-> 8 <= PatientAssessment.patient_critical_score (assess_patient_with_ai q))
    /\ (PatientAssessment.severity_level (assess_patient_with_ai q) = CriticalityLevel.SERIOUS
       <-> 6 <= PatientAssessment.patient_critical_score (assess_patient_with_ai q) < 8)
    /\ (PatientAssessment.severity_level (assess_patient_with_ai q) = CriticalityLevel.MODERATE
       <-> 4 <= PatientAssessment.patient_critical_score (assess_patient_with_ai q) < 6)
    /\ (PatientAssessment.severity_level (assess_patient_with_ai q) = CriticalityLevel.MINOR
       <-> PatientAssessment.patient_critical_score (assess_patient_with_ai q) < 4)).
  { intros q. pose proof (ScorerFacts.assess_tier q) as Ht. cbv zeta in Ht.
    apply (f_equal fst) in Ht. cbn [fst] in Ht. rewrite Ht.
    split_tests; cbn [fst]; repeat split; intros; try lia; try discriminate;
      try reflexivity. }
  split.
  { exists (if FamilyEmergencyRequest.patient_age r <? 1 then 3
            else if FamilyEmergencyRequest.patient_age r <? 5 then 2
            else if 75 <? FamilyEmergencyRequest.patient_age r then 2
            else if 65 <? FamilyEmergencyRequest.patient_age r then 1 else 0).
    split.
    - rewrite ScorerFacts.assess_score_sum, ScorerFacts.category_weight_table.
      reflexivity.
    - split_tests; repeat split; intros; lia. }
  split.
  { rewrite ScorerFacts.assess_score_sum, ScorerFacts.category_weight_table.
    destruct (FamilyEmergencyRequest.is_patient_conscious r),
             (FamilyEmergencyRequest.is_patient_breathing r),
             (FamilyEmergencyRequest.any_bleeding r),
             (FamilyEmergencyRequest.emergency_type r);
      split_tests; lia. }
  destruct (Htier r) as (H1 & H2 & H3 & H4).
  repeat (split; [assumption|]).
  intros r' Hle. destruct (Htier r') as (H1' & H2' & H3' & H4').
  destruct (PatientAssessment.severity_level (assess_patient_with_ai r));
    destruct (PatientAssessment.severity_level (assess_patient_with_ai r'));
    cbn; try lia;
    repeat match goal with
           | H : ?x = ?x <-> _ |- _ => pose proof (proj1 H eq_refl); clear H
           end; lia.
Qed.

(** A pair of requests in the order the monotonicity clause asks for. *)
Lemma severity_score_weights_and_tiers_witness :
  CriticalityLevel.rank
    (PatientAssessment.severity_level
       (assess_patient_with_ai
          (sample_request 30 EmergencyType.OTHER true true false)))
  <= CriticalityLevel.rank
       (PatientAssessment.severity_level
          (assess_patient_with_ai
             (sample_request 70 EmergencyType.CARDIAC false false false))).
Proof.
  apply (proj2 (proj2 (proj2 (proj2 (proj2 (proj2
           (severity_score_weights_and_tiers
              (sample_request 30 EmergencyType.OTHER true true false)))))))
           (sample_request 70 EmergencyType.CARDIAC false false false)).
  vm_compute. discriminate.
Defined.

(** C2, the claim as worded against the code: an infant with no other
    finding scores 3 + 1 = 4, and the weights of the claim give 2 + 1 = 3
    whichever way its age bands are read. *)
Lemma infant_band_outweighs_claimed_weights :
  PatientAssessment.patient_critical_score
    (assess_patient_with_ai (sample_request 0 EmergencyType.OTHER true true false)) = 4
  /\ PatientAssessment.severity_level
       (assess_patient_with_ai (sample_request 0 EmergencyType.OTHER true true false))
     = CriticalityLevel.MODERATE
  /\ Claimed.severity_score false
       (sample_request 0 EmergencyType.OTHER true true false) = 3
  /\ Claimed.severity_score true
       (sample_request 0 EmergencyType.OTHER true true false) = 3.
Proof. vm_compute. repeat split; reflexivity. Qed.

(** C7.  The corridor-required flag is set exactly for the tiers serious and
    critical, that is for a score of 6 or more; an unconscious, non-breathing
    cardiac patient aged 70 scores at least 8, is critical and requires the
    corridor. *)
Theorem corridor_required_iff_serious_or_critical (r : FamilyEmergencyRequest.t) :
  let a := assess_patient_with_ai r in
  (PatientAssessment.green_corridor_required a = true
   <-> PatientAssessment.severity_level a = CriticalityLevel.SERIOUS
       \/ PatientAssessment.severity_level a = CriticalityLevel.CRITICAL)
  /\ (PatientAssessment.green_corridor_required a = true
      <-> 6 <= PatientAssessment.patient_critical_score a)
  /\ (FamilyEmergencyRequest.is_patient_conscious r = false ->
      FamilyEmergencyRequest.is_patient_breathing r = false ->
      FamilyEmergencyRequest.emergency_type r = EmergencyType.CARDIAC ->
      FamilyEmergencyRequest.patient_age r = 70 ->
      8 <= PatientAssessment.patient_critical_score a
      /\ PatientAssessment.severity_level a = CriticalityLevel.CRITICAL
      /\ PatientAssessment.green_corridor_required a = true).
Proof.
  cbv zeta. pose proof (ScorerFacts.assess_tier r) as Ht. cbv zeta in Ht.
  assert (Hs : forall b : bool,
             FamilyEmergencyRequest.is_patient_conscious r = false ->
             FamilyEmergencyRequest.is_patient_breathing r = false ->
             FamilyEmergencyRequest.emergency_type r = EmergencyType.CARDIAC ->
             FamilyEmergencyRequest.patient_age r = 70 ->
             PatientAssessment.patient_critical_score (assess_patient_with_ai r) = 10).
  { intros _ Hc Hb He Ha. rewrite ScorerFacts.assess_score_sum, Hc, Hb, He, Ha.
    destruct (FamilyEmergencyRequest.any_bleeding r); reflexivity. }
  split; [|split].
  - destruct (8 <=? _); [|destruct (6 <=? _); [|destruct (4 <=? _)]];
      injection Ht as -> ->; split; intros; try discriminate; auto;
      destruct H; discriminate.
  - split_tests; injection Ht as _ ->; split; intros; try discriminate; try lia;
      reflexivity.
  - intros Hc Hb He Ha. pose proof (Hs true Hc Hb He Ha) as H10.
    rewrite H10 in *. cbn in Ht. injection Ht as -> ->. repeat split. lia.
Qed.

(** The scenario of the claim, run. *)
Lemma corridor_required_iff_serious_or_critical_witness :
  8 <= PatientAssessment.patient_critical_score
         (assess_patient_with_ai
            (sample_request 70 EmergencyType.CARDIAC false false false))
  /\ PatientAssessment.severity_level
       (assess_patient_with_ai
          (sample_request 70 EmergencyType.CARDIAC false false false))
     = CriticalityLevel.CRITICAL
  /\ PatientAssessment.green_corridor_required
       (assess_patient_with_ai
          (sample_request 70 EmergencyType.CARDIAC false false false)) = true.
Proof.
  apply (proj2 (proj2 (corridor_required_iff_serious_or_critical
                         (sample_request 70 EmergencyType.CARDIAC false false false))));
    reflexivity.
Defined.

End ScorerClaims.

(* ================================================================== *)
(** * The intake *)
(* ================================================================== *)

Module IntakeClaims.

Import Patient.
Import ScorerClaims.
Import Notions.
Import Scenarios.

(** The inline criticality as one sum and its thresholds. *)
Lemma cli_criticality_sum c b bl t age :
  cli_criticality c b bl t age =
  let s := (if c then 0 else 4) + (if b then 0 else 5) + (if bl then 2 else 0)
           + match t with
             | EmergencyType.CARDIAC | EmergencyType.STROKE => 3
             | _ => 0
             end
           + (if 65 <? age then 1 else 0) + (if age <? 5 then 2 else 0) in
  if 8 <=? s then CriticalityLevel.CRITICAL
  else if 5 <=? s then CriticalityLevel.SERIOUS
  else if 2 <=? s then CriticalityLevel.MODERATE
  else CriticalityLevel.MINOR.
Proof.
  unfold cli_criticality.
  destruct c, b, bl, t, (65 <? age), (age <? 5); reflexivity.
Qed.

(** C10, as amended.  The inline criticality of the command-line intake and
    that of the dashboard intake are the same function of the answers, and
    each intake stores it in the request it builds.  The full scorer is
    another function; it agrees with the inline level upward: an inline
    critical is a scorer critical, and an inline serious is a scorer serious
    or critical. *)
Theorem inline_criticality_and_scorer (r : FamilyEmergencyRequest.t) :
  let inline :=
    cli_criticality
      (FamilyEmergencyRequest.is_patient_conscious r)
      (FamilyEmergencyRequest.is_patient_breathing r)
      (FamilyEmergencyRequest.any_bleeding r)
      (FamilyEmergencyRequest.emergency_type r)
      (FamilyEmergencyRequest.patient_age r) in
  let scored := PatientAssessment.severity_level (assess_patient_with_ai r) in
  inline =
    dashboard_criticality
      (FamilyEmergencyRequest.is_patient_conscious r)
      (FamilyEmergencyRequest.is_patient_breathing r)
      (FamilyEmergencyRequest.any_bleeding r)
      (FamilyEmergencyRequest.emergency_type r)
      (FamilyEmergencyRequest.patient_age r)
  /\ (forall draws now_id now_ts caller_name caller_phone patient_name
        emergency_location detailed_address symptoms,
        FamilyEmergencyRequest.criticality_level
          (dashboard_collect_family_emergency draws now_id now_ts
             caller_name caller_phone patient_name
             (FamilyEmergencyRequest.patient_age r)
             emergency_location detailed_address
             (FamilyEmergencyRequest.emergency_type r)
             (FamilyEmergencyRequest.is_patient_conscious r)
             (FamilyEmergencyRequest.is_patient_breathing r)
             (FamilyEmergencyRequest.any_bleeding r) symptoms) = inline)
  /\ (inline = CriticalityLevel.CRITICAL -> scored = CriticalityLevel.CRITICAL)
  /\ (inline = CriticalityLevel.SERIOUS ->
      scored = CriticalityLevel.SERIOUS \/ scored = CriticalityLevel.CRITICAL).
Proof.
  cbv zeta.
  assert (Heq : forall c b bl t age,
             cli_criticality c b bl t age = dashboard_criticality c b bl t age)
    by reflexivity.
  split; [apply Heq|]. split; [intros; symmetry; apply Heq|].
  pose proof (ScorerFacts.assess_tier r) as Ht. cbv zeta in Ht.
  apply (f_equal fst) in Ht. cbn [fst] in Ht. rewrite Ht.
  rewrite ScorerFacts.assess_score_sum, ScorerFacts.category_weight_table,
    cli_criticality_sum. cbv zeta.
  set (age := FamilyEmergencyRequest.patient_age r).
  set (f1 := if FamilyEmergencyRequest.is_patient_conscious r then 0 else 4).
  set (f2 := if FamilyEmergencyRequest.is_patient_breathing r then 0 else 5).
  set (f3 := if FamilyEmergencyRequest.any_bleeding r then 2 else 0).
  set (w_full := if age <? 1 then 3 else if age <? 5 then 2
                 else if 75 <? age then 2 else if 65 <? age then 1 else 0).
  set (w1 := if 65 <? age then 1 else 0).
  set (w2 := if age <? 5 then 2 else 0).
  set (c_inline := match FamilyEmergencyRequest.emergency_type r with
                   | EmergencyType.CARDIAC | EmergencyType.STROKE => 3
                   | _ => 0
                   end).
  set (c_full := match FamilyEmergencyRequest.emergency_type r with
                 | EmergencyType.CARDIAC | EmergencyType.STROKE
                 | EmergencyType.UNCONSCIOUS => 4
                 | EmergencyType.ACCIDENT | EmergencyType.BREATHING
                 | EmergencyType.BLEEDING | EmergencyType.POISONING => 3
                 | EmergencyType.BURNS => 2
                 | EmergencyType.OTHER => 1
                 end).
  assert (Hw : w1 + w2 <= w_full) by (subst w1 w2 w_full; split_tests; lia).
  assert (Hc : c_inline + 1 <= c_full)
    by (subst c_inline c_full;
        destruct (FamilyEmergencyRequest.emergency_type r); lia).
  clearbody f1 f2 f3 w1 w2 w_full c_inline c_full.
  split_tests; cbn [fst]; split; intros; try discriminate; try lia; auto.
Qed.

(** An inline critical that the scorer confirms. *)
Lemma inline_criticality_and_scorer_witness :
  PatientAssessment.severity_level
    (assess_patient_with_ai
       (sample_request 70 EmergencyType.CARDIAC false false false))
  = CriticalityLevel.CRITICAL.
Proof.
  apply (proj1 (proj2 (proj2 (inline_criticality_and_scorer
           (sample_request 70 EmergencyType.CARDIAC false false false))))).
  reflexivity.
Defined.

(** C10, the claim as worded against the code: for a conscious, breathing,
    bleeding adult with an emergency of type other, the intake stores
    moderate (inline score 2) and the scorer returns minor (score 3). *)
Lemma inline_moderate_scored_minor :
  FamilyEmergencyRequest.criticality_level
    (sample_request 30 EmergencyType.OTHER true true true)
  = CriticalityLevel.MODERATE
  /\ PatientAssessment.severity_level
       (assess_patient_with_ai (sample_request 30 EmergencyType.OTHER true true true))
     = CriticalityLevel.MINOR
  /\ option_map (fun out => FamilyEmergencyRequest.criticality_level (fst out))
       (collect_family_emergency_details
          {| choice_index := 0; uniform_lat := 0; uniform_lon := 0 |}
          {| strftime_compact := "20250930152000"; hour := 15 |}
          {| strftime_compact := "20250930152000"; hour := 15 |}
          ["Rajesh Kumar"; "+91-9876543210"; "Sunita Kumar"; "30";
           "Connaught Place"; "B-12, Inner Circle"; "6"; "y"; "y"; "y";
           "bleeding from the arm"])
     = Some CriticalityLevel.MODERATE.
Proof. vm_compute. repeat split; reflexivity. Qed.

(** The two re-prompting loops skip the answers they refuse. *)
Lemma read_age_skips bad line age rest :
  Forall (fun l => PyStr.int_of_str (PyStr.strip l) = None) bad ->
  PyStr.int_of_str (PyStr.strip line) = Some age ->
  read_age (bad ++ line :: rest) = Some (age, rest).
Proof.
  intros Hbad Hline. induction Hbad as [|l bad Hl _ IH]; cbn [read_age app].
  - rewrite Hline. reflexivity.
  - rewrite Hl. exact IH.
Qed.

Lemma read_choice_skips bad line choice rest :
  Forall refused_choice bad ->
  PyStr.int_of_str (PyStr.strip line) = Some choice -> 1 <= choice <= 6 ->
  read_choice (bad ++ line :: rest) = Some (choice, rest).
Proof.
  intros Hbad Hline Hrange. induction Hbad as [|l bad Hl _ IH]; cbn [read_choice app].
  - rewrite Hline.
    destruct (Z.leb_spec 1 choice), (Z.leb_spec choice 6); try lia. reflexivity.
  - unfold refused_choice in Hl.
    destruct (PyStr.int_of_str (PyStr.strip l)) as [n|]; [|exact IH].
    destruct (Z.leb_spec 1 n), (Z.leb_spec n 6); try lia; exact IH.
Qed.

Lemma chosen_type_in_enumeration choice :
  1 <= choice <= 6 ->
  In (nth (Z.to_nat (choice - 1)) emergency_types EmergencyType.OTHER) emergency_types.
Proof.
  intros H.
  assert (Hc : choice = 1 \/ choice = 2 \/ choice = 3 \/ choice = 4
               \/ choice = 5 \/ choice = 6) by lia.
  destruct Hc as [->|[->|[->|[->|[->| ->]]]]]; vm_compute; auto 10.
Qed.

(** A float sum stays within rounding distance of the exact sum. *)
Lemma fadd_near base u :
  (1 <= base <= 100)%Q -> (- (5 # 100) <= u <= 5 # 100)%Q ->
  (Qabs (PyFloat.fadd base u - base) <= 50001 # 1000000)%Q.
Proof.
  intros Hb Hu. unfold PyFloat.fadd.
  pose proof (PyFloatFacts.b64_rel_err (base + u) ltac:(lra)) as [Hl Hh].
  unfold PyFloat.eps64 in *.
  change (2 ^ 53)%positive with 9007199254740992%positive in *.
  apply Qabs_Qle_condition. split.
  - assert ((base + u) * (1 # 9007199254740992) <= 101 * (1 # 9007199254740992))%Q
      by (apply Qmult_le_compat_r; lra).
    lra.
  - assert ((base + u) * (1 # 9007199254740992) <= 101 * (1 # 9007199254740992))%Q
      by (apply Qmult_le_compat_r; lra).
    lra.
Qed.

Lemma base_coords_in_range base :
  In base (map snd base_coords) ->
  (1 <= fst base <= 100)%Q /\ (1 <= snd base <= 100)%Q.
Proof.
  cbn [map base_coords snd In]. intros [<-|[<-|[<-|[]]]]; cbn [fst snd];
    repeat split; apply Qle_bool_imp_le; vm_compute; reflexivity.
Qed.

Lemma auto_gps_base draws :
  exists base, In base (map snd base_coords)
    /\ auto_gps draws =
       (PyFloat.fadd (fst base) (uniform_lat draws),
        PyFloat.fadd (snd base) (uniform_lon draws)).
Proof.
  exists (nth (choice_index draws mod length (map snd base_coords))
              (map snd base_coords) (0, 0)%Q).
  split.
  - apply nth_In. apply Nat.mod_upper_bound.
    cbn [base_coords map length]. discriminate.
  - unfold auto_gps.
    destruct (nth (choice_index draws mod length (map snd base_coords))
                  (map snd base_coords) (0, 0)%Q) as [base_lat base_lon].
    reflexivity.
Qed.

(** C9, as amended.  Nothing in the intake fails on the content of the
    answers.  The command-line intake builds a request from every complete
    dialogue: it re-prompts until the age is an integer and until the type
    choice is an integer in 1..6, so the category is always a member of the
    enumeration, and it stores the identity fields as typed, stripped.  The
    geolocation is generated within 0.05 degrees (and one rounding) of one of
    the three base coordinates and is never checked.  The dashboard form alone
    withholds the request, when one of its six required text fields is
    empty. *)
Theorem intake_builds_request_without_validation :
  (forall draws now_id now_ts l_name l_phone l_patient bad_ages l_age age
          l_loc l_addr bad_choices l_choice choice l_c l_b l_bl l_sym rest,
      Forall (fun l => PyStr.int_of_str (PyStr.strip l) = None) bad_ages ->
      PyStr.int_of_str (PyStr.strip l_age) = Some age ->
      Forall refused_choice bad_choices ->
      PyStr.int_of_str (PyStr.strip l_choice) = Some choice ->
      1 <= choice <= 6 ->
      exists r,
        collect_family_emergency_details draws now_id now_ts
          (l_name :: l_phone :: l_patient :: bad_ages ++
           l_age :: l_loc :: l_addr :: bad_choices ++
           l_choice :: l_c :: l_b :: l_bl :: l_sym :: rest) = Some (r, rest)
        /\ FamilyEmergencyRequest.caller_name r = PyStr.strip l_name
        /\ FamilyEmergencyRequest.caller_phone r = PyStr.strip l_phone
        /\ FamilyEmergencyRequest.patient_name r = PyStr.strip l_patient
        /\ FamilyEmergencyRequest.patient_age r = age
        /\ In (FamilyEmergencyRequest.emergency_type r) emergency_types
        /\ (FamilyEmergencyRequest.gps_lat r, FamilyEmergencyRequest.gps_lon r)
           = auto_gps draws)
  /\ (forall draws,
        (- (5 # 100) <= uniform_lat draws <= 5 # 100)%Q ->
        (- (5 # 100) <= uniform_lon draws <= 5 # 100)%Q ->
        exists base, In base (map snd base_coords)
          /\ (Qabs (fst (auto_gps draws) - fst base) <= 50001 # 1000000)%Q
          /\ (Qabs (snd (auto_gps draws) - snd base) <= 50001 # 1000000)%Q)
  /\ (forall draws now_id now_ts caller_name caller_phone patient_name patient_age
             emergency_location detailed_address emergency_type
             is_conscious is_breathing any_bleeding symptoms,
        dashboard_form_submit draws now_id now_ts caller_name caller_phone
          patient_name patient_age emergency_location detailed_address
          emergency_type is_conscious is_breathing any_bleeding symptoms
        = if PyStr.truthy caller_name && PyStr.truthy caller_phone
             && PyStr.truthy patient_name && PyStr.truthy emergency_location
             && PyStr.truthy detailed_address && PyStr.truthy symptoms
          then Some (dashboard_collect_family_emergency draws now_id now_ts
                       caller_name caller_phone patient_name patient_age
                       emergency_location detailed_address emergency_type
                       is_conscious is_breathing any_bleeding symptoms)
          else None).
Proof.
  split; [|split].
  - intros draws now_id now_ts l_name l_phone l_patient bad_ages l_age age
      l_loc l_addr bad_choices l_choice choice l_c l_b l_bl l_sym rest
      Hbad Hage Hbadc Hchoice Hrange.
    unfold collect_family_emergency_details, bind, input, ret.
    rewrite (read_age_skips bad_ages l_age age _ Hbad Hage).
    rewrite (read_choice_skips bad_choices l_choice choice _ Hbadc Hchoice Hrange).
    eexists. split; [reflexivity|].
    cbn [make_request FamilyEmergencyRequest.caller_name
         FamilyEmergencyRequest.caller_phone FamilyEmergencyRequest.patient_name
         FamilyEmergencyRequest.patient_age FamilyEmergencyRequest.emergency_type
         FamilyEmergencyRequest.gps_lat FamilyEmergencyRequest.gps_lon].
    repeat (split; [reflexivity|]). split; [|destruct (auto_gps draws); reflexivity].
    apply chosen_type_in_enumeration. exact Hrange.
  - intros draws Hlat Hlon.
    destruct (auto_gps_base draws) as (base & Hin & ->).
    destruct (base_coords_in_range base Hin) as [H1 H2].
    exists base. split; [exact Hin|]. cbn [fst snd].
    split; apply fadd_near; assumption.
  - intros. unfold dashboard_form_submit. cbn [forallb].
    destruct (PyStr.truthy caller_name), (PyStr.truthy caller_phone),
      (PyStr.truthy patient_name), (PyStr.truthy emergency_location),
      (PyStr.truthy detailed_address), (PyStr.truthy symptoms); reflexivity.
Qed.

(** A dialogue with one refused age and one refused choice. *)
Lemma intake_builds_request_without_validation_witness :
  exists r,
    collect_family_emergency_details
      {| choice_index := 1; uniform_lat := 1 # 100; uniform_lon := - (2 # 100) |}
      {| strftime_compact := "20250930152000"; hour := 15 |}
      {| strftime_compact := "20250930152001"; hour := 15 |}
      (" Rajesh Kumar " :: "+91-9876543210" :: "Sunita Kumar" :: ["sixty"] ++
       "65" :: "Connaught Place" :: "B-12, Inner Circle" :: ["9"] ++
       "1" :: "yes" :: "Yes" :: "no" :: "chest pain" :: []) = Some (r, [])
    /\ FamilyEmergencyRequest.caller_name r = PyStr.strip " Rajesh Kumar "
    /\ FamilyEmergencyRequest.caller_phone r = PyStr.strip "+91-9876543210"
    /\ FamilyEmergencyRequest.patient_name r = PyStr.strip "Sunita Kumar"
    /\ FamilyEmergencyRequest.patient_age r = 65
    /\ In (FamilyEmergencyRequest.emergency_type r) emergency_types
    /\ (FamilyEmergencyRequest.gps_lat r, FamilyEmergencyRequest.gps_lon r)
       = auto_gps {| choice_index := 1; uniform_lat := 1 # 100;
                     uniform_lon := - (2 # 100) |}.
Proof.
  apply (proj1 intake_builds_request_without_validation) with (choice := 1).
  - repeat constructor.
  - reflexivity.
  - constructor; [|constructor]. unfold refused_choice.
    change (PyStr.int_of_str (PyStr.strip "9")) with (Some 9). cbv iota beta. lia.
  - reflexivity.
  - lia.
Defined.

(** C9, the claim as worded against the code: a dialogue whose caller name,
    phone and patient name are blank is accepted and yields a request with
    empty identity fields. *)
Lemma cli_intake_accepts_empty_identity :
  option_map
    (fun out =>
       (FamilyEmergencyRequest.caller_name (fst out),
        FamilyEmergencyRequest.caller_phone (fst out),
        FamilyEmergencyRequest.patient_name (fst out),
        FamilyEmergencyRequest.status (fst out)))
    (collect_family_emergency_details
       {| choice_index := 0; uniform_lat := 0; uniform_lon := 0 |}
       {| strftime_compact := "20250930152000"; hour := 15 |}
       {| strftime_compact := "20250930152000"; hour := 15 |}
       [EmptyString; "  "; EmptyString; "40"; "Connaught Place";
        "B-12, Inner Circle"; "3"; "y"; "y"; "n"; "fall from a ladder"])
  = Some (EmptyString, EmptyString, EmptyString, "RECEIVED").
Proof. vm_compute. reflexivity. Qed.

End IntakeClaims.

(* ================================================================== *)
(** * The hospital matcher *)
(* ================================================================== *)

Module MatcherFacts.

Import Patient.
Import Notions.
Import Scenarios.

Lemma key_ltb_spec a b : key_ltb a b = true <-> key_lt a b.
Proof.
  destruct a as [[a1 a2] a3], b as [[b1 b2] b3]. unfold key_ltb, key_lt.
  unfold PyFloat.feqb, PyFloat.fltb.
  destruct (Z.eqb_spec a1 b1) as [E1|E1]; cbn [negb].
  - destruct (Qeq_bool a2 b2) eqn:E2; cbn [negb].
    + apply Qeq_bool_iff in E2. rewrite Z.ltb_lt. split.
      * intros H. right. split; [exact E1|]. right. split; [exact E2|exact H].
      * intros [H|[_ [H|[_ H]]]]; [lia | lra | exact H].
    + assert (N2 : ~ (a2 == b2)%Q).
      { intros H. apply Qeq_bool_iff in H. congruence. }
      destruct (Qle_bool b2 a2) eqn:E3; cbn [negb].
      * apply Qle_bool_iff in E3. split; [discriminate|].
        intros [H|[_ [H|[H _]]]]; [lia | lra | contradiction].
      * assert (N3 : ~ (b2 <= a2)%Q).
        { intros H. apply Qle_bool_iff in H. congruence. }
        split; [|reflexivity]. intros _. right. split; [exact E1|]. left. lra.
  - rewrite Z.ltb_lt. split.
    + intros H. left. exact H.
    + intros [H|[H _]]; [exact H | contradiction].
Qed.

Lemma key_ltb_false a b : key_ltb a b = false <-> ~ key_lt a b.
Proof.
  rewrite <- key_ltb_spec. destruct (key_ltb a b); split; intros; congruence.
Qed.

(** [not (b < a)] is a total preorder on keys. *)
Lemma key_lt_asym a b : key_lt a b -> ~ key_lt b a.
Proof.
  destruct a as [[a1 a2] a3], b as [[b1 b2] b3]. unfold key_lt.
  intros [H|[E [H|[E2 H]]]] [H'|[E' [H'|[E2' H']]]]; try lia; lra.
Qed.

Lemma key_le_trans a b c : ~ key_lt b a -> ~ key_lt c b -> ~ key_lt c a.
Proof.
  destruct a as [[a1 a2] a3], b as [[b1 b2] b3], c as [[c1 c2] c3]. unfold key_lt.
  intros Hba Hcb Hca.
  destruct (Z.lt_total a1 b1) as [L|[E|G]].
  - destruct (Z.lt_total b1 c1) as [L'|[E'|G']]; [lia | lia |].
    apply Hcb. left. exact G'.
  - subst b1. destruct (Z.lt_total a1 c1) as [L'|[E'|G']]; [lia | | ].
    + subst c1.
      destruct (Q_dec a2 b2) as [[L2|G2]|E2].
      * destruct (Q_dec b2 c2) as [[L3|G3]|E3].
        -- destruct Hca as [?|[_ [?|[? _]]]]; [lia | lra | lra].
        -- apply Hcb. right. split; [reflexivity|]. left. exact G3.
        -- destruct Hca as [?|[_ [?|[? _]]]]; [lia | lra | lra].
      * apply Hba. right. split; [reflexivity|]. left. exact G2.
      * destruct (Q_dec b2 c2) as [[L3|G3]|E3].
        -- destruct Hca as [?|[_ [?|[? _]]]]; [lia | lra | lra].
        -- apply Hcb. right. split; [reflexivity|]. left. exact G3.
        -- destruct (Z.lt_total a3 b3) as [L4|[E4|G4]].
           ++ destruct (Z.lt_total b3 c3) as [L5|[E5|G5]].
              ** destruct Hca as [?|[_ [?|[_ ?]]]]; [lia | lra | lia].
              ** destruct Hca as [?|[_ [?|[_ ?]]]]; [lia | lra | lia].
              ** apply Hcb. right. split; [reflexivity|]. right.
                 split; [lra | exact G5].
           ++ destruct (Z.lt_total b3 c3) as [L5|[E5|G5]].
              ** destruct Hca as [?|[_ [?|[_ ?]]]]; [lia | lra | lia].
              ** destruct Hca as [?|[_ [?|[_ ?]]]]; [lia | lra | lia].
              ** apply Hcb. right. split; [reflexivity|]. right.
                 split; [lra | exact G5].
           ++ apply Hba. right. split; [reflexivity|]. right.
              split; [lra | exact G4].
    + apply Hcb. left. exact G'.
  - apply Hba. left. exact G.
Qed.

Section Sorting.

Context {A : Type}.
Variable key : A -> Z * Q * Z.

Lemma insert_by_key_perm x l : Permutation (x :: l) (insert_by_key key x l).
Proof.
  induction l as [|y l IH]; cbn [insert_by_key].
  - reflexivity.
  - destruct (key_ltb (key y) (key x)); [|reflexivity].
    rewrite perm_swap. apply perm_skip. exact IH.
Qed.

Lemma sort_by_key_perm l : Permutation l (sort_by_key key l).
Proof.
  induction l as [|x l IH]; cbn.
  - reflexivity.
  - rewrite <- insert_by_key_perm. apply perm_skip. exact IH.
Qed.

Lemma insert_by_key_sorted x l :
  StronglySorted (key_le key) l -> StronglySorted (key_le key) (insert_by_key key x l).
Proof.
  induction 1 as [|y l Hs IH Hy]; cbn [insert_by_key].
  - constructor; constructor.
  - destruct (key_ltb (key y) (key x)) eqn:E.
    + constructor; [exact IH|].
      apply (Permutation.Permutation_Forall (insert_by_key_perm x l)).
      constructor; [|exact Hy]. unfold key_le.
      apply key_ltb_false. apply key_lt_asym. apply key_ltb_spec. exact E.
    + constructor; [constructor; assumption|].
      constructor; [exact E|].
      eapply Forall_impl; [exact Hy|]. intros z Hz. unfold key_le in *.
      apply key_ltb_false. eapply key_le_trans; apply key_ltb_false; eassumption.
Qed.

Lemma sort_by_key_sorted l : StronglySorted (key_le key) (sort_by_key key l).
Proof.
  induction l as [|x l IH]; cbn.
  - constructor.
  - apply insert_by_key_sorted. exact IH.
Qed.

End Sorting.

(** Every hospital of the table lists trauma care. *)
Lemma hospital_data_general :
  Forall (fun hd => PyStr.mem "trauma" (hd_specialties hd) = true) hospital_data.
Proof. unfold hospital_data. repeat (constructor; [reflexivity|]). constructor. Qed.

Lemma probe_hospital_fixed a hd r :
  RealTimeHospital.id (probe_hospital a hd r) = hd_id hd
  /\ RealTimeHospital.specialties (probe_hospital a hd r) = hd_specialties hd
  /\ RealTimeHospital.distance_km (probe_hospital a hd r)
     = PyFloat.py_round2 (geodesic_km r).
Proof.
  unfold probe_hospital.
  destruct (critical_override _ _) as [[b i] l]. repeat split.
Qed.

(** The candidates are the probes of the table entries that pass the
    inclusion test, in table order. *)
Lemma availability_loop_In a readings k table h :
  In h (availability_loop a readings k table) <->
  exists j hd,
    table !! j = Some hd
    /\ h = probe_hospital a hd (readings (k + j)%nat)
    /\ (0 <? RealTimeHospital.available_beds h)
       || CriticalityLevel.eqb (PatientAssessment.severity_level a)
            CriticalityLevel.CRITICAL = true.
Proof.
  revert k. induction table as [|hd0 table IH]; intros k; cbn [availability_loop].
  - split; [intros [] | intros (j & hd & H & _); destruct j; discriminate].
  - set (h0 := probe_hospital a hd0 (readings k)).
    assert (Hiff : In h (availability_loop a readings (S k) table) <->
                   exists j hd, (hd0 :: table) !! S j = Some hd
                     /\ h = probe_hospital a hd (readings (k + S j)%nat)
                     /\ (0 <? RealTimeHospital.available_beds h)
                        || CriticalityLevel.eqb (PatientAssessment.severity_level a)
                             CriticalityLevel.CRITICAL = true).
    { rewrite IH. split; intros (j & hd & H1 & H2 & H3); exists j, hd;
        (split; [exact H1|]); (split; [|exact H3]);
        replace (k + S j)%nat with (S k + j)%nat in * by lia; exact H2. }
    destruct ((0 <? RealTimeHospital.available_beds h0)
              || CriticalityLevel.eqb (PatientAssessment.severity_level a)
                   CriticalityLevel.CRITICAL) eqn:E.
    + cbn [In]. rewrite Hiff. split.
      * intros [<-|(j & hd & H)].
        -- exists 0%nat, hd0. rewrite Nat.add_0_r. repeat split. exact E.
        -- exists (S j), hd. exact H.
      * intros ([|j] & hd & H1 & H2 & H3).
        -- left. cbn in H1. injection H1 as <-. rewrite Nat.add_0_r in H2.
           symmetry. exact H2.
        -- right. exists j, hd. auto.
    + rewrite Hiff. split.
      * intros (j & hd & H). exists (S j), hd. exact H.
      * intros ([|j] & hd & H1 & H2 & H3).
        -- cbn in H1. injection H1 as <-. rewrite Nat.add_0_r in H2.
           subst h. fold h0 in H3. congruence.
        -- exists j, hd. auto.
Qed.

Lemma candidates_general a readings h :
  In h (availability_loop a readings 0 hospital_data) ->
  PyStr.mem "trauma" (RealTimeHospital.specialties h) = true.
Proof.
  intros H. apply availability_loop_In in H. destruct H as (j & hd & Hj & -> & _).
  destruct (probe_hospital_fixed a hd (readings (0 + j)%nat)) as (_ & -> & _).
  pose proof hospital_data_general as Hg. rewrite List.Forall_forall in Hg.
  apply Hg. apply list_elem_of_In. eapply list_elem_of_lookup_2. exact Hj.
Qed.

(** On a facility that lists trauma or emergency care, the rank the code
    computes is the rank of the specification plus one. *)
Lemma priority_rank_shift req h :
  PyStr.mem "trauma" (RealTimeHospital.specialties h) = true ->
  hospital_priority req h =
  (fst (fst (Claimed.ranking_key req h)) + 1,
   snd (fst (Claimed.ranking_key req h)), snd (Claimed.ranking_key req h)).
Proof.
  intros Ht. unfold hospital_priority, Claimed.ranking_key, Claimed.specialty_rank,
    Claimed.specialty_matches. cbn [fst snd existsb]. rewrite Ht. cbn [orb].
  destruct (FamilyEmergencyRequest.emergency_type req); cbn [EmergencyType.eqb andb];
    try reflexivity.
  - destruct (PyStr.mem "cardiology" _); reflexivity.
  - rewrite orb_false_r.
    destruct (PyStr.mem "neurology" _ || PyStr.mem "neurosurgery" _); reflexivity.
Qed.

Lemma key_ltb_shift a1 a2 a3 b1 b2 b3 :
  key_ltb (a1 + 1, a2, a3) (b1 + 1, b2, b3) = key_ltb (a1, a2, a3) (b1, b2, b3).
Proof.
  unfold key_ltb.
  destruct (Z.eqb_spec (a1 + 1) (b1 + 1)), (Z.eqb_spec a1 b1); try lia; cbn [negb].
  - reflexivity.
  - destruct (Z.ltb_spec (a1 + 1) (b1 + 1)), (Z.ltb_spec a1 b1); try lia; reflexivity.
Qed.

Lemma priority_agrees req a b :
  PyStr.mem "trauma" (RealTimeHospital.specialties a) = true ->
  PyStr.mem "trauma" (RealTimeHospital.specialties b) = true ->
  key_ltb (hospital_priority req a) (hospital_priority req b)
  = key_ltb (Claimed.ranking_key req a) (Claimed.ranking_key req b).
Proof.
  intros Ha Hb. rewrite (priority_rank_shift req a Ha), (priority_rank_shift req b Hb).
  destruct (Claimed.ranking_key req a) as [[a1 a2] a3].
  destruct (Claimed.ranking_key req b) as [[b1 b2] b3].
  cbn [fst snd]. apply key_ltb_shift.
Qed.

End MatcherFacts.

Module MatcherClaims.

Import Patient.
Import MatcherFacts.
Import Notions.
Import Scenarios.

Lemma StronglySorted_transfer {A} (P : A -> Prop) (R R' : A -> A -> Prop) l :
  (forall a b, P a -> P b -> R a b -> R' a b) ->
  Forall P l -> StronglySorted R l -> StronglySorted R' l.
Proof.
  intros HR HP Hs. induction Hs as [|x l Hs IH Hx]; [constructor|].
  inversion HP as [|? ? Px Pl]; subst. constructor; [apply IH; exact Pl|].
  rewrite List.Forall_forall in *. intros y Hy. apply HR; auto.
Qed.

(** C5.  The list the matcher returns is its candidates sorted in ascending
    order of the key (specialty-match rank, distance, minus the available
    beds) of the specification, and the hospital it selects, the first of
    the list, is minimal under that key among the candidates.  The code
    numbers the ranks 1 (match) and 2 (general trauma/emergency) where the
    specification numbers them 0 and 1; every facility of the matcher's table
    is a general trauma/emergency facility, so the two keys compare every
    pair of candidates alike. *)
Theorem matcher_sorts_by_ranking_key
    (readings : nat -> Reading) (req : FamilyEmergencyRequest.t)
    (assessment : PatientAssessment.t) :
  let candidates := availability_loop assessment readings 0 hospital_data in
  let ranked := check_hospital_bed_availability readings req assessment in
  Permutation candidates ranked
  /\ StronglySorted
       (fun a b =>
          key_ltb (Claimed.ranking_key req b) (Claimed.ranking_key req a) = false)
       ranked
  /\ (forall a b, In a candidates -> In b candidates ->
        key_ltb (hospital_priority req a) (hospital_priority req b)
        = key_ltb (Claimed.ranking_key req a) (Claimed.ranking_key req b))
  /\ (forall selected rest, ranked = selected :: rest ->
        forall h, In h candidates ->
          key_ltb (Claimed.ranking_key req h) (Claimed.ranking_key req selected)
          = false).
Proof.
  cbv zeta. unfold check_hospital_bed_availability.
  set (candidates := availability_loop assessment readings 0 hospital_data).
  pose proof (sort_by_key_perm (hospital_priority req) candidates) as Hperm.
  pose proof (sort_by_key_sorted (hospital_priority req) candidates) as Hsort.
  assert (Hgen : Forall (fun h => PyStr.mem "trauma" (RealTimeHospital.specialties h) = true)
                   (sort_by_key (hospital_priority req) candidates)).
  { apply (Permutation.Permutation_Forall Hperm). apply List.Forall_forall.
    intros h Hh. eapply candidates_general. exact Hh. }
  assert (Hspec : StronglySorted
            (fun a b => key_ltb (Claimed.ranking_key req b) (Claimed.ranking_key req a)
                        = false)
            (sort_by_key (hospital_priority req) candidates)).
  { eapply StronglySorted_transfer; [|exact Hgen|exact Hsort].
    intros a b Ha Hb Hab. unfold key_le in Hab. cbv beta in *.
    rewrite <- (priority_agrees req b a Hb Ha). exact Hab. }
  split; [exact Hperm|]. split; [exact Hspec|]. split.
  - intros a b Ha Hb. apply priority_agrees; eapply candidates_general; eassumption.
  - intros selected rest Heq h Hh. rewrite Heq in Hspec, Hperm.
    apply (Permutation_in _ Hperm) in Hh. inversion Hspec as [|? ? _ Hall]; subst.
    destruct Hh as [<-|Hh].
    + apply key_ltb_false. intros Hlt. exact (key_lt_asym _ _ Hlt Hlt).
    + rewrite List.Forall_forall in Hall. apply Hall. exact Hh.
Qed.

(** The caller near Shalimar Bagh: no candidate ranks before the selected
    hospital. *)
Lemma matcher_sorts_by_ranking_key_witness :
  key_ltb
    (Claimed.ranking_key critical_cardiac
       (probe_hospital (assess_patient_with_ai critical_cardiac)
          (nth 0 hospital_data
             {| hd_id := "-"; hd_name := "-"; hd_location := "-";
                hd_gps_lat := 0; hd_gps_lon := 0; hd_trauma_level := 0;
                hd_specialties := [] |})
          (peak_readings 20 8 0)))
    (Claimed.ranking_key critical_cardiac
       (probe_hospital (assess_patient_with_ai critical_cardiac)
          (nth 2 hospital_data
             {| hd_id := "-"; hd_name := "-"; hd_location := "-";
                hd_gps_lat := 0; hd_gps_lon := 0; hd_trauma_level := 0;
                hd_specialties := [] |})
          (peak_readings 20 8 2)))
  = false.
Proof.
  eapply (proj2 (proj2 (proj2 (matcher_sorts_by_ranking_key
            (peak_readings 20 8) critical_cardiac
            (assess_patient_with_ai critical_cardiac))))).
  - vm_compute. reflexivity.
  - vm_compute. left. reflexivity.
Defined.

(** C6, as amended.  A facility whose simulated availability is zero beds is
    left out of the candidate list unless the tier is critical; for a
    critical tier it is kept with exactly one force-allocated bed, at least
    one ICU bed and the load CRITICAL_OVERRIDE.  This holds for every call:
    nothing records an override, so it is repeated for each critical incident
    that finds the facility at zero beds. *)
Theorem zero_bed_facility_override
    (readings : nat -> Reading) (req : FamilyEmergencyRequest.t)
    (assessment : PatientAssessment.t) (i : nat) (h_data : HospitalData) :
  hospital_data !! i = Some h_data ->
  fst (fst (simulate_availability (hd_trauma_level h_data) (readings i))) = 0 ->
  let ranked := check_hospital_bed_availability readings req assessment in
  (PatientAssessment.severity_level assessment <> CriticalityLevel.CRITICAL ->
   forall h, In h ranked -> RealTimeHospital.id h <> hd_id h_data)
  /\ (PatientAssessment.severity_level assessment = CriticalityLevel.CRITICAL ->
      exists h, In h ranked
        /\ RealTimeHospital.id h = hd_id h_data
        /\ RealTimeHospital.available_beds h = 1
        /\ 1 <= RealTimeHospital.icu_beds h
        /\ RealTimeHospital.current_load h = "CRITICAL_OVERRIDE").
Proof.
  intros Hi Hzero. cbv zeta. unfold check_hospital_bed_availability.
  set (candidates := availability_loop assessment readings 0 hospital_data).
  pose proof (sort_by_key_perm (hospital_priority req) candidates) as Hperm.
  split.
  - intros Hnc h Hh Hid.
    apply (Permutation_in _ (Permutation_sym Hperm)) in Hh.
    apply availability_loop_In in Hh. destruct Hh as (j & hd & Hj & -> & Hinc).
    cbn [Nat.add] in *.
    rewrite (proj1 (probe_hospital_fixed assessment hd (readings j))) in Hid.
    assert (j = i /\ hd = h_data) as [-> ->].
    { unfold hospital_data in Hi, Hj.
      destruct i as [|[|[|[|i]]]]; cbn in Hi; try discriminate;
        injection Hi as <-;
        destruct j as [|[|[|[|j]]]]; cbn in Hj; try discriminate;
          injection Hj as <-; cbn [hd_id] in Hid; try discriminate; auto. }
    unfold probe_hospital, critical_override in Hinc.
    destruct (simulate_availability (hd_trauma_level h_data) (readings i))
      as [[b ic] l]. cbn [fst] in Hzero. subst b.
    destruct (PatientAssessment.severity_level assessment); try congruence;
      cbn in Hinc; discriminate.
  - intros Hc. exists (probe_hospital assessment h_data (readings i)). split.
    + apply (Permutation_in _ Hperm). apply availability_loop_In.
      exists i, h_data. cbn [Nat.add]. split; [exact Hi|]. split; [reflexivity|].
      rewrite Hc. cbn [CriticalityLevel.eqb]. apply orb_true_r.
    + unfold probe_hospital, critical_override. rewrite Hc.
      destruct (simulate_availability (hd_trauma_level h_data) (readings i))
        as [[b ic] l]. cbn [fst] in Hzero. subst b.
      cbn [CriticalityLevel.eqb Z.eqb andb RealTimeHospital.id
           RealTimeHospital.available_beds RealTimeHospital.icu_beds
           RealTimeHospital.current_load].
      repeat split. lia.
Qed.

(** Fortis at the afternoon peak (15 beds, 20 taken) and a critical
    incident. *)
Lemma zero_bed_facility_override_witness :
  exists h,
    In h (check_hospital_bed_availability (peak_readings 20 8) critical_cardiac
            (assess_patient_with_ai critical_cardiac))
    /\ RealTimeHospital.id h = "FORTIS_DELHI"
    /\ RealTimeHospital.available_beds h = 1
    /\ 1 <= RealTimeHospital.icu_beds h
    /\ RealTimeHospital.current_load h = "CRITICAL_OVERRIDE".
Proof.
  refine (proj2 (zero_bed_facility_override (peak_readings 20 8) critical_cardiac
                   (assess_patient_with_ai critical_cardiac) 2
                   (nth 2 hospital_data
                      {| hd_id := "-"; hd_name := "-"; hd_location := "-";
                         hd_gps_lat := 0; hd_gps_lon := 0; hd_trauma_level := 0;
                         hd_specialties := [] |}) _ _) _);
    reflexivity.
Defined.

(** C6, the claim as worded against the code: two critical incidents in the
    same afternoon peak, each with Fortis (zero beds) as the top choice.  The
    second one is given the override again and Fortis stays first; it does not
    fail over to the next-ranked hospital. *)
Lemma override_repeats_for_second_incident :
  fst (fst (simulate_availability 2 (peak_readings 20 8 2))) = 0
  /\ fst (fst (simulate_availability 2 (peak_readings 21 7 2))) = 0
  /\ map (fun h => (RealTimeHospital.id h, RealTimeHospital.available_beds h,
                    RealTimeHospital.current_load h))
       (check_hospital_bed_availability (peak_readings 20 8) critical_cardiac
          (assess_patient_with_ai critical_cardiac))
     = [ ("FORTIS_DELHI", 1, "CRITICAL_OVERRIDE"); ("AIIMS_DELHI", 5, "HIGH");
         ("MAX_SAKET", 1, "CRITICAL_OVERRIDE"); ("SAFDARJUNG", 5, "HIGH") ]
  /\ map (fun h => (RealTimeHospital.id h, RealTimeHospital.available_beds h,
                    RealTimeHospital.current_load h))
       (check_hospital_bed_availability (peak_readings 21 7) critical_cardiac
          (assess_patient_with_ai critical_cardiac))
     = [ ("FORTIS_DELHI", 1, "CRITICAL_OVERRIDE"); ("AIIMS_DELHI", 4, "HIGH");
         ("MAX_SAKET", 1, "CRITICAL_OVERRIDE"); ("SAFDARJUNG", 4, "HIGH") ].
Proof. vm_compute. repeat split; reflexivity. Qed.

End MatcherClaims.

(* ================================================================== *)
(** * The route estimators *)
(* ================================================================== *)

Module RouteFacts.

Import PyFloat.
Import PyFloatFacts.
Import Notions.
Import Scenarios.

#[global] Instance fmul_Proper : Proper (Qeq ==> Qeq ==> Qeq) fmul.
Proof. intros x x' Hx y y' Hy. unfold fmul. rewrite Hx, Hy. reflexivity. Qed.

#[global] Instance fdiv_Proper : Proper (Qeq ==> Qeq ==> Qeq) fdiv.
Proof. intros x x' Hx y y' Hy. unfold fdiv. rewrite Hx, Hy. reflexivity. Qed.

#[global] Instance py_int_Proper : Proper (Qeq ==> eq) py_int.
Proof.
  intros x y H. unfold py_int.
  assert (Hb : Qle_bool 0 x = Qle_bool 0 y).
  { destruct (Qle_bool 0 x) eqn:E1, (Qle_bool 0 y) eqn:E2; try reflexivity.
    - apply Qle_bool_iff in E1. rewrite H in E1. apply Qle_bool_iff in E1. congruence.
    - apply Qle_bool_iff in E2. rewrite <- H in E2. apply Qle_bool_iff in E2. congruence. }
  rewrite Hb. destruct (Qle_bool 0 y).
  - apply Qfloor_comp. exact H.
  - apply Qceiling_comp. exact H.
Qed.

Lemma eps64_val : (eps64 == 1 # 9007199254740992)%Q.
Proof. reflexivity. Qed.

(** A literal of the source is within one rounding of its decimal. *)
Lemma lit_bounds q :
  (0 <= q)%Q -> (q * (1 - eps64) <= lit q <= q * (1 + eps64))%Q.
Proof. apply b64_rel_err. Qed.

(** [int(n * c)] for an integer [n] and a float [c] at most one rounding
    above [a / b]: never more than the integer quotient [a * n / b]. *)
Lemma int_scale_le n c a b :
  0 <= n <= minutes_bound -> 0 <= a <= 100 -> 0 < b <= 100 ->
  (0 <= c <= (inject_Z a / inject_Z b) * (1 + eps64))%Q ->
  0 <= py_int (fmul (of_int n) c) <= a * n / b.
Proof.
  unfold minutes_bound. intros Hn Ha Hb [Hc0 Hc].
  assert (Hn53 : 0 <= n < 2 ^ 53) by (split; [lia|]; apply Z.le_lt_trans with (2 ^ 40); [lia | reflexivity]).
  rewrite (of_int_exact n Hn53).
  assert (HnQ : (0 <= inject_Z n)%Q) by (rewrite <- (Zle_Qle 0); lia).
  assert (Hx0 : (0 <= inject_Z n * c)%Q) by (apply Qmult_le_0_compat; assumption).
  pose proof (b64_rel_err _ Hx0) as [_ Hup]. fold (fmul (inject_Z n) c) in Hup.
  pose proof (b64_nonneg _ Hx0) as Hf0. fold (fmul (inject_Z n) c) in Hf0.
  split; [apply py_int_nonneg; exact Hf0|].
  destruct (py_int_spec _ Hf0) as [Hp _].
  set (p := py_int (fmul (inject_Z n) c)) in *.
  apply Z.div_le_lower_bound; [lia|].
  assert (HbQ : (0 < inject_Z b)%Q) by (rewrite <- (Zlt_Qlt 0); lia).
  assert (H1 : (inject_Z n * c <= inject_Z n * (inject_Z a / inject_Z b * (1 + eps64)))%Q).
  { rewrite (Qmult_comm (inject_Z n) c), (Qmult_comm (inject_Z n) (_ * _)).
    apply Qmult_le_compat_r; assumption. }
  assert (H2 : (inject_Z p * inject_Z b
                <= inject_Z (a * n) * ((1 + eps64) * (1 + eps64)))%Q).
  { rewrite inject_Z_mult.
    setoid_replace (inject_Z a * inject_Z n * ((1 + eps64) * (1 + eps64)))%Q
      with (inject_Z n * (inject_Z a / inject_Z b * (1 + eps64)) * (1 + eps64)
            * inject_Z b)%Q using relation Qeq by (field; lra).
    apply Qmult_le_compat_r; [|lra].
    eapply Qle_trans; [exact Hp|]. eapply Qle_trans; [exact Hup|].
    apply Qmult_le_compat_r; [exact H1|]. rewrite eps64_val. lra. }
  assert (Han : (0 <= inject_Z (a * n) <= inject_Z (100 * 2 ^ 40))%Q).
  { split; [rewrite <- (Zle_Qle 0) | rewrite <- Zle_Qle]; nia. }
  assert (H3 : (inject_Z (b * p) < inject_Z (a * n + 1))%Q).
  { rewrite inject_Z_plus, (inject_Z_mult b p).
    change (inject_Z (100 * 2 ^ 40)) with (109951162777600 # 1)%Q in Han.
    rewrite eps64_val in H2. change (inject_Z 1) with 1%Q. lra. }
  rewrite <- Zlt_Qlt in H3. lia.
Qed.

(** When the float is at least [a / b], the truncation is at least the
    integer quotient. *)
Lemma int_scale_ge n c a b :
  0 <= n <= minutes_bound -> 0 <= a <= 100 -> 0 < b <= 100 ->
  (inject_Z a / inject_Z b <= c)%Q ->
  a * n / b <= py_int (fmul (of_int n) c).
Proof.
  unfold minutes_bound. intros Hn Ha Hb Hc.
  assert (Hn53 : 0 <= n < 2 ^ 53) by (split; [lia|]; apply Z.le_lt_trans with (2 ^ 40); [lia | reflexivity]).
  rewrite (of_int_exact n Hn53).
  assert (HnQ : (0 <= inject_Z n)%Q) by (rewrite <- (Zle_Qle 0); lia).
  assert (HbQ : (0 < inject_Z b)%Q) by (rewrite <- (Zlt_Qlt 0); lia).
  assert (Hq0 : 0 <= a * n / b) by (apply Z.div_pos; nia).
  assert (Hq53 : a * n / b < 2 ^ 53).
  { apply Z.div_lt_upper_bound; [lia|].
    apply Z.le_lt_trans with (100 * 2 ^ 40); [nia|].
    apply Z.lt_le_trans with (1 * 2 ^ 53); [reflexivity|].
    apply Z.mul_le_mono_nonneg_r; [apply Z.pow_nonneg|]; lia. }
  apply py_int_ge; [|exact Hq0].
  unfold fmul. apply b64_ge_int; [lia|].
  assert (Hd : (inject_Z (a * n / b) * inject_Z b <= inject_Z (a * n))%Q).
  { rewrite <- inject_Z_mult, <- Zle_Qle.
    pose proof (Z.mul_div_le (a * n) b ltac:(lia)). lia. }
  apply Qle_trans with (inject_Z n * (inject_Z a / inject_Z b))%Q.
  - apply (Qmult_le_r _ _ (inject_Z b)); [exact HbQ|].
    setoid_replace (inject_Z n * (inject_Z a / inject_Z b) * inject_Z b)%Q
      with (inject_Z (a * n)) using relation Qeq
      by (rewrite inject_Z_mult; field; lra).
    exact Hd.
  - rewrite (Qmult_comm (inject_Z n) c), (Qmult_comm (inject_Z n) (_ / _)).
    apply Qmult_le_compat_r; assumption.
Qed.

Lemma lit_half : (lit (5 # 10) == 1 # 2)%Q.
Proof. vm_compute. reflexivity. Qed.

(** The two bounds of the oracle clamp, exactly. *)
Lemma int_half n :
  0 <= n <= minutes_bound -> py_int (fmul (of_int n) (lit (5 # 10))) = n / 2.
Proof.
  intros Hn. rewrite lit_half. apply Z.le_antisymm.
  - replace (n / 2) with (1 * n / 2) by (f_equal; lia).
    apply int_scale_le; try lia.
    split; apply Qle_bool_imp_le; vm_compute; reflexivity.
  - replace (n / 2) with (1 * n / 2) by (f_equal; lia).
    apply int_scale_ge; try lia.
    apply Qle_bool_imp_le; vm_compute; reflexivity.
Qed.

Lemma int_nine_tenths n :
  0 <= n <= minutes_bound -> py_int (fmul (of_int n) (lit (9 # 10))) = 9 * n / 10.
Proof.
  intros Hn.
  assert (Hl : (lit (9 # 10) == 8106479329266893 # 9007199254740992)%Q)
    by (vm_compute; reflexivity).
  rewrite Hl. apply Z.le_antisymm.
  - apply int_scale_le; try lia.
    split; apply Qle_bool_imp_le; vm_compute; reflexivity.
  - apply int_scale_ge; try lia.
    apply Qle_bool_imp_le; vm_compute; reflexivity.
Qed.

(** Any literal factor at most [a / b] scales down at least that far. *)
Lemma int_scale_lit_le n q a b :
  0 <= n <= minutes_bound -> 0 <= a <= 100 -> 0 < b <= 100 ->
  (0 <= q <= inject_Z a / inject_Z b)%Q ->
  0 <= py_int (fmul (of_int n) (lit q)) <= a * n / b.
Proof.
  intros Hn Ha Hb [Hq0 Hq]. apply int_scale_le; try assumption.
  destruct (lit_bounds q Hq0) as [Hl Hu].
  split; [apply b64_nonneg; exact Hq0|].
  eapply Qle_trans; [exact Hu|]. apply Qmult_le_compat_r; [exact Hq|].
  rewrite eps64_val. lra.
Qed.

(** [int((distance / speed) * 60)]: the exact quotient, moved by at most two
    roundings and truncated. *)
Lemma travel_minutes_bounds d speed :
  (0 <= d)%Q -> 0 < speed < 2 ^ 53 ->
  let t := py_int (fmul (fdiv d (of_int speed)) (of_int 60)) in
  let exact := (d / inject_Z speed * inject_Z 60)%Q in
  0 <= t
  /\ (inject_Z t <= exact * ((1 + eps64) * (1 + eps64)))%Q
  /\ (exact * ((1 - eps64) * (1 - eps64)) < inject_Z t + 1)%Q.
Proof.
  intros Hd Hs. cbv zeta.
  rewrite (of_int_exact speed ltac:(lia)).
  rewrite (of_int_exact 60 ltac:(split; [lia | reflexivity])).
  assert (HsQ : (0 < inject_Z speed)%Q) by (rewrite <- (Zlt_Qlt 0); lia).
  assert (Hq0 : (0 <= d / inject_Z speed)%Q).
  { unfold Qdiv. apply Qmult_le_0_compat; [exact Hd|].
    apply Qlt_le_weak. apply Qinv_lt_0_compat. exact HsQ. }
  pose proof (b64_rel_err _ Hq0) as [Hlo1 Hup1].
  pose proof (b64_nonneg _ Hq0) as Hf0.
  fold (fdiv d (inject_Z speed)) in Hlo1, Hup1, Hf0.
  set (f := fdiv d (inject_Z speed)) in *.
  assert (Hx0 : (0 <= f * inject_Z 60)%Q).
  { apply Qmult_le_0_compat; [exact Hf0|]. discriminate. }
  pose proof (b64_rel_err _ Hx0) as [Hlo2 Hup2].
  pose proof (b64_nonneg _ Hx0) as Hg0.
  fold (fmul f (inject_Z 60)) in Hlo2, Hup2, Hg0.
  destruct (py_int_spec _ Hg0) as [Hp Hp'].
  set (g := fmul f (inject_Z 60)) in *.
  set (x := (d / inject_Z speed)%Q) in *.
  rewrite eps64_val in *. change (inject_Z 60) with (60 # 1)%Q in *.
  split; [apply py_int_nonneg; exact Hg0|]. split; lra.
Qed.

End RouteFacts.

(* ================================================================== *)
(** * The real-time route calculator *)
(* ================================================================== *)

Module LedgerFacts.

Import Realtime.
Import Notions.
Import Scenarios.

Lemma best_from_shift w i h0 hospitals b1 b2 b3 :
  best_from w i [h0] b1 b2 -> best_from w (S i) hospitals b2 b3 ->
  best_from w i (h0 :: hospitals) b1 b3.
Proof.
  intros H1 [->|(j & h & p & q & Hj & Hb & ->)].
  - destruct H1 as [->|(j & h & p & q & Hj & Hb & ->)]; [left; reflexivity|].
    right. destruct j; [|destruct j; discriminate].
    exists 0%nat, h, p, q. auto.
  - right. exists (S j), h, p, q. repeat split; auto. f_equal. f_equal. lia.
Qed.

Lemma select_loop_spec w loc score i hospitals best :
  beds (select_loop w loc score i hospitals best).1 = beds hospitals
  /\ best_from w i hospitals best (select_loop w loc score i hospitals best).2.
Proof.
  revert i best. induction hospitals as [|h hospitals IH]; intros i best.
  - cbn. split; [reflexivity | left; reflexivity].
  - cbn [select_loop].
    set (d := geodesic_km w loc (Hospital.gps_lat h, Hospital.gps_lon h)).
    change (Hospital.trauma_level (Hospital.set_distance_km d h))
      with (Hospital.trauma_level h).
    change (Hospital.available_beds (Hospital.set_distance_km d h))
      with (Hospital.available_beds h).
    set (best1 := if 8 <=? score then _ else _).
    specialize (IH (S i) best1).
    destruct (select_loop w loc score (S i) hospitals best1) as [rest' best'].
    cbn [fst snd] in *. destruct IH as [IHb IHf]. split.
    + unfold beds in *. cbn [map]. rewrite IHb. reflexivity.
    + eapply best_from_shift; [|exact IHf].
      assert (Hupd : 0 < Hospital.available_beds h ->
                     best_from w i [h] best (Some (i, d))).
      { intros Hb. right. exists 0%nat, h, loc,
          (Hospital.gps_lat h, Hospital.gps_lon h).
        repeat split; auto. f_equal. f_equal. lia. }
      subst best1.
      destruct (8 <=? score); [|destruct (6 <=? score)];
        destruct (Hospital.trauma_level h =? 1); cbn [andb];
        destruct (Z.ltb_spec 0 (Hospital.available_beds h)) as [Hb|Hb];
        cbn [andb]; try (left; reflexivity);
        destruct (closer d best); try (left; reflexivity); apply Hupd; exact Hb.
Qed.

Lemma nearest_available_loop_spec w loc i hospitals best :
  best_from w i hospitals best (nearest_available_loop w loc i hospitals best).
Proof.
  revert i best. induction hospitals as [|h hospitals IH]; intros i best.
  - left. reflexivity.
  - cbn [nearest_available_loop].
    set (best1 := if 0 <? Hospital.available_beds h then _ else _).
    eapply best_from_shift; [|apply IH].
    subst best1. destruct (Z.ltb_spec 0 (Hospital.available_beds h)) as [Hb|Hb];
      [|left; reflexivity].
    destruct (closer _ best); [|left; reflexivity].
    right. exists 0%nat, h, loc, (Hospital.gps_lat h, Hospital.gps_lon h).
    repeat split; auto. f_equal. f_equal. lia.
Qed.

(** One assessment either leaves the ledger and the routes as they are, or
    takes one bed from one hospital that had one and appends the route to
    it. *)
Lemma route_step_cases w locs k hospitals routes a :
  let out := route_step w locs k (hospitals, routes) a in
  (beds out.1 = beds hospitals /\ out.2 = routes)
  \/ exists i b target p q,
       beds hospitals !! i = Some b /\ 0 < b
       /\ beds out.1 = <[i := b - 1]> (beds hospitals)
       /\ out.2 = routes ++
                  [build_route (cerebras w k) (length routes) a
                     (accident_location_of w locs a) i target (geodesic_km w p q)].
Proof.
  cbv zeta. unfold route_step.
  pose proof (select_loop_spec w (accident_location_of w locs a)
                (PCSAssessment.patient_critical_score a) 0 hospitals None)
    as [Hbeds Hsel].
  destruct (select_loop w (accident_location_of w locs a)
              (PCSAssessment.patient_critical_score a) 0 hospitals None)
    as [hospitals1 best1]. cbn [fst snd] in *.
  set (best2 := match best1 with Some _ => best1 | None => _ end).
  assert (Hbest : best_from w 0 hospitals1 None best2).
  { subst best2. destruct best1 as [[i d]|].
    - destruct Hsel as [Hsel|(j & h & p & q & Hj & Hb & Heq)]; [discriminate|].
      right. assert (Hj' : beds hospitals !! j = Some (Hospital.available_beds h))
        by (unfold beds; rewrite list_lookup_fmap, Hj; reflexivity).
      rewrite <- Hbeds in Hj'. unfold beds in Hj'. rewrite list_lookup_fmap in Hj'.
      destruct (hospitals1 !! j) as [h1|] eqn:E1; [|discriminate].
      cbn in Hj'. injection Hj' as Hj'.
      exists j, h1, p, q. split; [exact E1|]. split; [lia|]. exact Heq.
    - apply nearest_available_loop_spec. }
  destruct Hbest as [->|(j & h & p & q & Hj & Hb & ->)].
  - left. split; [exact Hbeds | reflexivity].
  - cbn [Nat.add]. rewrite Hj. right.
    exists j, (Hospital.available_beds h), h, p, q.
    assert (Hj' : beds hospitals !! j = Some (Hospital.available_beds h)).
    { rewrite <- Hbeds. unfold beds. rewrite list_lookup_fmap, Hj. reflexivity. }
    split; [exact Hj'|]. split; [exact Hb|]. split; [|reflexivity].
    cbn [fst]. rewrite <- Hbeds. unfold beds. rewrite list_fmap_insert. reflexivity.
Qed.

Lemma route_loop_snoc w locs k assessments a state :
  route_loop w locs k (assessments ++ [a]) state
  = route_step w locs (k + length assessments)
      (route_loop w locs k assessments state) a.
Proof.
  revert k state. induction assessments as [|a0 assessments IH]; intros k state.
  - cbn. rewrite Nat.add_0_r. reflexivity.
  - cbn [app route_loop length]. rewrite IH. f_equal. lia.
Qed.

(** No counter of a reachable ledger is negative. *)
Lemma route_loop_beds_nonneg w locs k assessments hospitals routes :
  Forall (fun b => 0 <= b) (beds hospitals) ->
  Forall (fun b => 0 <= b) (beds (route_loop w locs k assessments (hospitals, routes)).1).
Proof.
  revert k hospitals routes.
  induction assessments as [|a assessments IH]; intros k hospitals routes Hpos.
  - exact Hpos.
  - cbn [route_loop].
    pose proof (route_step_cases w locs k hospitals routes a) as Hc. cbv zeta in Hc.
    destruct (route_step w locs k (hospitals, routes) a) as [hospitals' routes'].
    apply IH. cbn [fst snd] in Hc.
    destruct Hc as [[-> _]|(i & b & t & p & q & Hi & Hb & -> & _)]; [exact Hpos|].
    apply Forall_insert; [exact Hpos | lia].
Qed.

End LedgerFacts.

Module LedgerClaims.

Import Realtime.
Import LedgerFacts.
Import Notions.
Import Scenarios.

Lemma decrement_below (l : list Z) i b :
  l !! i = Some b -> Forall2 (fun x y => y <= x) l (<[i := b - 1]> l).
Proof.
  revert i. induction l as [|x l IH]; intros i Hi; [discriminate|].
  destruct i as [|i]; cbn in *.
  - injection Hi as ->. constructor; [lia|].
    apply Forall2_same_length_lookup_2; [reflexivity|].
    intros j y z Hy Hz. rewrite Hy in Hz. injection Hz as ->. lia.
  - constructor; [lia|]. apply IH. exact Hi.
Qed.

Lemma hospitals_init_beds : beds hospitals_init = [15; 8; 12].
Proof. reflexivity. Qed.

(** What the function returns on a non-empty list of assessments. *)
Lemma calculate_route_unfold w pcs accident_data a0 rest :
  PCSResults.assessments pcs = a0 :: rest ->
  calculate_route_with_cerebras w (Some pcs) accident_data =
  ({| RouteResults.routes :=
        (route_loop w (accident_locations_of accident_data) 0 (a0 :: rest)
           (hospitals_init, [])).2 |},
   (route_loop w (accident_locations_of accident_data) 0 (a0 :: rest)
      (hospitals_init, [])).1).
Proof.
  intros H. unfold calculate_route_with_cerebras. rewrite H.
  destruct (route_loop _ _ _ _ _) as [hs rs]. reflexivity.
Qed.

(** C1.  Take any run of the route calculator, stopped after any number of
    assessments, and the assessment processed next.  After the step no bed
    counter is negative and none has grown; and either the step reserved
    nothing (no route added, every counter unchanged) or it added one route,
    whose hospital had a strictly positive counter before the step, and
    exactly that counter went down by exactly 1. *)
Theorem bed_ledger_invariant
    (w : World) (accident_data : option DetectedAccidents.t)
    (assessments : list PCSAssessment.t) (a : PCSAssessment.t) :
  let locs := accident_locations_of accident_data in
  let before := route_loop w locs 0 assessments (hospitals_init, []) in
  let after := route_step w locs (length assessments) before a in
  route_loop w locs 0 (assessments ++ [a]) (hospitals_init, []) = after
  /\ Forall (fun b => 0 <= b) (beds after.1)
  /\ Forall2 (fun b b' => b' <= b) (beds before.1) (beds after.1)
  /\ ((after.2 = before.2 /\ beds after.1 = beds before.1)
      \/ exists r i b,
           after.2 = before.2 ++ [r]
           /\ RouteOptimization.target_hospital r = i
           /\ beds before.1 !! i = Some b
           /\ 0 < b
           /\ beds after.1 = <[i := b - 1]> (beds before.1)).
Proof.
  cbv zeta. set (locs := accident_locations_of accident_data).
  pose proof (route_loop_snoc w locs 0 assessments a (hospitals_init, [])) as Hsnoc.
  cbn [Nat.add] in Hsnoc.
  pose proof (route_loop_beds_nonneg w locs 0 (assessments ++ [a]) hospitals_init [])
    as Hnn.
  rewrite Hsnoc in Hnn.
  destruct (route_loop w locs 0 assessments (hospitals_init, []))
    as [hospitals routes] eqn:Eb.
  pose proof (route_step_cases w locs (length assessments) hospitals routes a) as Hc.
  cbv zeta in Hc. cbn [fst snd] in *.
  split; [exact Hsnoc|]. split.
  { apply Hnn. rewrite hospitals_init_beds. repeat constructor; lia. }
  destruct Hc as [[Hb Hr]|(i & b & t & p & q & Hi & Hpos & Hb & Hr)].
  - split.
    + rewrite Hb. apply Forall2_same_length_lookup_2; [reflexivity|].
      intros j y z Hy Hz. rewrite Hy in Hz. injection Hz as ->. lia.
    + left. split; assumption.
  - split.
    + rewrite Hb. apply decrement_below. exact Hi.
    + right. eexists _, i, b. split; [exact Hr|].
      split; [reflexivity|]. auto.
Qed.

End LedgerClaims.

Module EstimatorFacts.

Import PyFloat.
Import PyFloatFacts.
Import RouteFacts.
Import Notions.
Import Scenarios.

Lemma travel_minutes_range d speed :
  (0 <= d <= max_km)%Q -> speed = 15 \/ speed = 25 \/ speed = 35 ->
  0 <= py_int (fmul (fdiv d (of_int speed)) (of_int 60)) <= 400001.
Proof.
  unfold max_km. intros [Hd0 Hd] Hs.
  assert (Hs' : 0 < speed < 2 ^ 53).
  { split; [lia|]. apply Z.le_lt_trans with (2 ^ 6); [cbn; lia | reflexivity]. }
  destruct (travel_minutes_bounds d speed Hd0 Hs') as (H0 & Hup & _).
  split; [exact H0|].
  set (t := py_int (fmul (fdiv d (of_int speed)) (of_int 60))) in *.
  assert (He : (d / inject_Z speed * inject_Z 60 <= d * 4)%Q).
  { destruct Hs as [->|[->| ->]].
    - setoid_replace (d / inject_Z 15 * inject_Z 60)%Q with (d * 4)%Q
        using relation Qeq by (field; discriminate). lra.
    - setoid_replace (d / inject_Z 25 * inject_Z 60)%Q with (d * (12 # 5))%Q
        using relation Qeq by (field; discriminate). lra.
    - setoid_replace (d / inject_Z 35 * inject_Z 60)%Q with (d * (12 # 7))%Q
        using relation Qeq by (field; discriminate). lra. }
  assert (Hq : (inject_Z t < inject_Z 400002)%Q).
  { rewrite eps64_val in Hup.
    change (inject_Z 100000) with (100000 # 1)%Q in Hd.
    change (inject_Z 400002) with (400002 # 1)%Q.
    set (x := (d / inject_Z speed * inject_Z 60)%Q) in *.
    assert (x * ((1 + (1 # 9007199254740992)) * (1 + (1 # 9007199254740992)))
            <= x + 400000 * (3 # 9007199254740992))%Q.
    { assert (0 <= x)%Q.
      { subst x. apply Qmult_le_0_compat; [|discriminate].
        unfold Qdiv. apply Qmult_le_0_compat; [exact Hd0|].
        apply Qlt_le_weak, Qinv_lt_0_compat. rewrite <- (Zlt_Qlt 0). lia. }
      assert (x <= 400000)%Q by lra.
      assert (x * (3 # 9007199254740992) <= 400000 * (3 # 9007199254740992))%Q
        by (apply Qmult_le_compat_r; [assumption | discriminate]).
      lra. }
    lra. }
  rewrite <- Zlt_Qlt in Hq. lia.
Qed.

Lemma minutes_in_bound n : 0 <= n <= 400001 -> 0 <= n <= minutes_bound.
Proof.
  intros H. split; [lia|]. apply Z.le_trans with (2 ^ 19); [cbn; lia|].
  unfold minutes_bound. apply Z.pow_le_mono_r; lia.
Qed.

Import Realtime.

(** The oracle path and the two fallback paths of the ETA optimiser. *)
Lemma optimize_eta_bounds reply d n s :
  5 <= n <= minutes_bound ->
  let g := optimize_eta_with_cerebras reply
             {| rd_distance_km := d; rd_normal_time := Some n; rd_severity := Some s |} in
  Z.max (n / 2) 3 <= g <= 9 * n / 10
  /\ (forall text o, reply = Some text -> PyStr.search_digits text = Some o ->
        g = Z.max (Z.max (n / 2) 3) (Z.min o (9 * n / 10))).
Proof.
  intros Hn. cbv zeta. unfold optimize_eta_with_cerebras.
  cbn [rd_normal_time rd_severity default from_option id].
  assert (Hn' : 0 <= n <= minutes_bound) by lia.
  rewrite (int_half n Hn'), (int_nine_tenths n Hn').
  assert (Hdiv2 : n / 2 <= 9 * n / 10).
  { apply Z.div_le_lower_bound; [lia|].
    pose proof (Z.mul_div_le n 2 ltac:(lia)).
    pose proof (Z.mod_pos_bound n 2 ltac:(lia)).
    pose proof (Z.div_mod n 2 ltac:(lia)). lia. }
  assert (H3 : 3 <= 9 * n / 10) by (apply Z.div_le_lower_bound; lia).
  assert (Hfb : Z.max (n / 2) 3 <= fallback_eta s n <= 9 * n / 10).
  { unfold fallback_eta.
    assert (H7 : 7 * n / 10 <= 9 * n / 10) by (apply Z.div_le_mono; lia).
    assert (Hlow : forall q, (inject_Z 1 / inject_Z 2 <= lit q)%Q ->
                     n / 2 <= py_int (fmul (of_int n) (lit q))).
    { intros q Hq. replace (n / 2) with (1 * n / 2) by (f_equal; lia).
      apply int_scale_ge; try lia. exact Hq. }
    assert (Hup : forall q, (0 <= q <= inject_Z 7 / inject_Z 10)%Q ->
                    py_int (fmul (of_int n) (lit q)) <= 7 * n / 10).
    { intros q Hq. apply int_scale_lit_le; try lia. exact Hq. }
    assert (py_int (fmul (of_int n) (lit (7 # 10))) <= 7 * n / 10)
      by (apply Hup; split; apply Qle_bool_imp_le; vm_compute; reflexivity).
    assert (py_int (fmul (of_int n) (lit (6 # 10))) <= 7 * n / 10)
      by (apply Hup; split; apply Qle_bool_imp_le; vm_compute; reflexivity).
    assert (py_int (fmul (of_int n) (lit (5 # 10))) <= 7 * n / 10)
      by (apply Hup; split; apply Qle_bool_imp_le; vm_compute; reflexivity).
    assert (n / 2 <= py_int (fmul (of_int n) (lit (7 # 10))))
      by (apply Hlow; apply Qle_bool_imp_le; vm_compute; reflexivity).
    assert (n / 2 <= py_int (fmul (of_int n) (lit (6 # 10))))
      by (apply Hlow; apply Qle_bool_imp_le; vm_compute; reflexivity).
    assert (n / 2 <= py_int (fmul (of_int n) (lit (5 # 10))))
      by (apply Hlow; apply Qle_bool_imp_le; vm_compute; reflexivity).
    destruct (s <? 6); [|destruct (s <? 8)]; lia. }
  split.
  - destruct reply as [text|]; [|exact Hfb].
    destruct (PyStr.search_digits text) as [o|]; [|exact Hfb]. lia.
  - intros text o -> Ho. rewrite Ho. reflexivity.
Qed.

(** The timing of a route of the real-time workflow. *)
Lemma build_route_times reply n_routes a loc i target d :
  (0 <= d <= max_km)%Q ->
  let r := build_route reply n_routes a loc i target d in
  let n := RouteOptimization.estimated_time_normal r in
  let g := RouteOptimization.estimated_time_green_corridor r in
  5 <= n <= minutes_bound
  /\ Z.max (n / 2) 3 <= g <= 9 * n / 10
  /\ g <= n - 1
  /\ RouteOptimization.time_saved_minutes r = n - g
  /\ 1 <= RouteOptimization.time_saved_minutes r.
Proof.
  intros Hd. cbv zeta. unfold build_route.
  cbn [RouteOptimization.estimated_time_normal
       RouteOptimization.estimated_time_green_corridor
       RouteOptimization.time_saved_minutes].
  set (speed := if 7 <=? PCSAssessment.patient_critical_score a then 35 else 25).
  assert (Hs : speed = 15 \/ speed = 25 \/ speed = 35)
    by (subst speed; destruct (7 <=? _); auto).
  pose proof (travel_minutes_range d speed Hd Hs) as Ht.
  set (t := py_int (fmul (fdiv d (of_int speed)) (of_int 60))) in *.
  assert (Hn : 5 <= Z.max t 5 <= minutes_bound).
  { split; [lia|]. apply (minutes_in_bound (Z.max t 5)). lia. }
  destruct (optimize_eta_bounds reply d (Z.max t 5)
              (PCSAssessment.patient_critical_score a) Hn) as [Hg _].
  cbv zeta in Hg.
  set (g := optimize_eta_with_cerebras reply _) in *.
  assert (H9 : 9 * Z.max t 5 / 10 <= Z.max t 5 - 1).
  { apply Z.lt_succ_r. apply Z.div_lt_upper_bound; lia. }
  repeat split; try lia.
Qed.

(** Every route of a run was built for one of the assessments, to a
    hospital at a distance that the world measured. *)
Lemma route_loop_routes w locs k assessments hospitals routes r :
  In r (route_loop w locs k assessments (hospitals, routes)).2 ->
  In r routes
  \/ exists a reply n_routes i target p q,
       In a assessments
       /\ r = build_route reply n_routes a (accident_location_of w locs a)
                i target (geodesic_km w p q).
Proof.
  revert k hospitals routes.
  induction assessments as [|a assessments IH]; intros k hospitals routes Hr.
  - left. exact Hr.
  - cbn [route_loop] in Hr.
    pose proof (LedgerFacts.route_step_cases w locs k hospitals routes a) as Hc.
    cbv zeta in Hc.
    destruct (route_step w locs k (hospitals, routes) a) as [hospitals' routes'].
    cbn [fst snd] in Hc.
    apply IH in Hr. destruct Hr as [Hr|(a' & rp & nr & i & tg & p & q & Ha & ->)].
    + destruct Hc as [[_ ->]|(i & b & tg & p & q & _ & _ & _ & ->)];
        [left; exact Hr|].
      apply in_app_or in Hr. destruct Hr as [Hr|[<-|[]]]; [left; exact Hr|].
      right. exists a, (cerebras w k), (length routes), i, tg, p, q.
      split; [left; reflexivity | reflexivity].
    + right. exists a', rp, nr, i, tg, p, q. split; [right; exact Ha | reflexivity].
Qed.

Lemma run_routes w pcs accident_data r :
  In r (RouteResults.routes (calculate_route_with_cerebras w pcs accident_data).1) ->
  exists a reply n_routes i target p q,
    r = build_route reply n_routes a
          (accident_location_of w (accident_locations_of accident_data) a)
          i target (geodesic_km w p q).
Proof.
  unfold calculate_route_with_cerebras.
  destruct pcs as [pcs|]; [|intros []].
  destruct (PCSResults.assessments pcs) as [|a0 rest] eqn:E; [intros []|].
  pose proof (route_loop_routes w (accident_locations_of accident_data) 0
                (a0 :: rest) hospitals_init [] r) as H.
  destruct (route_loop _ _ _ _ _) as [hs rs]. cbn [fst snd RouteResults.routes] in *.
  intros Hr. destruct (H Hr) as [[]|(a & rp & nr & i & tg & p & q & _ & ->)].
  exists a, rp, nr, i, tg, p, q. reflexivity.
Qed.

Import Patient.

(** The timing of a route of the patient workflow. *)
Lemma patient_route_times now req h a :
  (0 <= RealTimeHospital.distance_km h <= max_km)%Q ->
  let r := calculate_patient_route now req h a in
  0 <= PatientRoute.estimated_time_green_corridor r
       <= PatientRoute.estimated_time_normal r
  /\ PatientRoute.time_saved_minutes r
     = PatientRoute.estimated_time_normal r
       - PatientRoute.estimated_time_green_corridor r.
Proof.
  intros Hd. cbv zeta. unfold calculate_patient_route.
  assert (Hs : (traffic_of_hour (hour now)).2 = 15
               \/ (traffic_of_hour (hour now)).2 = 25
               \/ (traffic_of_hour (hour now)).2 = 35).
  { unfold traffic_of_hour.
    destruct (_ || _); [auto|]. destruct (_ && _); auto. }
  destruct (traffic_of_hour (hour now)) as [label speed]. cbn [snd] in Hs.
  pose proof (travel_minutes_range _ speed Hd Hs) as Ht.
  set (n := py_int (fmul (fdiv (RealTimeHospital.distance_km h) (of_int speed))
                      (of_int 60))) in *.
  pose proof (minutes_in_bound n Ht) as Hn.
  assert (H55 : 0 <= py_int (fmul (of_int n) (lit (55 # 100))) <= 55 * n / 100).
  { apply int_scale_lit_le; try lia.
    split; apply Qle_bool_imp_le; vm_compute; reflexivity. }
  assert (H85 : 0 <= py_int (fmul (of_int n) (lit (85 # 100))) <= 85 * n / 100).
  { apply int_scale_lit_le; try lia.
    split; apply Qle_bool_imp_le; vm_compute; reflexivity. }
  assert (55 * n / 100 <= n) by (apply Z.div_le_upper_bound; lia).
  assert (85 * n / 100 <= n) by (apply Z.div_le_upper_bound; lia).
  destruct (PatientAssessment.green_corridor_required a);
    cbn [PatientRoute.estimated_time_green_corridor
         PatientRoute.estimated_time_normal PatientRoute.time_saved_minutes];
    (split; [lia | reflexivity]).
Qed.

End EstimatorFacts.

Module EstimatorClaims.

Import PyFloat.
Import EstimatorFacts.
Import Notions.
Import Scenarios.

Lemma accident_world_bounded reply p q :
  (0 <= Realtime.geodesic_km (accident_world reply) p q <= max_km)%Q.
Proof.
  unfold accident_world, max_km. cbn [Realtime.geodesic_km].
  destruct (Qeq_bool _ _); [|destruct (Qeq_bool _ _)];
    split; apply Qle_bool_imp_le; reflexivity.
Qed.

(** C3, as amended.  On every route of either workflow the priority ETA is
    at most the baseline ETA and the time saved is their difference, hence
    not negative (in the real-time workflow it is at least 1 minute, the
    baseline being at least 5).  In the real-time workflow the priority ETA
    lies between max(floor(baseline / 2), 3) and floor(9 * baseline / 10);
    when the oracle's reply holds a number, the priority ETA is that number
    clamped to these two whole-minute bounds, the lower one winning.  The
    lower bound is the half of the baseline rounded down, so the priority
    ETA can be below 0.5 * baseline by half a minute. *)
Theorem eta_saving_and_oracle_clamp :
  (forall now req h a,
      (0 <= Patient.RealTimeHospital.distance_km h <= max_km)%Q ->
      let r := Patient.calculate_patient_route now req h a in
      0 <= Patient.PatientRoute.estimated_time_green_corridor r
           <= Patient.PatientRoute.estimated_time_normal r
      /\ Patient.PatientRoute.time_saved_minutes r
         = Patient.PatientRoute.estimated_time_normal r
           - Patient.PatientRoute.estimated_time_green_corridor r
      /\ 0 <= Patient.PatientRoute.time_saved_minutes r)
  /\ (forall w pcs accident_data,
        (forall p q, (0 <= Realtime.geodesic_km w p q <= max_km)%Q) ->
        forall r,
          In r (Realtime.RouteResults.routes
                  (Realtime.calculate_route_with_cerebras w pcs accident_data).1) ->
          let n := Realtime.RouteOptimization.estimated_time_normal r in
          let g := Realtime.RouteOptimization.estimated_time_green_corridor r in
          5 <= n
          /\ Z.max (n / 2) 3 <= g <= 9 * n / 10
          /\ g <= n - 1
          /\ Realtime.RouteOptimization.time_saved_minutes r = n - g
          /\ 1 <= Realtime.RouteOptimization.time_saved_minutes r)
  /\ (forall text o d n s,
        5 <= n <= minutes_bound ->
        PyStr.search_digits text = Some o ->
        Realtime.optimize_eta_with_cerebras (Some text)
          {| Realtime.rd_distance_km := d; Realtime.rd_normal_time := Some n;
             Realtime.rd_severity := Some s |}
        = Z.max (Z.max (n / 2) 3) (Z.min o (9 * n / 10))).
Proof.
  split; [|split].
  - intros now req h a Hd. cbv zeta.
    destruct (patient_route_times now req h a Hd) as [H1 H2]. cbv zeta in *. lia.
  - intros w pcs accident_data Hw r Hr.
    destruct (run_routes w pcs accident_data r Hr)
      as (a & rp & nr & i & tg & p & q & ->).
    destruct (build_route_times rp nr a
                (Realtime.accident_location_of w
                   (Realtime.accident_locations_of accident_data) a)
                i tg _ (Hw p q)) as (H1 & H2 & H3 & H4 & H5).
    cbv zeta in *. repeat split; lia.
  - intros text o d n s Hn Ho.
    destruct (optimize_eta_bounds (Some text) d n s Hn) as [_ H].
    apply (H text o eq_refl Ho).
Qed.

(** The accident 3 km from AIIMS, the oracle answering 6. *)
Lemma eta_saving_and_oracle_clamp_witness :
  Forall
    (fun r =>
       5 <= Realtime.RouteOptimization.estimated_time_normal r
       /\ Z.max (Realtime.RouteOptimization.estimated_time_normal r / 2) 3
          <= Realtime.RouteOptimization.estimated_time_green_corridor r
          <= 9 * Realtime.RouteOptimization.estimated_time_normal r / 10
       /\ Realtime.RouteOptimization.estimated_time_green_corridor r
          <= Realtime.RouteOptimization.estimated_time_normal r - 1
       /\ Realtime.RouteOptimization.time_saved_minutes r
          = Realtime.RouteOptimization.estimated_time_normal r
            - Realtime.RouteOptimization.estimated_time_green_corridor r
       /\ 1 <= Realtime.RouteOptimization.time_saved_minutes r)
    (accident_run (Some "6")).
Proof.
  apply List.Forall_forall. intros r Hr.
  exact (proj1 (proj2 eta_saving_and_oracle_clamp)
           (accident_world (Some "6")) _ _
           (accident_world_bounded (Some "6")) r Hr).
Defined.

(** C3, the claim as worded against the code: for the accident 3 km from
    AIIMS the baseline is 7 minutes; the oracle answers 3 and the priority
    ETA is 3 minutes, below half the baseline (3.5). *)
Lemma clamp_lower_bound_is_rounded_down :
  map (fun r => (Realtime.RouteOptimization.estimated_time_normal r,
                 Realtime.RouteOptimization.estimated_time_green_corridor r,
                 Realtime.RouteOptimization.time_saved_minutes r))
      (accident_run (Some "3")) = [(7, 3, 4)]
  /\ (inject_Z 3 < (5 # 10) * inject_Z 7)%Q.
Proof. split; [vm_compute; reflexivity | reflexivity]. Qed.

(** C8, as amended.  The baseline ETA is the quotient distance / speed in
    minutes, computed in floating point and truncated to whole minutes: it is
    rounded down, never up.  In the patient workflow the speed is 15, 25 or
    35 km/h by the hour of the day and there is no minimum (a short leg has
    a baseline of 0); in the real-time workflow the speed is 35 km/h for a
    score of 7 or more and 25 km/h otherwise, whatever the hour, and the
    baseline is raised to at least 5 minutes. *)
Theorem baseline_eta_is_truncated_quotient :
  (forall now req h a,
      (0 <= Patient.RealTimeHospital.distance_km h)%Q ->
      let r := Patient.calculate_patient_route now req h a in
      let n := Patient.PatientRoute.estimated_time_normal r in
      exists speed,
        ((7 <= hour now <= 10 \/ 17 <= hour now <= 20) -> speed = 15)
        /\ (11 <= hour now <= 16 -> speed = 25)
        /\ (hour now < 7 \/ 20 < hour now -> speed = 35)
        /\ n = py_int (fmul (fdiv (Patient.RealTimeHospital.distance_km h)
                               (of_int speed)) (of_int 60))
        /\ 0 <= n
        /\ (inject_Z n
            <= Patient.RealTimeHospital.distance_km h / inject_Z speed * inject_Z 60
               * ((1 + eps64) * (1 + eps64)))%Q
        /\ (Patient.RealTimeHospital.distance_km h / inject_Z speed * inject_Z 60
            * ((1 - eps64) * (1 - eps64)) < inject_Z n + 1)%Q)
  /\ (forall reply n_routes a loc i target d,
        (0 <= d)%Q ->
        let r := Realtime.build_route reply n_routes a loc i target d in
        let n := Realtime.RouteOptimization.estimated_time_normal r in
        let speed :=
          if 7 <=? Realtime.PCSAssessment.patient_critical_score a then 35 else 25 in
        n = Z.max (py_int (fmul (fdiv d (of_int speed)) (of_int 60))) 5
        /\ 5 <= n
        /\ (d / inject_Z speed * inject_Z 60 * ((1 - eps64) * (1 - eps64))
            < inject_Z n + 1)%Q
        /\ (5 < n ->
            (inject_Z n
             <= d / inject_Z speed * inject_Z 60 * ((1 + eps64) * (1 + eps64)))%Q))
  /\ (forall w pcs accident_data r,
        In r (Realtime.RouteResults.routes
                (Realtime.calculate_route_with_cerebras w pcs accident_data).1) ->
        exists a reply n_routes i target p q,
          r = Realtime.build_route reply n_routes a
                (Realtime.accident_location_of w
                   (Realtime.accident_locations_of accident_data) a)
                i target (Realtime.geodesic_km w p q)).
Proof.
  split; [|split].
  - intros now req h a Hd. cbv zeta. unfold Patient.calculate_patient_route.
    assert (Hs : ((7 <= hour now <= 10 \/ 17 <= hour now <= 20) ->
                  (Patient.traffic_of_hour (hour now)).2 = 15)
                 /\ (11 <= hour now <= 16 ->
                     (Patient.traffic_of_hour (hour now)).2 = 25)
                 /\ (hour now < 7 \/ 20 < hour now ->
                     (Patient.traffic_of_hour (hour now)).2 = 35)
                 /\ 0 < (Patient.traffic_of_hour (hour now)).2 < 2 ^ 53).
    { unfold Patient.traffic_of_hour.
      destruct (Z.leb_spec 7 (hour now)), (Z.leb_spec (hour now) 10),
        (Z.leb_spec 17 (hour now)), (Z.leb_spec (hour now) 20),
        (Z.leb_spec 11 (hour now)), (Z.leb_spec (hour now) 16);
        cbn [andb orb snd]; repeat split; intros; try lia; reflexivity. }
    destruct (Patient.traffic_of_hour (hour now)) as [label speed].
    cbn [snd] in Hs. destruct Hs as (H1 & H2 & H3 & H4).
    exists speed.
    destruct (RouteFacts.travel_minutes_bounds _ speed Hd H4) as (B0 & B1 & B2).
    destruct (Patient.PatientAssessment.green_corridor_required a);
      cbn [Patient.PatientRoute.estimated_time_normal];
      repeat (split; [assumption|]); try assumption; repeat split; assumption.
  - intros reply n_routes a loc i target d Hd. cbv zeta.
    unfold Realtime.build_route.
    cbn [Realtime.RouteOptimization.estimated_time_normal].
    set (speed := if 7 <=? Realtime.PCSAssessment.patient_critical_score a
                  then 35 else 25).
    assert (H4 : 0 < speed < 2 ^ 53).
    { subst speed. destruct (7 <=? _); split; reflexivity. }
    destruct (RouteFacts.travel_minutes_bounds d speed Hd H4) as (B0 & B1 & B2).
    set (t := py_int (fmul (fdiv d (of_int speed)) (of_int 60))) in *.
    split; [reflexivity|]. split; [lia|]. split.
    + eapply Qlt_le_trans; [exact B2|].
      assert (Hq : (inject_Z t <= inject_Z (Z.max t 5))%Q)
        by (rewrite <- Zle_Qle; lia).
      lra.
    + intros H5. replace (Z.max t 5) with t by lia. exact B1.
  - intros w pcs accident_data r Hr. exact (run_routes w pcs accident_data r Hr).
Qed.

(** The accident 3 km from AIIMS: 7.2 minutes at 25 km/h, truncated to 7. *)
Lemma baseline_eta_is_truncated_quotient_witness :
  Realtime.RouteOptimization.estimated_time_normal
    (Realtime.build_route (Some "6") 0 moderate_accident
       (lit (285942 # 10000), lit (772100 # 10000)) 0
       aiims_trauma
       (3 # 1))
  = Z.max (py_int (fmul (fdiv (3 # 1) (of_int 25)) (of_int 60))) 5.
Proof.
  refine (proj1 (proj1 (proj2 baseline_eta_is_truncated_quotient)
                   (Some "6") 0%nat moderate_accident _ 0%nat _ (3 # 1) _)).
  discriminate.
Defined.

(** C8, the claim as worded against the code.  Patient workflow, 15h, Fortis
    at 1.2 km: 2.88 minutes at 25 km/h give a baseline of 2, not 3; 8h, AIIMS
    at 0.2 km: 0.8 minutes at 15 km/h give a baseline of 0, not 1.  Real-time
    workflow, AIIMS at 3 km: 7.2 minutes give 7, not 8. *)
Lemma baseline_is_not_rounded_up :
  option_map (fun r => (Patient.PatientRoute.estimated_time_normal r,
                        Claimed.baseline_eta (Patient.PatientRoute.distance_km r) 25))
    (patient_run (peak_readings 20 8) (at_hour 15)
       critical_cardiac).1 = Some (2, 3)
  /\ option_map (fun r => (Patient.PatientRoute.estimated_time_normal r,
                           Claimed.baseline_eta (Patient.PatientRoute.distance_km r) 15))
       (patient_run near_readings (at_hour 8) critical_cardiac).1
     = Some (0, 1)
  /\ map (fun r => (Realtime.RouteOptimization.estimated_time_normal r,
                    Claimed.baseline_eta (3 # 1) 25))
       (accident_run (Some "6")) = [(7, 8)].
Proof. vm_compute. repeat split; reflexivity. Qed.

End EstimatorClaims.

(* ================================================================== *)
(** * Corridor activation *)
(* ================================================================== *)

Module CorridorClaims.

Import EstimatorClaims.
Import Notions.
Import Scenarios.

(** C4, as amended.  In the patient workflow a corridor is activated exactly
    when the assessment's corridor-required flag is set: the time saved is
    not consulted, so a route that saves nothing is activated for a flagged
    patient and a route that saves a lot is not activated for an unflagged
    one.  In the real-time workflow there is no flag: a route is activated
    exactly when its time saved is at least 5 minutes, which is the claimed
    condition with the flag unset and a minimum of 5.  An activation carries
    the status ACTIVATED and the route's time saved; when the condition
    fails nothing is created for the route. *)
Theorem corridor_activation_conditions :
  (forall now route a,
      (Patient.activate_patient_green_corridor now route a = None
       <-> Patient.PatientAssessment.green_corridor_required a = false)
      /\ (forall c,
            Patient.activate_patient_green_corridor now route a = Some c ->
            Patient.PatientAssessment.green_corridor_required a = true
            /\ Patient.PatientGreenCorridor.status c = "ACTIVATED"
            /\ Patient.PatientGreenCorridor.request_id c
               = Patient.PatientRoute.request_id route
            /\ Patient.PatientGreenCorridor.estimated_time_saved c
               = Patient.PatientRoute.time_saved_minutes route))
  /\ (forall now route,
        (Realtime.activate_route now route = None
         <-> Realtime.RouteOptimization.time_saved_minutes route < 5)
        /\ (forall c,
              Realtime.activate_route now route = Some c ->
              5 <= Realtime.RouteOptimization.time_saved_minutes route
              /\ Realtime.GreenCorridorActivation.status c
                 = Realtime.GreenCorridorStatus.ACTIVATED
              /\ Realtime.GreenCorridorActivation.accident_id c
                 = Realtime.RouteOptimization.accident_id route
              /\ Realtime.GreenCorridorActivation.estimated_time_saved c
                 = Realtime.RouteOptimization.time_saved_minutes route)
        /\ (match Realtime.activate_route now route with
            | Some _ => true
            | None => false
            end)
           = Claimed.corridor_condition false
               (Realtime.RouteOptimization.time_saved_minutes route) 5)
  /\ (forall now results,
        map Realtime.GreenCorridorActivation.accident_id
          (Realtime.GreenCorridorResults.activations
             (Realtime.activate_green_corridor_sumo now (Some results)))
        = map Realtime.RouteOptimization.accident_id
            (List.filter
               (fun r => 5 <=? Realtime.RouteOptimization.time_saved_minutes r)
               (Realtime.RouteResults.routes results)))
  /\ (forall now,
        Realtime.GreenCorridorResults.activations
          (Realtime.activate_green_corridor_sumo now None) = []).
Proof.
  split; [|split; [|split]].
  - intros now route a. unfold Patient.activate_patient_green_corridor.
    destruct (Patient.PatientAssessment.green_corridor_required a);
      cbn [negb]; split.
    + split; discriminate.
    + intros c [= <-]. repeat split; reflexivity.
    + split; reflexivity.
    + intros c; discriminate.
  - intros now route. unfold Realtime.activate_route, Claimed.corridor_condition.
    destruct (Z.leb_spec 5 (Realtime.RouteOptimization.time_saved_minutes route))
      as [H|H]; cbn [orb andb].
    + split; [split; [discriminate | lia]|]. split.
      * intros c [= <-]. repeat split; [exact H | reflexivity..].
      * symmetry. apply Z.ltb_lt. lia.
    + split; [split; [intros _; exact H | reflexivity]|]. split.
      * intros c; discriminate.
      * reflexivity.
  - intros now results. cbn [Realtime.activate_green_corridor_sumo
                              Realtime.GreenCorridorResults.activations].
    induction (Realtime.RouteResults.routes results) as [|r rs IH];
      [reflexivity|].
    cbn [omap list_omap List.filter]. unfold Realtime.activate_route at 1.
    destruct (5 <=? Realtime.RouteOptimization.time_saved_minutes r).
    + cbn [map Realtime.GreenCorridorActivation.accident_id].
      f_equal. exact IH.
    + exact IH.
  - intros now. reflexivity.
Qed.

(** The accident 3 km from AIIMS with the oracle answering 1: the ETA is
    clamped to 3 of 7 minutes, 4 minutes are saved and no corridor is
    activated. *)
Lemma corridor_activation_conditions_witness :
  map Realtime.RouteOptimization.time_saved_minutes (accident_run (Some "1")) = [4]
  /\ List.Forall (fun r => Realtime.activate_route (at_hour 15) r = None)
       (accident_run (Some "1")).
Proof.
  split; [vm_compute; reflexivity|].
  apply List.Forall_forall. intros r Hr.
  apply (proj2 (proj1 (proj1 (proj2 corridor_activation_conditions)
                         (at_hour 15) r))).
  revert r Hr. apply List.Forall_forall. vm_compute.
  repeat constructor.
Defined.

(** C4, the claim as worded against the code, in the patient workflow.  At
    8h a critical cardiac patient 0.2 km from the chosen hospital has a
    baseline and a priority ETA of 0: the time saved is 0, the claimed
    condition fails, and the corridor is activated.  A minor bleeding
    patient 21.6 km from the chosen hospital saves 13 minutes: the claimed
    condition holds, and no corridor is activated. *)
Lemma corridor_follows_flag_not_saving :
  (let run := patient_run near_readings (at_hour 8) critical_cardiac in
   option_map Patient.PatientRoute.time_saved_minutes run.1 = Some 0
   /\ Patient.PatientAssessment.green_corridor_required
        (Patient.assess_patient_with_ai critical_cardiac) = true
   /\ Claimed.corridor_condition true 0 5 = false
   /\ option_map Patient.PatientGreenCorridor.status run.2 = Some "ACTIVATED")
  /\ (let run := patient_run far_readings (at_hour 8) minor_bleeding in
      option_map Patient.PatientRoute.time_saved_minutes run.1 = Some 13
      /\ Patient.PatientAssessment.green_corridor_required
           (Patient.assess_patient_with_ai minor_bleeding) = false
      /\ Claimed.corridor_condition false 13 5 = true
      /\ run.2 = None).
Proof. vm_compute. repeat split; reflexivity. Qed.

End CorridorClaims.


(* ================================================================== *)
(** * The hospital selection of the real-time estimator *)
(* ================================================================== *)

Module SelectionFacts.

Import PyFloat.
Import Realtime.
Import Notions.
Import Selection.

Lemma fltb_lt x y : fltb x y = true <-> (x < y)%Q.
Proof.
  unfold fltb. rewrite negb_true_iff. split.
  - intros H. apply Qnot_le_lt. intros Hle.
    apply Qle_bool_iff in Hle. congruence.
  - intros H. destruct (Qle_bool y x) eqn:E; [|reflexivity].
    apply Qle_bool_iff in E. exfalso. apply (Qlt_not_le _ _ H E).
Qed.

Lemma fltb_ge x y : fltb x y = false <-> (y <= x)%Q.
Proof.
  unfold fltb. rewrite negb_false_iff. apply Qle_bool_iff.
Qed.

(** One more hospital scanned. *)
Lemma scanned_snoc w loc P pre h best :
  scanned w loc P pre best ->
  scanned w loc P (pre ++ [h])
    (if P h
     then if closer (distance_to w loc h) best
          then Some (length pre, distance_to w loc h) else best
     else best).
Proof.
  intros Hinv.
  assert (Hkeep : P h = false \/ (exists j d, best = Some (j, d)
                                    /\ (d <= distance_to w loc h)%Q) ->
                  scanned w loc P (pre ++ [h]) best).
  { intros Hc. destruct best as [[j d]|]; cbn [scanned] in *.
    - destruct Hinv as (hj & (Hj & HP & Hmin) & ->).
      exists hj. split; [|reflexivity]. split; [|split; [exact HP|]].
      + apply lookup_app_l_Some. exact Hj.
      + intros k hk Hk HPk.
        destruct (decide (k < length pre)%nat) as [Hlt|Hge].
        * rewrite lookup_app_l in Hk by exact Hlt. apply Hmin; assumption.
        * rewrite lookup_app_r in Hk by lia.
          destruct (k - length pre)%nat eqn:E; [|destruct n; discriminate].
          injection Hk as <-.
          destruct Hc as [Hc|(j' & d' & [= <- <-] & Hd)]; [congruence|].
          split; [exact Hd|]. intros Hkj.
          apply lookup_lt_Some in Hj. lia.
    - destruct Hc as [Hc|(j & d & Hb & _)]; [|discriminate].
      intros k hk Hk.
      destruct (decide (k < length pre)%nat) as [Hlt|Hge].
      + rewrite lookup_app_l in Hk by exact Hlt. eapply Hinv; exact Hk.
      + rewrite lookup_app_r in Hk by lia.
        destruct (k - length pre)%nat eqn:E; [|destruct n; discriminate].
        injection Hk as <-. exact Hc. }
  destruct (P h) eqn:HP; [|apply Hkeep; left; reflexivity].
  destruct (closer (distance_to w loc h) best) eqn:Hcl.
  - cbn [scanned]. exists h. split; [|reflexivity].
    split; [|split; [exact HP|]].
    + rewrite lookup_app_r by lia. rewrite Nat.sub_diag. reflexivity.
    + intros k hk Hk HPk.
      destruct (decide (k < length pre)%nat) as [Hlt|Hge].
      * rewrite lookup_app_l in Hk by exact Hlt.
        destruct best as [[j d]|]; cbn [scanned closer] in *.
        -- destruct Hinv as (hj & (Hj & HPj & Hmin) & ->).
           apply fltb_lt in Hcl. destruct (Hmin k hk Hk HPk) as [Hle _].
           split; [|intros _]; lra.
        -- rewrite (Hinv k hk Hk) in HPk. discriminate.
      * rewrite lookup_app_r in Hk by lia.
        destruct (k - length pre)%nat eqn:E; [|destruct n; discriminate].
        injection Hk as <-. split; [lra | lia].
  - apply Hkeep. right. destruct best as [[j d]|]; [|discriminate].
    exists j, d. split; [reflexivity|]. cbn [closer] in Hcl.
    apply fltb_ge in Hcl. exact Hcl.
Qed.

Lemma scanned_nil w loc P : scanned w loc P [] None.
Proof. intros k hk Hk. discriminate. Qed.

(** The severity-based loop overwrites the distances and finds the first
    nearest eligible hospital. *)
Lemma select_loop_scanned w loc score pre hospitals best :
  scanned w loc (eligible score) pre best ->
  (select_loop w loc score (length pre) hospitals best).1 = measured w loc hospitals
  /\ scanned w loc (eligible score) (pre ++ hospitals)
       (select_loop w loc score (length pre) hospitals best).2.
Proof.
  revert pre best. induction hospitals as [|h hospitals IH]; intros pre best Hinv.
  - cbn. rewrite app_nil_r. split; [reflexivity | exact Hinv].
  - cbn [select_loop].
    set (d := geodesic_km w loc (Hospital.gps_lat h, Hospital.gps_lon h)).
    change (Hospital.trauma_level (Hospital.set_distance_km d h))
      with (Hospital.trauma_level h).
    change (Hospital.available_beds (Hospital.set_distance_km d h))
      with (Hospital.available_beds h).
    set (best1 := if 8 <=? score then _ else _).
    assert (Hbest1 : best1 = if eligible score h
                             then if closer (distance_to w loc h) best
                                  then Some (length pre, distance_to w loc h)
                                  else best
                             else best).
    { subst best1. unfold eligible, has_bed. fold d.
      change (distance_to w loc h) with d.
      destruct (8 <=? score); [|destruct (6 <=? score)];
        destruct (Hospital.trauma_level h =? 1);
        destruct (0 <? Hospital.available_beds h); cbn [andb];
        destruct (closer d best); reflexivity. }
    assert (Hsn : scanned w loc (eligible score) (pre ++ [h]) best1).
    { rewrite Hbest1. exact (scanned_snoc w loc (eligible score) pre h best Hinv). }
    specialize (IH (pre ++ [h]) best1 Hsn).
    rewrite length_app in IH. cbn [length] in IH.
    replace (length pre + 1)%nat with (S (length pre)) in IH by lia.
    destruct (select_loop w loc score (S (length pre)) hospitals best1)
      as [rest' best'].
    cbn [fst snd] in *. destruct IH as [IHl IHs]. split.
    + unfold measured in *. cbn [map]. rewrite IHl. reflexivity.
    + rewrite <- app_assoc in IHs. exact IHs.
Qed.

Lemma nearest_available_loop_scanned w loc pre hospitals best :
  scanned w loc has_bed pre best ->
  scanned w loc has_bed (pre ++ hospitals)
    (nearest_available_loop w loc (length pre) hospitals best).
Proof.
  revert pre best. induction hospitals as [|h hospitals IH]; intros pre best Hinv.
  - cbn. rewrite app_nil_r. exact Hinv.
  - cbn [nearest_available_loop].
    pose proof (scanned_snoc w loc has_bed pre h best Hinv) as Hsn.
    specialize (IH (pre ++ [h]) _ Hsn).
    rewrite length_app in IH. cbn [length] in IH.
    replace (length pre + 1)%nat with (S (length pre)) in IH by lia.
    rewrite <- app_assoc in IH. exact IH.
Qed.

(** The second loop reads the beds and the coordinates only. *)
Lemma nearest_available_loop_measured w loc loc' i hospitals best :
  nearest_available_loop w loc i (measured w loc' hospitals) best
  = nearest_available_loop w loc i hospitals best.
Proof.
  revert i best. induction hospitals as [|h hospitals IH]; intros i best.
  - reflexivity.
  - cbn [measured map nearest_available_loop]. fold (measured w loc' hospitals).
    rewrite IH. reflexivity.
Qed.

Lemma measured_lookup w loc hospitals i :
  measured w loc hospitals !! i
  = (fun h => Hospital.set_distance_km (distance_to w loc h) h) <$> hospitals !! i.
Proof. unfold measured. apply list_lookup_fmap. Qed.

Lemma beds_measured w loc hospitals : beds (measured w loc hospitals) = beds hospitals.
Proof.
  unfold beds, measured. rewrite map_map. reflexivity.
Qed.

(** What one assessment does: nothing when no hospital has a bed; otherwise
    it selects the first nearest eligible hospital, or the first nearest
    hospital with a bed when none is eligible, takes one bed from it and
    appends the route. *)
Lemma route_step_spec w locs k hospitals routes a :
  let loc := accident_location_of w locs a in
  let score := PCSAssessment.patient_critical_score a in
  let out := route_step w locs k (hospitals, routes) a in
  ((forall j h, hospitals !! j = Some h -> has_bed h = false)
   /\ out = (measured w loc hospitals, routes))
  \/ exists i h,
       (first_nearest w loc (eligible score) hospitals i h
        \/ ((forall j hj, hospitals !! j = Some hj -> eligible score hj = false)
            /\ first_nearest w loc has_bed hospitals i h))
       /\ out = (<[i := Hospital.decrement_beds
                          (Hospital.set_distance_km (distance_to w loc h) h)]>
                   (measured w loc hospitals),
                 routes ++
                 [build_route (cerebras w k) (length routes) a loc i
                    (Hospital.set_distance_km (distance_to w loc h) h)
                    (distance_to w loc h)]).
Proof.
  cbv zeta. unfold route_step.
  set (loc := accident_location_of w locs a).
  set (score := PCSAssessment.patient_critical_score a).
  pose proof (select_loop_scanned w loc score [] hospitals None
                (scanned_nil w loc _)) as [Hl Hs].
  cbn [length app] in Hl, Hs.
  destruct (select_loop w loc score 0 hospitals None) as [hospitals1 best1].
  cbn [fst snd] in *. subst hospitals1.
  destruct best1 as [[i d]|].
  - right. cbn [scanned] in Hs. destruct Hs as (h & Hfn & ->).
    exists i, h. split; [left; exact Hfn|].
    rewrite measured_lookup. destruct Hfn as (Hi & _). rewrite Hi. reflexivity.
  - pose proof (nearest_available_loop_scanned w loc [] hospitals None
                  (scanned_nil w loc _)) as Hn.
    cbn [length app] in Hn.
    rewrite nearest_available_loop_measured.
    destruct (nearest_available_loop w loc 0 hospitals None) as [[i d]|].
    + right. cbn [scanned] in Hn. destruct Hn as (h & Hfn & ->).
      exists i, h. split; [right; split; [exact Hs | exact Hfn]|].
      rewrite measured_lookup. destruct Hfn as (Hi & _). rewrite Hi. reflexivity.
    + left. split; [exact Hn | reflexivity].
Qed.

End SelectionFacts.

(* ================================================================== *)
(** * Runs of the real-time estimator *)
(* ================================================================== *)

Module RunFacts.

Import PyFloat.
Import Realtime.
Import Notions.
Import Selection.
Import SelectionFacts.

Lemma total_beds_measured w loc hospitals :
  total_beds (measured w loc hospitals) = total_beds hospitals.
Proof.
  unfold total_beds, measured. rewrite map_map. reflexivity.
Qed.

Lemma total_beds_nonneg hospitals :
  Forall (fun b => 0 <= b) (beds hospitals) -> 0 <= total_beds hospitals.
Proof.
  unfold total_beds, beds. induction hospitals as [|h hospitals IH]; cbn; intros H.
  - lia.
  - inversion H; subst. specialize (IH ltac:(assumption)). lia.
Qed.

(** A ledger without a negative counter is empty exactly when no hospital
    has a bed. *)
Lemma total_beds_zero hospitals :
  Forall (fun b => 0 <= b) (beds hospitals) ->
  (total_beds hospitals = 0
   <-> forall j h, hospitals !! j = Some h -> has_bed h = false).
Proof.
  unfold total_beds, beds, has_bed.
  induction hospitals as [|h hospitals IH]; cbn [map foldr]; intros H.
  - split; [intros _ j h' Hj; discriminate | reflexivity].
  - inversion H as [|b bs Hb Hbs]; subst.
    pose proof (total_beds_nonneg hospitals Hbs) as Hn.
    unfold total_beds in Hn. specialize (IH Hbs). split.
    + intros Hz j h' Hj. destruct j as [|j]; cbn in Hj.
      * injection Hj as <-. apply Z.ltb_ge. lia.
      * apply (proj1 IH ltac:(lia) j h' Hj).
    + intros Hall.
      pose proof (Hall 0%nat h eq_refl) as H0. apply Z.ltb_ge in H0.
      rewrite (proj2 IH (fun j h' Hj => Hall (S j) h' Hj)). lia.
Qed.

Lemma total_beds_insert hospitals i h h' :
  hospitals !! i = Some h ->
  total_beds (<[i := h']> hospitals)
  = total_beds hospitals - Hospital.available_beds h + Hospital.available_beds h'.
Proof.
  unfold total_beds. revert i. induction hospitals as [|h0 hospitals IH]; intros i Hi.
  - discriminate.
  - destruct i as [|i].
    + injection Hi as ->. cbn. lia.
    + change (<[S i := h']> (h0 :: hospitals)) with (h0 :: <[i := h']> hospitals).
      cbn [map foldr]. rewrite (IH i Hi). lia.
Qed.

Lemma beds_insert_decrement (hospitals : list Hospital.t) i h :
  hospitals !! i = Some h ->
  beds (<[i := Hospital.decrement_beds h]> hospitals)
  = <[i := Hospital.available_beds h - 1]> (beds hospitals).
Proof. intros _. unfold beds. rewrite list_fmap_insert. reflexivity. Qed.

(** The states one assessment can lead to, in terms of the ledger. *)
Lemma route_step_ledger w locs k hospitals routes a :
  Forall (fun b => 0 <= b) (beds hospitals) ->
  let out := route_step w locs k (hospitals, routes) a in
  Forall (fun b => 0 <= b) (beds out.1)
  /\ length out.1 = length hospitals
  /\ ((total_beds hospitals = 0 /\ out.2 = routes /\ total_beds out.1 = 0)
      \/ (0 < total_beds hospitals
          /\ total_beds out.1 = total_beds hospitals - 1
          /\ exists i target d,
               (i < length hospitals)%nat
               /\ out.2 = routes ++
                          [build_route (cerebras w k) (length routes) a
                             (accident_location_of w locs a) i target d])).
Proof.
  intros Hpos. cbv zeta.
  pose proof (total_beds_nonneg hospitals Hpos) as Hn.
  destruct (route_step_spec w locs k hospitals routes a)
    as [[Hnone ->]|(i & h & Hsel & ->)]; cbn [fst snd].
  - split; [rewrite beds_measured; exact Hpos|].
    split; [unfold measured; apply length_map|].
    left. rewrite total_beds_measured.
    pose proof (proj2 (total_beds_zero hospitals Hpos) Hnone). auto.
  - assert (Hi : hospitals !! i = Some h /\ has_bed h = true).
    { destruct Hsel as [(Hi & He & _)|[_ (Hi & He & _)]]; [|auto].
      split; [exact Hi|]. unfold eligible in He.
      destruct (8 <=? _); [apply andb_true_iff in He; tauto | exact He]. }
    destruct Hi as [Hi Hb]. unfold has_bed in Hb. apply Z.ltb_lt in Hb.
    set (h1 := Hospital.set_distance_km _ h).
    assert (Hi1 : measured w (accident_location_of w locs a) hospitals !! i = Some h1).
    { rewrite measured_lookup, Hi. reflexivity. }
    split; [|split].
    + rewrite (beds_insert_decrement _ _ _ Hi1), beds_measured.
      apply Forall_insert; [exact Hpos|]. subst h1. cbn. lia.
    + rewrite length_insert. unfold measured. apply length_map.
    + right.
      assert (Ht : total_beds hospitals <> 0).
      { intros Hz. pose proof (proj1 (total_beds_zero hospitals Hpos) Hz i h Hi) as Hf.
        unfold has_bed in Hf. apply Z.ltb_ge in Hf. lia. }
      split; [lia|]. split.
      * rewrite (total_beds_insert _ _ _ _ Hi1), total_beds_measured.
        subst h1. cbn. lia.
      * exists i, h1, (distance_to w (accident_location_of w locs a) h).
        split; [apply lookup_lt_Some in Hi; exact Hi | reflexivity].
Qed.

(** The label of the [n]-th ambulance. *)
Lemma build_route_labels reply n_routes a loc i target d :
  RouteOptimization.ambulance_id (build_route reply n_routes a loc i target d)
  = ("AMB_" ++ PyStr.of_nat (n_routes + 1) ++ "##")%string
  /\ RouteOptimization.accident_id (build_route reply n_routes a loc i target d)
     = PCSAssessment.accident_id a
  /\ RouteOptimization.target_hospital (build_route reply n_routes a loc i target d) = i.
Proof. repeat split. Qed.

(** A run from a ledger without negative counters serves the assessments in
    order while beds remain. *)
Lemma route_loop_run w locs k assessments hospitals routes :
  Forall (fun b => 0 <= b) (beds hospitals) ->
  let out := route_loop w locs k assessments (hospitals, routes) in
  exists new,
    out.2 = routes ++ new
    /\ map RouteOptimization.accident_id new
       = take (Z.to_nat (total_beds hospitals))
           (map PCSAssessment.accident_id assessments)
    /\ total_beds out.1 = total_beds hospitals - Z.of_nat (length new)
    /\ Forall (fun b => 0 <= b) (beds out.1)
    /\ length out.1 = length hospitals
    /\ (forall j r, new !! j = Some r ->
          RouteOptimization.ambulance_id r
          = ("AMB_" ++ PyStr.of_nat (length routes + j + 1) ++ "##")%string
          /\ (RouteOptimization.target_hospital r < length hospitals)%nat).
Proof.
  revert k hospitals routes.
  induction assessments as [|a assessments IH]; intros k hospitals routes Hpos; cbv zeta.
  - exists []. cbn [route_loop fst snd map length]. rewrite app_nil_r, take_nil.
    split; [reflexivity|]. split; [reflexivity|]. split; [cbn; lia|].
    split; [exact Hpos|]. split; [reflexivity|]. intros j r Hj. discriminate.
  - cbn [route_loop].
    pose proof (route_step_ledger w locs k hospitals routes a Hpos) as Hst.
    cbv zeta in Hst.
    destruct (route_step w locs k (hospitals, routes) a) as [hospitals1 routes1].
    cbn [fst snd] in Hst. destruct Hst as (Hpos1 & Hlen1 & Hcase).
    specialize (IH (S k) hospitals1 routes1 Hpos1). cbv zeta in IH.
    destruct IH as (new & Hout & Hids & Htot & Hpos2 & Hlen2 & Hlab).
    destruct Hcase as [(Hz & -> & Hz1)|(Hp & Ht1 & i & target & d & Hi & ->)].
    + exists new. rewrite Hz1 in *. rewrite Hz.
      change (Z.to_nat 0) with 0%nat in *. rewrite take_0 in *.
      destruct new; [|discriminate]. rewrite app_nil_r in Hout.
      split; [rewrite app_nil_r; exact Hout|]. split; [reflexivity|].
      split; [cbn [length] in *; lia|]. split; [exact Hpos2|]. split; [lia|].
      intros j r Hj. discriminate.
    + exists (build_route (cerebras w k) (length routes) a
                (accident_location_of w locs a) i target d :: new).
      split; [rewrite Hout, <- app_assoc; reflexivity|].
      split.
      { cbn [map]. rewrite Hids, Ht1.
        replace (Z.to_nat (total_beds hospitals))
          with (S (Z.to_nat (total_beds hospitals - 1))) by lia.
        reflexivity. }
      split; [rewrite Htot, Ht1; cbn [length]; lia|].
      split; [exact Hpos2|]. split; [lia|].
      intros j r Hj. destruct j as [|j]; cbn in Hj.
      * injection Hj as <-. cbn [RouteOptimization.ambulance_id
                                  RouteOptimization.target_hospital build_route].
        split; [|exact Hi]. do 3 f_equal. lia.
      * destruct (Hlab j r Hj) as [Hl Ht]. split; [|lia].
        rewrite Hl, length_app. cbn [length]. do 3 f_equal. lia.
Qed.

Lemma hospitals_init_total : total_beds hospitals_init = 35.
Proof. reflexivity. Qed.

Lemma hospitals_init_nonneg : Forall (fun b => 0 <= b) (beds hospitals_init).
Proof. repeat constructor; discriminate. Qed.

End RunFacts.

Module RunProperties.

Import PyFloat.
Import Realtime.
Import Notions.
Import Scenarios.
Import Selection.
Import SelectionFacts.
Import RunFacts.

(** X1.  A run of the route calculator gives one route to each of the
    first 35 assessments, in their order, and none to a later one: an
    assessment gets a route whenever some hospital still has a bed, whatever
    its score.  The beds left add up to 35 minus the number of routes and no
    counter is negative. *)
Theorem routes_serve_first_35_assessments
    (w : World) (pcs : PCSResults.t) (accident_data : option DetectedAccidents.t) :
  let run := calculate_route_with_cerebras w (Some pcs) accident_data in
  map RouteOptimization.accident_id (RouteResults.routes run.1)
  = take 35 (map PCSAssessment.accident_id (PCSResults.assessments pcs))
  /\ (PCSResults.assessments pcs <> [] ->
      total_beds run.2 = 35 - Z.of_nat (length (RouteResults.routes run.1))
      /\ Forall (fun b => 0 <= b) (beds run.2)).
Proof.
  cbv zeta. unfold calculate_route_with_cerebras.
  destruct (PCSResults.assessments pcs) as [|a0 rest] eqn:Ha.
  - cbn. split; [reflexivity | intros H; contradiction].
  - pose proof (route_loop_run w (accident_locations_of accident_data) 0
                  (a0 :: rest) hospitals_init [] hospitals_init_nonneg) as Hrun.
    cbv zeta in Hrun.
    destruct (route_loop w (accident_locations_of accident_data) 0 (a0 :: rest)
                (hospitals_init, [])) as [hospitals routes].
    cbn [fst snd RouteResults.routes] in *.
    destruct Hrun as (new & -> & Hids & Htot & Hpos & _).
    rewrite hospitals_init_total in *. cbn [app].
    split; [exact Hids|]. intros _. split; [exact Htot | exact Hpos].
Qed.

(** Two moderate assessments and an oracle that does not answer. *)
Lemma routes_serve_first_35_assessments_witness :
  let run :=
    calculate_route_with_cerebras (accident_world None)
      (Some {| PCSResults.assessments := [moderate_accident; moderate_accident] |})
      None in
  total_beds run.2 = 35 - Z.of_nat (length (RouteResults.routes run.1))
  /\ Forall (fun b => 0 <= b) (beds run.2).
Proof.
  apply (proj2 (routes_serve_first_35_assessments (accident_world None)
                  {| PCSResults.assessments := [moderate_accident; moderate_accident] |}
                  None)).
  discriminate.
Defined.

(** X2.  The hospital of a route is the nearest hospital with a free bed,
    and the first of the list among the nearest.  For a score of 8 or more
    only level-1 trauma centres are considered as long as one of them has a
    bed; when none has, the nearest hospital with a bed is taken.  The route
    records that hospital's distance rounded to two decimals and runs from
    the accident location to the hospital's coordinates. *)
Theorem route_goes_to_nearest_eligible_hospital
    (w : World) (locs : LocationDict) (k : nat)
    (hospitals : list Hospital.t) (routes : list RouteOptimization.t)
    (a : PCSAssessment.t) (r : RouteOptimization.t) :
  let out := route_step w locs k (hospitals, routes) a in
  let loc := accident_location_of w locs a in
  let score := PCSAssessment.patient_critical_score a in
  out.2 = routes ++ [r] ->
  exists h,
    hospitals !! RouteOptimization.target_hospital r = Some h
    /\ 0 < Hospital.available_beds h
    /\ (8 <= score ->
        (exists j hj, hospitals !! j = Some hj /\ Hospital.trauma_level hj = 1
                      /\ 0 < Hospital.available_beds hj) ->
        Hospital.trauma_level h = 1)
    /\ (forall j hj,
          hospitals !! j = Some hj -> 0 < Hospital.available_beds hj ->
          (8 <= score -> Hospital.trauma_level h = 1 -> Hospital.trauma_level hj = 1) ->
          (distance_to w loc h <= distance_to w loc hj)%Q
          /\ ((j < RouteOptimization.target_hospital r)%nat ->
              (distance_to w loc h < distance_to w loc hj)%Q))
    /\ RouteOptimization.distance_km r = py_round2 (distance_to w loc h)
    /\ RouteOptimization.route_coordinates r
       = [loc; (Hospital.gps_lat h, Hospital.gps_lon h)].
Proof.
  cbv zeta. intros Hout.
  destruct (route_step_spec w locs k hospitals routes a)
    as [[_ Heq]|(i & h & Hsel & Heq)]; cbv zeta in Heq; rewrite Heq in Hout;
    cbn [fst snd] in Hout.
  - exfalso. apply (f_equal (@length _)) in Hout.
    rewrite length_app in Hout. cbn in Hout. lia.
  - apply app_inj_tail in Hout. destruct Hout as [_ <-].
    cbn [build_route RouteOptimization.target_hospital
         RouteOptimization.distance_km RouteOptimization.route_coordinates].
    exists h.
    set (loc := accident_location_of w locs a) in *.
    set (score := PCSAssessment.patient_critical_score a) in *.
    assert (Hbed : forall x, has_bed x = true <-> 0 < Hospital.available_beds x).
    { intros x. unfold has_bed. apply Z.ltb_lt. }
    assert (Hel : forall x, eligible score x = true ->
                  0 < Hospital.available_beds x
                  /\ (8 <= score -> Hospital.trauma_level x = 1)).
    { intros x Hx. unfold eligible in Hx.
      destruct (Z.leb_spec 8 score).
      - apply andb_true_iff in Hx. destruct Hx as [Hl Hb].
        apply Z.eqb_eq in Hl. apply Hbed in Hb. auto.
      - apply Hbed in Hx. split; [exact Hx | lia]. }
    destruct Hsel as [(Hi & He & Hmin)|[Hnone (Hi & He & Hmin)]].
    + destruct (Hel h He) as [Hb Hl].
      split; [exact Hi|]. split; [exact Hb|]. split; [auto|].
      split; [|split; reflexivity].
      intros j hj Hj Hbj Hlev. apply (Hmin j hj Hj).
      unfold eligible. destruct (Z.leb_spec 8 score) as [Hs|Hs].
      * apply andb_true_iff. split; [|apply Hbed; exact Hbj].
        apply Z.eqb_eq. auto.
      * apply Hbed. exact Hbj.
    + apply Hbed in He.
      split; [exact Hi|]. split; [exact He|]. split; [|split; [|split; reflexivity]].
      * intros Hs (j & hj & Hj & Hl & Hb). exfalso.
        pose proof (Hnone j hj Hj) as Hf. unfold eligible in Hf.
        destruct (Z.leb_spec 8 score); [|lia].
        apply andb_false_iff in Hf. destruct Hf as [Hf|Hf].
        -- apply Z.eqb_neq in Hf. contradiction.
        -- unfold has_bed in Hf. apply Z.ltb_ge in Hf. lia.
      * intros j hj Hj Hbj _. apply (Hmin j hj Hj). apply Hbed. exact Hbj.
Qed.

(** The first assessment of a run for the accident near AIIMS. *)
Lemma route_goes_to_nearest_eligible_hospital_witness :
  exists h,
    hospitals_init !! 0%nat = Some h
    /\ 0 < Hospital.available_beds h
    /\ RouteOptimization.distance_km
         (build_route None 0 moderate_accident
            (lit (285942 # 10000), lit (772100 # 10000)) 0
            (Hospital.set_distance_km (3 # 1) aiims_trauma) (3 # 1))
       = py_round2 (3 # 1).
Proof.
  pose proof (route_goes_to_nearest_eligible_hospital (accident_world None)
                (accident_locations_of
                   (Some {| DetectedAccidents.accidents := [accident_report] |}))
                0 hospitals_init [] moderate_accident
                (build_route None 0 moderate_accident
                   (lit (285942 # 10000), lit (772100 # 10000)) 0
                   (Hospital.set_distance_km (3 # 1) aiims_trauma) (3 # 1))
                ltac:(vm_compute; reflexivity)) as (h & Hi & Hb & _ & _ & Hd & _).
  exists h. split; [exact Hi|]. split; [exact Hb|]. reflexivity.
Defined.

End RunProperties.

(* ================================================================== *)
(** * Strings and identifiers *)
(* ================================================================== *)

Module StringFacts.

Lemma length_append (s t : string) :
  String.length (s ++ t) = (String.length s + String.length t)%nat.
Proof. induction s as [|c s IH]; cbn; [reflexivity | rewrite IH; reflexivity]. Qed.

Lemma append_inj_l (s x y : string) : (s ++ x = s ++ y)%string -> x = y.
Proof.
  induction s as [|c s IH]; cbn; intros H; [exact H|].
  injection H as H. exact (IH H).
Qed.

Lemma append_inj_r (x y s : string) : (x ++ s = y ++ s)%string -> x = y.
Proof.
  revert y. induction x as [|c x IH]; intros y H.
  - destruct y as [|c' y]; [reflexivity|]. exfalso.
    apply (f_equal String.length) in H. cbn in H. rewrite length_append in H. lia.
  - destruct y as [|c' y].
    + exfalso. apply (f_equal String.length) in H. cbn in H.
      rewrite length_append in H. lia.
    + cbn in H. injection H as -> H. f_equal. exact (IH y H).
Qed.

(** [str] of a natural number determines the number. *)
Lemma to_uint_nonnil (n : nat) : Nat.to_uint n <> Decimal.Nil.
Proof.
  rewrite <- (DecimalNat.Unsigned.of_to n) at 1.
  rewrite DecimalNat.Unsigned.to_of. apply DecimalFacts.unorm_nonnil.
Qed.

Lemma of_nat_inj (n m : nat) : PyStr.of_nat n = PyStr.of_nat m -> n = m.
Proof.
  unfold PyStr.of_nat. intros H.
  apply (f_equal NilZero.uint_of_string) in H.
  rewrite !NilZero.usu in H by apply to_uint_nonnil.
  injection H as H. apply DecimalNat.Unsigned.to_uint_inj. exact H.
Qed.

End StringFacts.

Module IdentifierProperties.

Import PyFloat.
Import Realtime.
Import Notions.
Import Scenarios.
Import Selection.
Import RunFacts.
Import StringFacts.

Lemma ambulance_label_inj (n m : nat) :
  ("AMB_" ++ PyStr.of_nat (n + 1) ++ "##")%string
  = ("AMB_" ++ PyStr.of_nat (m + 1) ++ "##")%string -> n = m.
Proof.
  intros H. apply append_inj_l, append_inj_r, of_nat_inj in H. lia.
Qed.

(** X3.  The routes of a run are numbered in the order they are built: the
    route at position [j] carries the ambulance id AMB_<j+1>##, so no two
    routes of a run share an ambulance id. *)
Theorem ambulance_ids_numbered_and_distinct
    (w : World) (pcs : option PCSResults.t)
    (accident_data : option DetectedAccidents.t) :
  let routes :=
    RouteResults.routes (calculate_route_with_cerebras w pcs accident_data).1 in
  map RouteOptimization.ambulance_id routes
  = map (fun j => ("AMB_" ++ PyStr.of_nat (j + 1) ++ "##")%string)
        (seq 0 (length routes))
  /\ NoDup (map RouteOptimization.ambulance_id routes).
Proof.
  cbv zeta.
  assert (Hnum :
    map RouteOptimization.ambulance_id
      (RouteResults.routes (calculate_route_with_cerebras w pcs accident_data).1)
    = map (fun j => ("AMB_" ++ PyStr.of_nat (j + 1) ++ "##")%string)
        (seq 0 (length (RouteResults.routes
                          (calculate_route_with_cerebras w pcs accident_data).1)))).
  { unfold calculate_route_with_cerebras.
    destruct pcs as [pcs|]; [|reflexivity].
    destruct (PCSResults.assessments pcs) as [|a0 rest]; [reflexivity|].
    pose proof (route_loop_run w (accident_locations_of accident_data) 0
                  (a0 :: rest) hospitals_init [] hospitals_init_nonneg) as Hrun.
    cbv zeta in Hrun.
    destruct (route_loop w (accident_locations_of accident_data) 0 (a0 :: rest)
                (hospitals_init, [])) as [hospitals routes].
    cbn [fst snd RouteResults.routes] in *.
    destruct Hrun as (new & -> & _ & _ & _ & _ & Hlab). cbn [app].
    apply list_eq. intros j.
    rewrite !list_lookup_fmap.
    destruct (new !! j) as [r|] eqn:Hj; cbn.
    - destruct (Hlab j r Hj) as [-> _].
      rewrite lookup_seq_lt by (apply lookup_lt_Some in Hj; exact Hj).
      reflexivity.
    - apply lookup_ge_None in Hj. rewrite lookup_seq_ge by lia. reflexivity. }
  split; [exact Hnum|]. rewrite Hnum.
  apply NoDup_fmap_2; [|apply NoDup_seq].
  intros n m. apply ambulance_label_inj.
Qed.

End IdentifierProperties.

Module OriginProperties.

Import PyFloat.
Import Realtime.
Import Notions.
Import Scenarios.

Lemma dict_lookup_unreported (accidents : list Accident.t) d0 k :
  Forall (fun x => Accident.id x <> k) accidents ->
  dict_lookup
    (foldl (fun d accident =>
              (Accident.id accident,
               (Accident.gps_lat accident, Accident.gps_lon accident)) :: d)
       d0 accidents) k
  = dict_lookup d0 k.
Proof.
  intros H. revert d0. induction H as [|x accidents Hx _ IH]; intros d0.
  - reflexivity.
  - cbn [foldl]. rewrite IH. cbn [dict_lookup].
    destruct (String.eqb_spec (Accident.id x) k); [contradiction | reflexivity].
Qed.

Lemma dict_lookup_last_report (pre post : list Accident.t) acc d0 :
  Forall (fun x => Accident.id x <> Accident.id acc) post ->
  dict_lookup
    (foldl (fun d accident =>
              (Accident.id accident,
               (Accident.gps_lat accident, Accident.gps_lon accident)) :: d)
       d0 (pre ++ acc :: post)) (Accident.id acc)
  = Some (Accident.gps_lat acc, Accident.gps_lon acc).
Proof.
  intros H. rewrite foldl_app. cbn [foldl].
  rewrite dict_lookup_unreported by exact H.
  cbn [dict_lookup]. rewrite String.eqb_refl. reflexivity.
Qed.

Lemma fallback_location_member (z : Z) :
  In (nth (Z.to_nat (z mod 3)) fallback_locations (0, 0)%Q) fallback_locations.
Proof.
  pose proof (Z.mod_pos_bound z 3 ltac:(lia)) as Hm.
  apply nth_In. cbn [fallback_locations length]. lia.
Qed.

(** X4.  The start of a route is looked up by the accident id of the
    assessment.  When several reported accidents carry that id the
    coordinates of the last one are used; when none does (and always when
    the calculator is called without accident data, as the plan calls it),
    the start is one of the three fallback coordinates, picked by the hash
    of the id.  Every route of a run starts at the location looked up for
    one of the assessments, whose accident id it carries. *)
Theorem route_starts_at_last_report_or_fallback
    (w : World) (accident_data : option DetectedAccidents.t) (a : PCSAssessment.t) :
  let loc := accident_location_of w (accident_locations_of accident_data) a in
  (forall pre acc post,
      accident_data = Some {| DetectedAccidents.accidents := pre ++ acc :: post |} ->
      Accident.id acc = PCSAssessment.accident_id a ->
      Forall (fun x => Accident.id x <> PCSAssessment.accident_id a) post ->
      loc = (Accident.gps_lat acc, Accident.gps_lon acc))
  /\ (accident_data = None
      \/ (exists data, accident_data = Some data
            /\ Forall (fun x => Accident.id x <> PCSAssessment.accident_id a)
                 (DetectedAccidents.accidents data)) ->
      loc = nth (Z.to_nat (py_hash w (PCSAssessment.accident_id a) mod 3))
              fallback_locations (0, 0)%Q
      /\ In loc fallback_locations)
  /\ (forall pcs r,
        In r (RouteResults.routes
                (calculate_route_with_cerebras w (Some pcs) accident_data).1) ->
        exists a' rest,
          In a' (PCSResults.assessments pcs)
          /\ RouteOptimization.accident_id r = PCSAssessment.accident_id a'
          /\ RouteOptimization.route_coordinates r
             = accident_location_of w (accident_locations_of accident_data) a'
               :: rest).
Proof.
  cbv zeta. split; [|split].
  - intros pre acc post -> Hid Hpost. unfold accident_location_of, accident_locations_of.
    cbn [DetectedAccidents.accidents]. rewrite <- Hid in *.
    rewrite dict_lookup_last_report by exact Hpost. reflexivity.
  - intros Hno.
    assert (Hlk : dict_lookup (accident_locations_of accident_data)
                    (PCSAssessment.accident_id a) = None).
    { destruct Hno as [->|(data & -> & Hall)]; [reflexivity|].
      unfold accident_locations_of. rewrite dict_lookup_unreported by exact Hall.
      reflexivity. }
    unfold accident_location_of. rewrite Hlk.
    split; [reflexivity | apply fallback_location_member].
  - intros pcs r Hr. unfold calculate_route_with_cerebras in Hr.
    destruct (PCSResults.assessments pcs) as [|a0 rest] eqn:Ha; [contradiction|].
    destruct (route_loop w (accident_locations_of accident_data) 0 (a0 :: rest)
                (hospitals_init, [])) as [hospitals routes] eqn:Hloop.
    cbn [fst RouteResults.routes] in Hr.
    pose proof (EstimatorFacts.route_loop_routes w
                  (accident_locations_of accident_data) 0 (a0 :: rest)
                  hospitals_init [] r) as Hrr.
    rewrite Hloop in Hrr. cbn [snd] in Hrr.
    destruct (Hrr Hr) as [[]|(a' & reply & n & i & target & p & q & Hin & ->)].
    exists a', [(Hospital.gps_lat target, Hospital.gps_lon target)].
    split; [exact Hin|]. split; reflexivity.
Qed.

(** The accident near AIIMS, reported once: the run starts there. *)
Lemma route_starts_at_last_report_or_fallback_witness :
  accident_location_of (accident_world None)
    (accident_locations_of
       (Some {| DetectedAccidents.accidents := [] ++ accident_report :: [] |}))
    moderate_accident
  = (Accident.gps_lat accident_report, Accident.gps_lon accident_report).
Proof.
  apply (proj1 (route_starts_at_last_report_or_fallback (accident_world None)
                  (Some {| DetectedAccidents.accidents := [] ++ accident_report :: [] |})
                  moderate_accident) [] accident_report []).
  - reflexivity.
  - reflexivity.
  - constructor.
Defined.

End OriginProperties.

Module FallbackEtaProperties.

Import PyFloat.
Import PyFloatFacts.
Import Realtime.
Import Notions.
Import Scenarios.
Import RouteFacts.

Lemma fallback_eta_bands n s :
  0 <= n <= minutes_bound ->
  (8 <= s -> fallback_eta s n = Z.max (n / 2) 3)
  /\ (6 <= s < 8 ->
      Z.max (59 * n / 100) 3 <= fallback_eta s n <= Z.max (6 * n / 10) 3)
  /\ (s < 6 ->
      Z.max (69 * n / 100) 3 <= fallback_eta s n <= Z.max (7 * n / 10) 3).
Proof.
  intros Hn. unfold fallback_eta.
  assert (H6u : py_int (fmul (of_int n) (lit (6 # 10))) <= 6 * n / 10).
  { apply int_scale_lit_le; try lia.
    split; apply Qle_bool_imp_le; vm_compute; reflexivity. }
  assert (H7u : py_int (fmul (of_int n) (lit (7 # 10))) <= 7 * n / 10).
  { apply int_scale_lit_le; try lia.
    split; apply Qle_bool_imp_le; vm_compute; reflexivity. }
  assert (H6l : 59 * n / 100 <= py_int (fmul (of_int n) (lit (6 # 10)))).
  { apply int_scale_ge; try lia. apply Qle_bool_imp_le; vm_compute; reflexivity. }
  assert (H7l : 69 * n / 100 <= py_int (fmul (of_int n) (lit (7 # 10)))).
  { apply int_scale_ge; try lia. apply Qle_bool_imp_le; vm_compute; reflexivity. }
  split; [|split].
  - intros Hs. destruct (Z.ltb_spec s 6); [lia|]. destruct (Z.ltb_spec s 8); [lia|].
    rewrite (int_half n Hn). reflexivity.
  - intros Hs. destruct (Z.ltb_spec s 6); [lia|]. destruct (Z.ltb_spec s 8); lia.
  - intros Hs. destruct (Z.ltb_spec s 6); lia.
Qed.

(** X5.  When the oracle gives no usable number (the call fails, or the
    reply holds no digit) the priority ETA depends on the baseline and the
    severity band only: exactly max(floor(n / 2), 3) for a severity of 8 or
    more, between 59% and 60% of the baseline for 6 and 7, between 69% and
    70% below 6 (whole minutes, never under 3).  A higher severity never
    gets a longer priority ETA for the same baseline. *)
Theorem oracle_failure_eta_by_severity_band (n s : Z) (d : Q) :
  0 <= n <= minutes_bound ->
  let rd s := {| rd_distance_km := d; rd_normal_time := Some n;
                 rd_severity := Some s |} in
  let g := optimize_eta_with_cerebras None (rd s) in
  (forall text, PyStr.search_digits text = None ->
                optimize_eta_with_cerebras (Some text) (rd s) = g)
  /\ 3 <= g
  /\ (8 <= s -> g = Z.max (n / 2) 3)
  /\ (6 <= s < 8 -> Z.max (59 * n / 100) 3 <= g <= Z.max (6 * n / 10) 3)
  /\ (s < 6 -> Z.max (69 * n / 100) 3 <= g <= Z.max (7 * n / 10) 3)
  /\ (forall s', s <= s' -> optimize_eta_with_cerebras None (rd s') <= g).
Proof.
  intros Hn. cbv zeta. unfold optimize_eta_with_cerebras.
  cbn [rd_normal_time rd_severity default from_option id].
  destruct (fallback_eta_bands n s Hn) as (B8 & B6 & B5).
  split; [intros text ->; reflexivity|].
  split; [unfold fallback_eta; lia|].
  split; [exact B8|]. split; [exact B6|]. split; [exact B5|].
  intros s' Hs. destruct (fallback_eta_bands n s' Hn) as (B8' & B6' & B5').
  assert (H1 : n / 2 <= 59 * n / 100).
  { apply Z.div_le_lower_bound; [lia|].
    pose proof (Z.mul_div_le n 2 ltac:(lia)). lia. }
  assert (H2 : 6 * n / 10 <= 69 * n / 100).
  { apply Z.div_le_lower_bound; [lia|].
    pose proof (Z.mul_div_le (6 * n) 10 ltac:(lia)). lia. }
  assert (H3 : 59 * n / 100 <= 6 * n / 10).
  { apply Z.div_le_lower_bound; [lia|].
    pose proof (Z.mul_div_le (59 * n) 100 ltac:(lia)). lia. }
  destruct (Z.le_gt_cases 8 s') as [H8'|H8'].
  - rewrite (B8' H8').
    destruct (Z.le_gt_cases 8 s) as [H8|H8]; [rewrite (B8 H8); lia|].
    destruct (Z.le_gt_cases 6 s) as [H6|H6].
    + specialize (B6 ltac:(lia)). lia.
    + specialize (B5 ltac:(lia)). lia.
  - destruct (Z.le_gt_cases 6 s') as [H6'|H6'].
    + specialize (B6' ltac:(lia)).
      destruct (Z.le_gt_cases 6 s) as [H6|H6].
      * unfold fallback_eta in *.
        destruct (Z.ltb_spec s 6); [lia|]. destruct (Z.ltb_spec s 8); [|lia].
        destruct (Z.ltb_spec s' 6); [lia|]. destruct (Z.ltb_spec s' 8); lia.
      * specialize (B5 ltac:(lia)). lia.
    + unfold fallback_eta.
      destruct (Z.ltb_spec s 6); [|lia]. destruct (Z.ltb_spec s' 6); lia.
Qed.

(** A baseline of 20 minutes and a severity of 9, with no reply. *)
Lemma oracle_failure_eta_by_severity_band_witness :
  optimize_eta_with_cerebras None
    {| rd_distance_km := 8 # 1; rd_normal_time := Some 20; rd_severity := Some 9 |}
  = Z.max (20 / 2) 3.
Proof.
  refine (proj1 (proj2 (proj2 (oracle_failure_eta_by_severity_band 20 9 (8 # 1) _))) _).
  - unfold minutes_bound. lia.
  - lia.
Defined.

End FallbackEtaProperties.

Module ActivationProperties.

Import PyFloat.
Import PyFloatFacts.
Import Realtime.
Import Notions.
Import Scenarios.
Import RouteFacts.
Import StringFacts.

Lemma activate_route_some now r c :
  activate_route now r = Some c ->
  5 <= RouteOptimization.time_saved_minutes r
  /\ c = {| GreenCorridorActivation.green_corridor_id :=
              ("GC_" ++ RouteOptimization.accident_id r)%string;
            GreenCorridorActivation.ambulance_id := RouteOptimization.ambulance_id r;
            GreenCorridorActivation.accident_id := RouteOptimization.accident_id r;
            GreenCorridorActivation.activation_time := now;
            GreenCorridorActivation.status := GreenCorridorStatus.ACTIVATED;
            GreenCorridorActivation.affected_intersections :=
              map (make_intersection now r)
                (seq 0 (Z.to_nat (Z.min (RouteOptimization.traffic_intersections r) 10)));
            GreenCorridorActivation.total_intersections :=
              Z.of_nat (length
                (map (make_intersection now r)
                   (seq 0 (Z.to_nat
                             (Z.min (RouteOptimization.traffic_intersections r) 10)))));
            GreenCorridorActivation.estimated_time_saved :=
              RouteOptimization.time_saved_minutes r |}.
Proof.
  unfold activate_route.
  destruct (Z.leb_spec 5 (RouteOptimization.time_saved_minutes r)); [|discriminate].
  intros [= <-]. split; [assumption | reflexivity].
Qed.

(** X6.  In the real-time workflow a corridor is activated only for a
    route whose baseline is at least 9 minutes, that is for an accident more
    than 3.74 km from its hospital: the priority ETA is never under half the
    baseline, so a shorter route cannot save the 5 minutes the activation
    asks for.  The time saved of an activation is at most half the baseline,
    rounded up. *)
Theorem corridor_needs_nine_minute_baseline :
  (forall now reply n_routes a loc i target d c,
      (0 <= d <= max_km)%Q ->
      let r := build_route reply n_routes a loc i target d in
      activate_route now r = Some c ->
      9 <= RouteOptimization.estimated_time_normal r
      /\ 5 <= GreenCorridorActivation.estimated_time_saved c
           <= (RouteOptimization.estimated_time_normal r + 1) / 2
      /\ (374 # 100 < d)%Q)
  /\ (forall w pcs accident_data now r c,
        (forall p q, (0 <= geodesic_km w p q <= max_km)%Q) ->
        In r (RouteResults.routes
                (calculate_route_with_cerebras w pcs accident_data).1) ->
        activate_route now r = Some c ->
        9 <= RouteOptimization.estimated_time_normal r).
Proof.
  assert (Hmain : forall now reply n_routes a loc i target d c,
      (0 <= d <= max_km)%Q ->
      let r := build_route reply n_routes a loc i target d in
      activate_route now r = Some c ->
      9 <= RouteOptimization.estimated_time_normal r
      /\ 5 <= GreenCorridorActivation.estimated_time_saved c
           <= (RouteOptimization.estimated_time_normal r + 1) / 2
      /\ (374 # 100 < d)%Q).
  { intros now reply n_routes a loc i target d c Hd r Hact.
    destruct (activate_route_some now r c Hact) as [H5 ->].
    cbn [GreenCorridorActivation.estimated_time_saved].
    destruct (EstimatorFacts.build_route_times reply n_routes a loc i target d Hd)
      as (Hn & Hg & _ & Hs & _).
    cbv zeta in Hn, Hg, Hs. fold r in Hn, Hg, Hs.
    set (n := RouteOptimization.estimated_time_normal r) in *.
    set (g := RouteOptimization.estimated_time_green_corridor r) in *.
    pose proof (Z.div_mod n 2 ltac:(lia)) as Hdm.
    pose proof (Z.mod_pos_bound n 2 ltac:(lia)) as Hmb.
    assert (H9 : 9 <= n) by lia.
    split; [exact H9|]. split.
    { split; [exact H5|]. rewrite Hs. apply Z.div_le_lower_bound; lia. }
    subst n r. unfold build_route in H9.
    cbn [RouteOptimization.estimated_time_normal] in H9.
    set (speed := if 7 <=? PCSAssessment.patient_critical_score a then 35 else 25) in *.
    assert (Hsp : 0 < speed < 2 ^ 53 /\ 25 <= speed).
    { subst speed. destruct (7 <=? _); repeat split; try reflexivity; lia. }
    destruct Hsp as [Hsp H25].
    destruct (travel_minutes_bounds d speed (proj1 Hd) Hsp) as (_ & Hup & _).
    set (t := py_int (fmul (fdiv d (of_int speed)) (of_int 60))) in *.
    assert (Ht : (inject_Z 9 <= inject_Z t)%Q) by (rewrite <- Zle_Qle; lia).
    assert (Hex : (d / inject_Z speed * inject_Z 60 <= d * (12 # 5))%Q).
    { clear Hup Ht H9. subst t speed. destruct Hd as [Hd0 _].
      destruct (7 <=? PCSAssessment.patient_critical_score a); unfold Qdiv.
      - change (/ inject_Z 35)%Q with (1 # 35)%Q.
        change (inject_Z 60) with (60 # 1)%Q. lra.
      - change (/ inject_Z 25)%Q with (1 # 25)%Q.
        change (inject_Z 60) with (60 # 1)%Q. lra. }
    pose proof eps64_val as He.
    assert (Hee : ((1 + eps64) * (1 + eps64) <= 1001 # 1000)%Q).
    { rewrite He. apply Qle_bool_imp_le. vm_compute. reflexivity. }
    assert (Hee0 : (0 <= (1 + eps64) * (1 + eps64))%Q).
    { rewrite He. apply Qle_bool_imp_le. vm_compute. reflexivity. }
    set (e2 := ((1 + eps64) * (1 + eps64))%Q) in *.
    assert (Hprod : (d / inject_Z speed * inject_Z 60 * e2 <= d * (12 # 5) * (1001 # 1000))%Q).
    { apply Qle_trans with (d * (12 # 5) * e2)%Q.
      - apply Qmult_le_compat_r; [exact Hex | exact Hee0].
      - rewrite !(Qmult_comm (d * (12 # 5))).
        apply Qmult_le_compat_r; [exact Hee|]. destruct Hd. lra. }
    change (inject_Z 9) with (9 # 1)%Q in Ht. lra. }
  split; [exact Hmain|].
  intros w pcs accident_data now r c Hw Hr Hact.
  destruct (EstimatorFacts.run_routes w pcs accident_data r Hr)
    as (a & reply & n & i & target & p & q & ->).
  apply (Hmain now reply n a _ i target _ c (Hw p q) Hact).
Qed.

(** The accident 3 km from AIIMS: no corridor, whatever the oracle says. *)
Lemma corridor_needs_nine_minute_baseline_witness :
  List.Forall (fun r => activate_route (at_hour 15) r = None) (accident_run (Some "2")).
Proof.
  apply List.Forall_forall. intros r Hr.
  destruct (activate_route (at_hour 15) r) as [c|] eqn:Hact; [|reflexivity].
  exfalso.
  pose proof (proj2 corridor_needs_nine_minute_baseline
                (accident_world (Some "2")) _ _ (at_hour 15) r c
                (EstimatorClaims.accident_world_bounded (Some "2")) Hr Hact) as H9.
  assert (Hrun : map RouteOptimization.estimated_time_normal
                   (accident_run (Some "2")) = [7]) by (vm_compute; reflexivity).
  apply (in_map RouteOptimization.estimated_time_normal) in Hr.
  rewrite Hrun in Hr. destruct Hr as [Hr|[]]. lia.
Defined.




End ActivationProperties.

(* ================================================================== *)
(** * Fallback data, approval and hospital notifications *)
(* ================================================================== *)

Module DispatchProperties.

Import PyFloat.
Import Realtime.
Import Dispatch.
Import Dialogue.
Import Notions.
Import Scenarios.
Import Selection.
Import SelectionFacts.
Import RunFacts.

Lemma demo_loop_lookup i ids j :
  demo_loop i ids !! j = demo_assessment (i + j) <$> ids !! j.
Proof.
  revert i j. induction ids as [|x ids IH]; intros i j; [reflexivity|].
  destruct j as [|j]; cbn [demo_loop].
  - cbn. rewrite Nat.add_0_r. reflexivity.
  - change ((demo_assessment i x :: demo_loop (S i) ids) !! S j)
      with (demo_loop (S i) ids !! j).
    change ((x :: ids) !! S j) with (ids !! j).
    rewrite (IH (S i) j). replace (S i + j)%nat with (i + S j)%nat by lia.
    reflexivity.
Qed.

Lemma demo_loop_ids i ids :
  map PCSAssessment.accident_id (demo_loop i ids) = ids.
Proof.
  revert i. induction ids as [|x ids IH]; intros i; [reflexivity|].
  cbn [demo_loop map]. rewrite IH. reflexivity.
Qed.

(** X8.  The fallback assessments: one for each accident id given, in the
    same order; the scores cycle 7, 6, 5 with the position, so they lie in
    5..7; the level is serious for 6 and 7 and moderate for 5; the parts of
    the score breakdown add up to the score.  Without ids there is a single
    assessment, with score 7, whose id is the id of the fallback accident
    created in the same second. *)
Theorem demo_assessments_follow_ids (now : datetime) (ids : list string) :
  let out := PCSResults.assessments (create_demo_pcs now (Some ids)) in
  map PCSAssessment.accident_id out = ids
  /\ (forall i a, out !! i = Some a ->
        let s := PCSAssessment.patient_critical_score a in
        s = 7 - Z.of_nat i mod 3
        /\ 5 <= s <= 7
        /\ PCSAssessment.severity_level a
           = (if 6 <=? s then AccidentSeverity.SERIOUS else AccidentSeverity.MODERATE)
        /\ foldr Z.add 0 (map snd (PCSAssessment.score_breakdown a)) = s
        /\ PCSAssessment.estimated_patients a = (if 6 <=? s then 3 else 2))
  /\ (forall now_ts,
        map (fun a => (PCSAssessment.accident_id a,
                       PCSAssessment.patient_critical_score a))
            (PCSResults.assessments (create_demo_pcs now None))
        = map (fun acc => (Accident.id acc, 7))
            (DetectedAccidents.accidents (create_demo_accidents now now_ts))).
Proof.
  cbv zeta. unfold create_demo_pcs. cbn [PCSResults.assessments].
  split; [apply demo_loop_ids|]. split; [|reflexivity].
  intros i a Hi. rewrite demo_loop_lookup in Hi.
  destruct (ids !! i) as [x|]; [|discriminate]. cbn in Hi. injection Hi as <-.
  cbn [demo_assessment PCSAssessment.patient_critical_score
       PCSAssessment.severity_level PCSAssessment.score_breakdown
       PCSAssessment.estimated_patients].
  pose proof (Z.mod_pos_bound (Z.of_nat i) 3 ltac:(lia)) as Hm.
  set (m := Z.of_nat i mod 3) in *.
  split; [reflexivity|]. split; [lia|]. split; [reflexivity|].
  split; [|reflexivity].
  destruct (Z.leb_spec 6 (7 - m)); cbn [map snd foldr]; lia.
Qed.

(** The second of three accidents. *)
Lemma demo_assessments_follow_ids_witness :
  let a := demo_assessment 1 "ACC_2025093015200002" in
  PCSAssessment.patient_critical_score a = 7 - Z.of_nat 1 mod 3
  /\ foldr Z.add 0 (map snd (PCSAssessment.score_breakdown a))
     = PCSAssessment.patient_critical_score a.
Proof.
  cbv zeta.
  destruct (proj1 (proj2 (demo_assessments_follow_ids (at_hour 15)
                            ["ACC_2025093015200001"; "ACC_2025093015200002";
                             "ACC_2025093015200003"]))
              1%nat (demo_assessment 1 "ACC_2025093015200002") eq_refl)
    as (Hs & _ & _ & Hsum & _).
  split; [exact Hs | exact Hsum].
Defined.

(* ---------------------------------------------------------------- *)

Lemma read_decision_suffix stdin b rest :
  read_decision stdin = Some (b, rest) -> rest `suffix_of` stdin.
Proof.
  induction stdin as [|line stdin IH]; cbn [read_decision]; [discriminate|].
  destruct (String.eqb _ "y").
  - intros [= <- <-]. apply suffix_cons_r. reflexivity.
  - destruct (String.eqb _ "n").
    + destruct stdin as [|reason stdin']; [discriminate|].
      intros [= <- <-]. do 2 apply suffix_cons_r. reflexivity.
    + intros H. apply suffix_cons_r. exact (IH H).
Qed.

Lemma approval_loop_sublist accidents stdin approved rest :
  approval_loop accidents stdin = Some (approved, rest) ->
  approved `sublist_of` accidents /\ rest `suffix_of` stdin.
Proof.
  revert stdin approved rest.
  induction accidents as [|x accidents IH]; intros stdin approved rest;
    cbn [approval_loop].
  - intros [= <- <-]. split; reflexivity.
  - destruct (read_decision stdin) as [[b stdin']|] eqn:Hd; [|discriminate].
    destruct (approval_loop accidents stdin') as [[approved' rest']|] eqn:Hl;
      [|discriminate].
    intros [= <- <-]. destruct (IH _ _ _ Hl) as [Hs Hr].
    split.
    + destruct b; [apply sublist_skip | apply sublist_cons]; exact Hs.
    + etrans; [exact Hr|]. eapply read_decision_suffix. exact Hd.
Qed.

(** X9.  The approval step returns a sub-list of the detected accidents:
    nothing that was not detected, nothing twice, and the approved ones in
    the order they were detected.  It reads the typed lines from the front
    and leaves the rest; with nothing detected it reads no line at all and
    returns the empty list. *)
Theorem approval_returns_sublist_of_detected
    (detected : option DetectedAccidents.t) (stdin : list string)
    (out : DetectedAccidents.t) (rest : list string) :
  get_human_approval_for_accidents detected stdin = Some (out, rest) ->
  DetectedAccidents.accidents out
    `sublist_of` match detected with
                 | Some d => DetectedAccidents.accidents d
                 | None => []
                 end
  /\ rest `suffix_of` stdin
  /\ (match detected with
      | Some d => DetectedAccidents.accidents d = []
      | None => True
      end -> DetectedAccidents.accidents out = [] /\ rest = stdin).
Proof.
  unfold get_human_approval_for_accidents.
  destruct detected as [d|].
  - destruct (DetectedAccidents.accidents d) as [|x accidents] eqn:Hacc.
    + intros [= <- <-]. cbn. repeat split; reflexivity.
    + destruct (approval_loop (x :: accidents) stdin) as [[approved rest']|] eqn:Hl;
        [|discriminate].
      intros [= <- <-]. cbn [DetectedAccidents.accidents].
      destruct (approval_loop_sublist _ _ _ _ Hl) as [Hs Hr].
      split; [exact Hs|]. split; [exact Hr|]. intros H. discriminate.
  - intros [= <- <-]. cbn. repeat split; reflexivity.
Qed.

Lemma approval_returns_sublist_of_detected_witness :
  [accident_report] `sublist_of` [accident_report; accident_report]
  /\ ["next"] `suffix_of` ["maybe"; " N "; "duplicate report"; "Y"; "next"].
Proof.
  destruct (approval_returns_sublist_of_detected
              (Some {| DetectedAccidents.accidents :=
                         [accident_report; accident_report] |})
              ["maybe"; " N "; "duplicate report"; "Y"; "next"]
              {| DetectedAccidents.accidents := [accident_report] |} ["next"]
              ltac:(vm_compute; reflexivity)) as (Hs & Hr & _).
  split; [exact Hs | exact Hr].
Defined.

Lemma read_decision_typed (ans : Answer) rest :
  well_formed ans ->
  read_decision (typed ans ++ rest) = Some (approves ans, rest).
Proof.
  intros [Hbad Hdec]. unfold typed.
  induction Hbad as [|l bad [Hy Hn] _ IH].
  - cbn [app read_decision]. rewrite Hdec.
    destruct (approves ans); reflexivity.
  - cbn [app read_decision].
    destruct (String.eqb_spec (PyStr.strip (PyFmt.lower l)) "y"); [contradiction|].
    destruct (String.eqb_spec (PyStr.strip (PyFmt.lower l)) "n"); [contradiction|].
    exact IH.
Qed.

(** X10.  For a dialogue in which every accident is answered, possibly
    after answers that are asked again, by a line that reads "y" or "n"
    once lowered and stripped (a "n" being followed by a line for the
    reason), the approval step returns exactly the accidents answered "y",
    in order, and consumes exactly the lines typed. *)
Theorem approval_follows_the_dialogue
    (accidents : list Accident.t) (script : list Answer) (rest : list string) :
  length script = length accidents ->
  Forall well_formed script ->
  get_human_approval_for_accidents
    (Some {| DetectedAccidents.accidents := accidents |})
    (concat (map typed script) ++ rest)
  = Some ({| DetectedAccidents.accidents :=
               map fst (List.filter (fun p => approves (snd p))
                          (combine accidents script)) |},
          rest).
Proof.
  intros Hlen Hwf.
  assert (Hloop : approval_loop accidents (concat (map typed script) ++ rest)
                  = Some (map fst (List.filter (fun p => approves (snd p))
                                     (combine accidents script)), rest)).
  { revert script Hlen Hwf.
    induction accidents as [|x accidents IH]; intros script Hlen Hwf.
    - destruct script; [reflexivity | discriminate].
    - destruct script as [|ans script]; [discriminate|].
      inversion Hwf as [|? ? Hans Hwf']; subst.
      cbn [map concat approval_loop]. rewrite <- app_assoc.
      rewrite (read_decision_typed ans _ Hans).
      rewrite (IH script ltac:(cbn in Hlen; lia) Hwf').
      cbn [combine List.filter snd]. destruct (approves ans); reflexivity. }
  unfold get_human_approval_for_accidents. cbn [DetectedAccidents.accidents].
  destruct accidents as [|x accidents].
  - destruct script; [|discriminate]. reflexivity.
  - rewrite Hloop. reflexivity.
Qed.

Lemma approval_follows_the_dialogue_witness :
  get_human_approval_for_accidents
    (Some {| DetectedAccidents.accidents := [accident_report; accident_report] |})
    (concat (map typed
               [ {| refused_lines := ["maybe"]; decision_line := " N ";
                    approves := false; reason_line := "duplicate report" |};
                 {| refused_lines := []; decision_line := "Y";
                    approves := true; reason_line := EmptyString |} ]) ++ ["next"])
  = Some ({| DetectedAccidents.accidents := [accident_report] |}, ["next"]).
Proof.
  apply (approval_follows_the_dialogue [accident_report; accident_report]
           [ {| refused_lines := ["maybe"]; decision_line := " N ";
                approves := false; reason_line := "duplicate report" |};
             {| refused_lines := []; decision_line := "Y";
                approves := true; reason_line := EmptyString |} ] ["next"]).
  - reflexivity.
  - repeat constructor; cbn; discriminate.
Defined.

End DispatchProperties.

Module NotificationProperties.

Import PyFloat.
Import Realtime.
Import Dispatch.
Import Notions.
Import Scenarios.
Import Selection.
Import SelectionFacts.
Import RunFacts.

Lemma route_step_ids w locs k hospitals routes a :
  map Hospital.id (route_step w locs k (hospitals, routes) a).1
  = map Hospital.id hospitals.
Proof.
  destruct (route_step_spec w locs k hospitals routes a)
    as [[_ Heq]|(i & h & Hsel & Heq)]; cbv zeta in Heq; rewrite Heq; cbn [fst].
  - unfold measured. rewrite map_map. reflexivity.
  - rewrite list_fmap_insert. cbn [Hospital.decrement_beds Hospital.set_distance_km
                                    Hospital.id].
    unfold measured. rewrite map_map. cbn [Hospital.set_distance_km Hospital.id].
    apply list_insert_id. rewrite list_lookup_fmap.
    assert (Hi : hospitals !! i = Some h)
      by (destruct Hsel as [(Hi & _)|[_ (Hi & _)]]; exact Hi).
    rewrite Hi. reflexivity.
Qed.

Lemma route_loop_ids w locs k assessments hospitals routes :
  map Hospital.id (route_loop w locs k assessments (hospitals, routes)).1
  = map Hospital.id hospitals.
Proof.
  revert k hospitals routes.
  induction assessments as [|a assessments IH]; intros k hospitals routes;
    [reflexivity|].
  cbn [route_loop].
  pose proof (route_step_ids w locs k hospitals routes a) as Hs.
  destruct (route_step w locs k (hospitals, routes) a) as [hospitals1 routes1].
  rewrite IH. exact Hs.
Qed.

Lemma pcs_map_get_unassessed (assessments : list PCSAssessment.t) d0 k :
  Forall (fun x => PCSAssessment.accident_id x <> k) assessments ->
  pcs_map_get
    (foldl (fun d assessment => (PCSAssessment.accident_id assessment, assessment) :: d)
       d0 assessments) k
  = pcs_map_get d0 k.
Proof.
  intros H. revert d0. induction H as [|x assessments Hx _ IH]; intros d0.
  - reflexivity.
  - cbn [foldl]. rewrite IH. cbn [pcs_map_get].
    destruct (String.eqb_spec (PCSAssessment.accident_id x) k);
      [contradiction | reflexivity].
Qed.

Lemma pcs_map_get_last (pre post : list PCSAssessment.t) a :
  Forall (fun x => PCSAssessment.accident_id x <> PCSAssessment.accident_id a) post ->
  pcs_map_get (pcs_map_of (pre ++ a :: post)) (PCSAssessment.accident_id a) = Some a.
Proof.
  intros H. unfold pcs_map_of. rewrite foldl_app. cbn [foldl].
  rewrite pcs_map_get_unassessed by exact H.
  cbn [pcs_map_get]. rewrite String.eqb_refl. reflexivity.
Qed.

(** The assessment found for an id is the last one that carries it. *)
Lemma pcs_map_get_some assessments k a :
  pcs_map_get (pcs_map_of assessments) k = Some a ->
  exists pre post,
    assessments = pre ++ a :: post
    /\ PCSAssessment.accident_id a = k
    /\ Forall (fun x => PCSAssessment.accident_id x <> k) post.
Proof.
  induction assessments as [|x assessments IH] using rev_ind.
  - discriminate.
  - unfold pcs_map_of. rewrite foldl_app. cbn [foldl pcs_map_get].
    destruct (String.eqb_spec (PCSAssessment.accident_id x) k) as [He|Hne].
    + intros [= <-]. exists assessments, []. repeat split; [exact He | constructor].
    + intros H. destruct (IH H) as (pre & post & -> & Hid & Hpost).
      exists pre, (post ++ [x]). rewrite <- app_assoc. split; [reflexivity|].
      split; [exact Hid|]. apply Forall_app. split; [exact Hpost|].
      constructor; [exact Hne | constructor].
Qed.

Lemma pcs_map_get_member assessments a :
  In a assessments ->
  exists a', pcs_map_get (pcs_map_of assessments) (PCSAssessment.accident_id a) = Some a'.
Proof.
  intros Hin.
  destruct (pcs_map_get (pcs_map_of assessments) (PCSAssessment.accident_id a))
    as [a'|] eqn:E; [exists a'; reflexivity|]. exfalso.
  induction assessments as [|x assessments IH] using rev_ind; [contradiction|].
  unfold pcs_map_of in E. rewrite foldl_app in E. cbn [foldl pcs_map_get] in E.
  destruct (String.eqb_spec (PCSAssessment.accident_id x) (PCSAssessment.accident_id a))
    as [He|Hne]; [discriminate|].
  apply in_app_or in Hin. destruct Hin as [Hin|[->|[]]]; [|contradiction].
  exact (IH Hin E).
Qed.

(** X11.  Notifying with the assessments the routes were computed from:
    every route of the run gets exactly one notification, in the order of the
    routes, addressed to the hospital the route goes to, with the route's
    priority ETA. *)
Theorem every_route_gets_one_notification
    (w : World) (pcs : PCSResults.t) (accident_data : option DetectedAccidents.t)
    (now : datetime) :
  let run := calculate_route_with_cerebras w (Some pcs) accident_data in
  exists ns,
    notify_hospitals_fhir now run.2 (Some run.1) (Some pcs)
    = Some {| NotificationResults.notifications := ns |}
    /\ Forall2
         (fun n r =>
            HospitalNotification.hospital_notification_id n
            = ("HN_" ++ RouteOptimization.accident_id r)%string
            /\ HospitalNotification.eta_minutes n
               = RouteOptimization.estimated_time_green_corridor r
            /\ Hospital.id <$> hospitals_init !! RouteOptimization.target_hospital r
               = Some (HospitalNotification.hospital_id n))
         ns (RouteResults.routes run.1).
Proof.
  cbv zeta. unfold calculate_route_with_cerebras.
  destruct (PCSResults.assessments pcs) as [|a0 rest] eqn:Ha.
  - exists []. split; [reflexivity | constructor].
  - pose proof (route_loop_run w (accident_locations_of accident_data) 0
                  (a0 :: rest) hospitals_init [] hospitals_init_nonneg) as Hrun.
    pose proof (route_loop_ids w (accident_locations_of accident_data) 0
                  (a0 :: rest) hospitals_init []) as Hids.
    assert (Hmem : forall r,
               In r (route_loop w (accident_locations_of accident_data) 0
                       (a0 :: rest) (hospitals_init, [])).2 ->
               exists a, In a (a0 :: rest)
                 /\ RouteOptimization.accident_id r = PCSAssessment.accident_id a).
    { intros r Hr.
      destruct (EstimatorFacts.route_loop_routes w _ 0 (a0 :: rest)
                  hospitals_init [] r Hr)
        as [[]|(a & reply & n & i & target & p & q & Hin & ->)].
      exists a. split; [exact Hin | reflexivity]. }
    cbv zeta in Hrun.
    destruct (route_loop w (accident_locations_of accident_data) 0 (a0 :: rest)
                (hospitals_init, [])) as [hospitals routes].
    cbn [fst snd RouteResults.routes] in *.
    destruct Hrun as (new & -> & _ & _ & _ & Hlen & Hlab). cbn [app] in *.
    unfold notify_hospitals_fhir. cbn [RouteResults.routes]. rewrite Ha.
    set (pm := pcs_map_of (a0 :: rest)).
    assert (Hall : exists ns,
               omap (notify_route now hospitals pm) new = ns
               /\ Forall2
                    (fun n r =>
                       HospitalNotification.hospital_notification_id n
                       = ("HN_" ++ RouteOptimization.accident_id r)%string
                       /\ HospitalNotification.eta_minutes n
                          = RouteOptimization.estimated_time_green_corridor r
                       /\ Hospital.id <$>
                            hospitals_init !! RouteOptimization.target_hospital r
                          = Some (HospitalNotification.hospital_id n))
                    ns new).
    { assert (Htgt : forall r, In r new ->
                 (RouteOptimization.target_hospital r < length hospitals)%nat).
      { intros r Hr. apply list_elem_of_In in Hr.
        apply list_elem_of_lookup_1 in Hr. destruct Hr as [j Hj].
        rewrite Hlen. apply (Hlab j r Hj). }
      clear Hlab. induction new as [|r new IH].
      - exists []. split; [reflexivity | constructor].
      - destruct IH as (ns & Hns & Hf2).
        { intros r' Hr'. apply Hmem. right. exact Hr'. }
        { intros r' Hr'. apply Htgt. right. exact Hr'. }
        destruct (Hmem r (or_introl eq_refl)) as (a & Hin & Hid).
        destruct (pcs_map_get_member (a0 :: rest) a Hin) as [a' Ha'].
        destruct (lookup_lt_is_Some_2 hospitals (RouteOptimization.target_hospital r)
                    (Htgt r (or_introl eq_refl))) as [h Hh].
        exists (make_notification now r h a' :: ns).
        split.
        + assert (Hr : notify_route now hospitals pm r
                       = Some (make_notification now r h a')).
          { unfold notify_route. rewrite Hid. fold pm in Ha'. rewrite Ha', Hh.
            reflexivity. }
          change (omap (notify_route now hospitals pm) (r :: new))
            with (match notify_route now hospitals pm r with
                  | Some y => y :: omap (notify_route now hospitals pm) new
                  | None => omap (notify_route now hospitals pm) new
                  end).
          rewrite Hr, Hns. reflexivity.
        + constructor; [|exact Hf2].
          cbn [make_notification HospitalNotification.hospital_notification_id
               HospitalNotification.eta_minutes HospitalNotification.hospital_id].
          split; [reflexivity|]. split; [reflexivity|].
          assert (Hm : map Hospital.id hospitals !! RouteOptimization.target_hospital r
                       = Some (Hospital.id h))
            by (rewrite list_lookup_fmap, Hh; reflexivity).
          rewrite Hids, list_lookup_fmap in Hm. exact Hm. }
    destruct Hall as (ns & Hns & Hf2). exists ns.
    split; [|exact Hf2].
    destruct new as [|r new]; [cbn in Hns; subst ns; reflexivity|].
    rewrite Hns. reflexivity.
Qed.

(** X12.  A notification is made from the last assessment that carries
    the route's accident id: its severity level, its number of patients and
    the preparations for its score (five for 8 or more, three for 6 and 7,
    two below).  A route whose accident id no assessment carries gets no
    notification.  Without routes the result is empty, even when the
    assessments are missing; with routes and no assessments the call
    fails. *)
Theorem notification_built_from_last_assessment
    (now : datetime) (hospitals : list Hospital.t) :
  (forall assessments r n,
      notify_route now hospitals (pcs_map_of assessments) r = Some n ->
      exists pre a post,
        assessments = pre ++ a :: post
        /\ PCSAssessment.accident_id a = RouteOptimization.accident_id r
        /\ Forall (fun x => PCSAssessment.accident_id x
                            <> RouteOptimization.accident_id r) post
        /\ HospitalNotification.severity_level n = PCSAssessment.severity_level a
        /\ HospitalNotification.required_preparations n
           = preparations_for (PCSAssessment.patient_critical_score a)
        /\ Z.of_nat (length (HospitalNotification.required_preparations n))
           = (if 8 <=? PCSAssessment.patient_critical_score a then 5
              else if 6 <=? PCSAssessment.patient_critical_score a then 3 else 2))
  /\ (forall assessments r,
        Forall (fun x => PCSAssessment.accident_id x
                         <> RouteOptimization.accident_id r) assessments ->
        notify_route now hospitals (pcs_map_of assessments) r = None)
  /\ (forall pcs,
        notify_hospitals_fhir now hospitals None pcs
        = Some {| NotificationResults.notifications := [] |}
        /\ notify_hospitals_fhir now hospitals
             (Some {| RouteResults.routes := [] |}) pcs
           = Some {| NotificationResults.notifications := [] |})
  /\ (forall r routes,
        notify_hospitals_fhir now hospitals
          (Some {| RouteResults.routes := r :: routes |}) None = None).
Proof.
  split; [|split; [|split]].
  - intros assessments r n Hn. unfold notify_route in Hn.
    destruct (pcs_map_get (pcs_map_of assessments) (RouteOptimization.accident_id r))
      as [a|] eqn:Hget; [|discriminate].
    destruct (hospitals !! RouteOptimization.target_hospital r) as [h|]; [|discriminate].
    injection Hn as <-.
    destruct (pcs_map_get_some _ _ _ Hget) as (pre & post & -> & Hid & Hpost).
    exists pre, a, post. split; [reflexivity|]. split; [exact Hid|].
    split; [exact Hpost|]. split; [reflexivity|]. split; [reflexivity|].
    cbn [make_notification HospitalNotification.required_preparations].
    unfold preparations_for.
    destruct (8 <=? _); [reflexivity|]. destruct (6 <=? _); reflexivity.
  - intros assessments r Hall. unfold notify_route, pcs_map_of.
    rewrite pcs_map_get_unassessed by exact Hall. reflexivity.
  - intros pcs. split; reflexivity.
  - intros r routes. reflexivity.
Qed.

(** Two assessments for the same accident: the notification follows the
    second. *)
Lemma notification_built_from_last_assessment_witness :
  let r := build_route None 0 moderate_accident
             (lit (285942 # 10000), lit (772100 # 10000)) 0 aiims_trauma (3 # 1) in
  notify_route (at_hour 15) hospitals_init
    (pcs_map_of [moderate_accident;
                 demo_assessment 0 (PCSAssessment.accident_id moderate_accident)]) r
  <> None
  /\ notify_route (at_hour 15) hospitals_init (pcs_map_of [demo_assessment 0 "ACC_0"]) r
     = None.
Proof.
  cbv zeta. split.
  - destruct (notify_route (at_hour 15) hospitals_init
                (pcs_map_of [moderate_accident;
                             demo_assessment 0
                               (PCSAssessment.accident_id moderate_accident)])
                (build_route None 0 moderate_accident
                   (lit (285942 # 10000), lit (772100 # 10000)) 0 aiims_trauma (3 # 1)))
      as [n|] eqn:Hn; [discriminate|].
    vm_compute in Hn. discriminate.
  - apply (proj1 (proj2 (notification_built_from_last_assessment (at_hour 15)
                           hospitals_init))).
    repeat constructor. cbn. discriminate.
Defined.

End NotificationProperties.

(* ================================================================== *)
(** * The patient workflow: scorer, matcher and plan *)
(* ================================================================== *)

Module PatientProperties.

Import PyFloat.
Import PyFloatFacts.
Import Patient.
Import Notions.
Import Scenarios.
Import Draws.
Import RouteFacts.

(** X13.  What the vital signs alone decide.  The score is never below 1.
    A patient who is not breathing scores at least 6 and always gets the
    green corridor; unconscious and not breathing scores 10, critical; an
    unconscious patient scores at least 5, so is never minor.  A conscious,
    breathing patient without bleeding, aged 5 to 65, scores at most 4 and
    never gets the corridor. *)
Theorem vital_signs_bound_the_score (r : FamilyEmergencyRequest.t) :
  let a := assess_patient_with_ai r in
  let s := PatientAssessment.patient_critical_score a in
  1 <= s
  /\ (FamilyEmergencyRequest.is_patient_breathing r = false ->
      6 <= s /\ PatientAssessment.green_corridor_required a = true)
  /\ (FamilyEmergencyRequest.is_patient_breathing r = false ->
      FamilyEmergencyRequest.is_patient_conscious r = false ->
      s = 10 /\ PatientAssessment.severity_level a = CriticalityLevel.CRITICAL)
  /\ (FamilyEmergencyRequest.is_patient_conscious r = false ->
      5 <= s /\ PatientAssessment.severity_level a <> CriticalityLevel.MINOR)
  /\ (FamilyEmergencyRequest.is_patient_conscious r = true ->
      FamilyEmergencyRequest.is_patient_breathing r = true ->
      FamilyEmergencyRequest.any_bleeding r = false ->
      5 <= FamilyEmergencyRequest.patient_age r <= 65 ->
      s <= 4 /\ PatientAssessment.green_corridor_required a = false).
Proof.
  cbv zeta. pose proof (ScorerFacts.assess_tier r) as Ht. cbv zeta in Ht.
  rewrite ScorerFacts.assess_score_sum, ScorerFacts.category_weight_table in *.
  set (w_age := if FamilyEmergencyRequest.patient_age r <? 1 then 3 else _) in *.
  assert (Hage : 0 <= w_age <= 3
                 /\ (5 <= FamilyEmergencyRequest.patient_age r <= 65 -> w_age = 0)).
  { subst w_age.
    destruct (Z.ltb_spec (FamilyEmergencyRequest.patient_age r) 1);
      [split; lia|].
    destruct (Z.ltb_spec (FamilyEmergencyRequest.patient_age r) 5);
      [split; lia|].
    destruct (Z.ltb_spec 75 (FamilyEmergencyRequest.patient_age r));
      [split; lia|].
    destruct (Z.ltb_spec 65 (FamilyEmergencyRequest.patient_age r)); split; lia. }
  destruct Hage as [Hage Hmid]. clearbody w_age.
  set (w_type := match FamilyEmergencyRequest.emergency_type r with
                 | EmergencyType.CARDIAC => 4 | _ => _ end) in *.
  assert (Htype : 1 <= w_type <= 4)
    by (subst w_type; destruct (FamilyEmergencyRequest.emergency_type r); lia).
  clearbody w_type.
  destruct (FamilyEmergencyRequest.is_patient_conscious r),
    (FamilyEmergencyRequest.is_patient_breathing r),
    (FamilyEmergencyRequest.any_bleeding r);
    set (s := Z.min 10 _) in *;
    assert (Hs : 1 <= s <= 10) by (subst s; lia);
    (split; [lia|]);
    repeat split; try discriminate; intros;
    try specialize (Hmid ltac:(assumption));
    try (subst s; lia);
    try (assert (Hs4 : s <= 4) by (subst s; lia);
         destruct (Z.leb_spec 8 s); [lia|]; destruct (Z.leb_spec 6 s); [lia|];
         destruct (Z.leb_spec 4 s); congruence);
    try (assert (Hs6 : 6 <= s) by (subst s; lia);
         destruct (Z.leb_spec 8 s); [congruence|];
         destruct (Z.leb_spec 6 s); [congruence | lia]);
    try (assert (Hs10 : 8 <= s) by (subst s; lia);
         destruct (Z.leb_spec 8 s); [congruence | lia]);
    try (assert (Hs5 : 5 <= s) by (subst s; lia);
         destruct (Z.leb_spec 8 s); [congruence|];
         destruct (Z.leb_spec 6 s); [congruence|];
         destruct (Z.leb_spec 4 s); [congruence | lia]).
Qed.

(** A breathing, conscious adult with no bleeding. *)
Lemma vital_signs_bound_the_score_witness :
  PatientAssessment.patient_critical_score
    (assess_patient_with_ai (sample_request 30 EmergencyType.CARDIAC true true false))
  <= 4
  /\ PatientAssessment.green_corridor_required
       (assess_patient_with_ai (sample_request 30 EmergencyType.CARDIAC true true false))
     = false.
Proof.
  apply (proj2 (proj2 (proj2 (proj2 (vital_signs_bound_the_score
           (sample_request 30 EmergencyType.CARDIAC true true false)))))).
  - reflexivity.
  - reflexivity.
  - reflexivity.
  - cbn. lia.
Defined.

End PatientProperties.

Module MatcherRangeFacts.

Import PyFloat.
Import Patient.
Import Notions.
Import Scenarios.
Import Draws.

Lemma critical_eqb_spec c :
  CriticalityLevel.eqb c CriticalityLevel.CRITICAL = true
  <-> c = CriticalityLevel.CRITICAL.
Proof. destruct c; cbn; split; intros H; try reflexivity; discriminate. Qed.

(** The inclusion test of the availability loop. *)
Lemma kept_iff a h :
  (0 <? RealTimeHospital.available_beds h)
  || CriticalityLevel.eqb (PatientAssessment.severity_level a)
       CriticalityLevel.CRITICAL = true
  <-> 0 < RealTimeHospital.available_beds h
      \/ PatientAssessment.severity_level a = CriticalityLevel.CRITICAL.
Proof. rewrite orb_true_iff, Z.ltb_lt, critical_eqb_spec. reflexivity. Qed.

(** The simulated availability when the draws are in range. *)
Lemma simulate_ranges level r :
  valid_draws r -> level = 1 \/ level = 2 ->
  exists b i l,
    simulate_availability level r = (b, i, l)
    /\ 0 <= b <= 17 /\ 1 <= i <= 7
    /\ (level = 1 -> 3 <= b)
    /\ (level = 2 -> 14 <= current_hour r <= 18 -> b = 0)
    /\ l <> "CRITICAL_OVERRIDE".
Proof.
  intros Hv Hl. unfold simulate_availability. unfold valid_draws in Hv. cbv zeta in Hv.
  destruct ((14 <=? current_hour r) && (current_hour r <=? 18)) eqn:Epeak.
  - apply andb_true_iff in Epeak. destruct Epeak as [E1 E2].
    apply Z.leb_le in E1, E2. destruct Hv as [Hb Hi].
    do 3 eexists. split; [reflexivity|].
    destruct Hl as [-> | ->]; cbn [Z.eqb Pos.eqb];
      repeat split; try lia; try discriminate.
  - assert (Hnp : ~ 14 <= current_hour r <= 18).
    { intros [H1 H2]. apply Z.leb_le in H1, H2. rewrite H1, H2 in Epeak. discriminate. }
    destruct ((22 <=? current_hour r) || (current_hour r <=? 6));
      destruct Hv as [Hb Hi]; do 3 eexists; (split; [reflexivity|]);
      destruct Hl as [-> | ->]; cbn [Z.eqb Pos.eqb];
      repeat split; try lia; try discriminate.
Qed.

(** The availability a probe reports when the draws are in range. *)
Lemma probe_ranges a hd r :
  valid_draws r ->
  hd_trauma_level hd = 1 \/ hd_trauma_level hd = 2 ->
  let h := probe_hospital a hd r in
  RealTimeHospital.id h = hd_id hd
  /\ RealTimeHospital.trauma_level h = hd_trauma_level hd
  /\ 0 <= RealTimeHospital.available_beds h <= 17
  /\ 1 <= RealTimeHospital.icu_beds h <= 7
  /\ (hd_trauma_level hd = 1 -> 3 <= RealTimeHospital.available_beds h)
  /\ (RealTimeHospital.current_load h = "CRITICAL_OVERRIDE" ->
      RealTimeHospital.available_beds h = 1
      /\ PatientAssessment.severity_level a = CriticalityLevel.CRITICAL
      /\ hd_trauma_level hd = 2)
  /\ (PatientAssessment.severity_level a = CriticalityLevel.CRITICAL ->
      1 <= RealTimeHospital.available_beds h)
  /\ (hd_trauma_level hd = 2 -> 14 <= current_hour r <= 18 ->
      PatientAssessment.severity_level a <> CriticalityLevel.CRITICAL ->
      RealTimeHospital.available_beds h = 0).
Proof.
  intros Hv Hl. cbv zeta. unfold probe_hospital.
  destruct (simulate_ranges (hd_trauma_level hd) r Hv Hl)
    as (b & i & l & -> & Hb & Hi & H1 & H2 & Hload).
  unfold critical_override.
  pose proof (critical_eqb_spec (PatientAssessment.severity_level a)) as Hc.
  destruct (CriticalityLevel.eqb (PatientAssessment.severity_level a)
              CriticalityLevel.CRITICAL) eqn:Ecrit; cbn [andb].
  - destruct (Z.eqb_spec b 0) as [Hz|Hz];
      cbn [RealTimeHospital.id RealTimeHospital.trauma_level
           RealTimeHospital.available_beds RealTimeHospital.icu_beds
           RealTimeHospital.current_load].
    + split; [reflexivity|]. split; [reflexivity|]. split; [lia|]. split; [lia|].
      split; [intros Hl1; specialize (H1 Hl1); lia|].
      split.
      { intros _. split; [reflexivity|]. split; [apply Hc; reflexivity|].
        destruct Hl as [Hl1|Hl2]; [specialize (H1 Hl1); lia | exact Hl2]. }
      split; [intros _; lia|].
      intros _ _ Hn. exfalso. apply Hn, Hc. reflexivity.
    + split; [reflexivity|]. split; [reflexivity|]. split; [lia|]. split; [lia|].
      split; [exact H1|]. split; [intros Ho; contradiction|].
      split; [intros _; lia|].
      intros _ _ Hn. exfalso. apply Hn, Hc. reflexivity.
  - cbn [RealTimeHospital.id RealTimeHospital.trauma_level
         RealTimeHospital.available_beds RealTimeHospital.icu_beds
         RealTimeHospital.current_load].
    split; [reflexivity|]. split; [reflexivity|]. split; [lia|]. split; [lia|].
    split; [exact H1|]. split; [intros Ho; contradiction|].
    split; [intros Hcr; apply Hc in Hcr; discriminate|].
    intros Hl2 Hp _. exact (H2 Hl2 Hp).
Qed.

Lemma hospital_data_entries :
  exists hd0 hd1 hd2 hd3,
    hospital_data = [hd0; hd1; hd2; hd3]
    /\ (hd_id hd0, hd_trauma_level hd0) = ("AIIMS_DELHI", 1)
    /\ (hd_id hd1, hd_trauma_level hd1) = ("SAFDARJUNG", 1)
    /\ (hd_id hd2, hd_trauma_level hd2) = ("FORTIS_DELHI", 2)
    /\ (hd_id hd3, hd_trauma_level hd3) = ("MAX_SAKET", 2).
Proof.
  unfold hospital_data. do 4 eexists. split; [reflexivity|]. repeat split.
Qed.

(** The candidates when the draws are in range: the two level-1 hospitals
    first, then those of the two level-2 hospitals that pass the test. *)
Lemma candidates_in_range a readings :
  (forall i, valid_draws (readings i)) ->
  exists p0 p1 tail,
    availability_loop a readings 0 hospital_data = p0 :: p1 :: tail
    /\ RealTimeHospital.id p0 = "AIIMS_DELHI"
    /\ RealTimeHospital.id p1 = "SAFDARJUNG"
    /\ (length tail <= 2)%nat
    /\ (PatientAssessment.severity_level a = CriticalityLevel.CRITICAL ->
        length tail = 2%nat)
    /\ ((forall i, 14 <= current_hour (readings i) <= 18) ->
        PatientAssessment.severity_level a <> CriticalityLevel.CRITICAL ->
        tail = []).
Proof.
  intros Hv.
  destruct hospital_data_entries
    as (hd0 & hd1 & hd2 & hd3 & -> & [= I0 L0] & [= I1 L1] & [= I2 L2] & [= I3 L3]).
  cbn [availability_loop].
  destruct (probe_ranges a hd0 (readings 0%nat) (Hv _) (or_introl L0))
    as (Hi0 & _ & _ & _ & Hb0 & _).
  destruct (probe_ranges a hd1 (readings 1%nat) (Hv _) (or_introl L1))
    as (Hi1 & _ & _ & _ & Hb1 & _).
  destruct (probe_ranges a hd2 (readings 2%nat) (Hv _) (or_intror L2))
    as (_ & _ & _ & _ & _ & _ & Hc2 & Hp2).
  destruct (probe_ranges a hd3 (readings 3%nat) (Hv _) (or_intror L3))
    as (_ & _ & _ & _ & _ & _ & Hc3 & Hp3).
  cbv zeta in *.
  set (p0 := probe_hospital a hd0 (readings 0%nat)) in *.
  set (p1 := probe_hospital a hd1 (readings 1%nat)) in *.
  set (p2 := probe_hospital a hd2 (readings 2%nat)) in *.
  set (p3 := probe_hospital a hd3 (readings 3%nat)) in *.
  specialize (Hb0 L0). specialize (Hb1 L1).
  assert (K0 : (0 <? RealTimeHospital.available_beds p0) = true) by (apply Z.ltb_lt; lia).
  assert (K1 : (0 <? RealTimeHospital.available_beds p1) = true) by (apply Z.ltb_lt; lia).
  rewrite K0, K1. cbn [orb].
  pose proof (kept_iff a p2) as Hk2. pose proof (kept_iff a p3) as Hk3.
  set (k2 := (0 <? RealTimeHospital.available_beds p2) || _) in *.
  set (k3 := (0 <? RealTimeHospital.available_beds p3) || _) in *.
  assert (Hcrit : PatientAssessment.severity_level a = CriticalityLevel.CRITICAL ->
                  k2 = true /\ k3 = true).
  { intros Hcr. split; [apply Hk2 | apply Hk3]; right; exact Hcr. }
  assert (Hpeak : (forall i, 14 <= current_hour (readings i) <= 18) ->
                  PatientAssessment.severity_level a <> CriticalityLevel.CRITICAL ->
                  k2 = false /\ k3 = false).
  { intros Hp Hn. split.
    - destruct k2; [|reflexivity]. destruct (proj1 Hk2 eq_refl) as [Hpos|Hcr];
        [|contradiction]. rewrite (Hp2 L2 (Hp _) Hn) in Hpos. lia.
    - destruct k3; [|reflexivity]. destruct (proj1 Hk3 eq_refl) as [Hpos|Hcr];
        [|contradiction]. rewrite (Hp3 L3 (Hp _) Hn) in Hpos. lia. }
  clearbody k2 k3.
  exists p0, p1, ((if k2 then [p2] else []) ++ (if k3 then [p3] else [])).
  split; [destruct k2, k3; reflexivity|].
  split; [rewrite Hi0; exact I0|]. split; [rewrite Hi1; exact I1|].
  split; [destruct k2, k3; cbn; lia|]. split.
  - intros Hcr. destruct (Hcrit Hcr) as [-> ->]. reflexivity.
  - intros Hp Hn. destruct (Hpeak Hp Hn) as [-> ->]. reflexivity.
Qed.

End MatcherRangeFacts.

Module MatcherProperties.

Import PyFloat.
Import Patient.
Import Notions.
Import Scenarios.
Import Draws.
Import MatcherFacts.
Import MatcherRangeFacts.

Lemma ranked_members readings req a h :
  In h (check_hospital_bed_availability readings req a)
  <-> In h (availability_loop a readings 0 hospital_data).
Proof.
  unfold check_hospital_bed_availability.
  pose proof (sort_by_key_perm (hospital_priority req)
                (availability_loop a readings 0 hospital_data)) as Hp.
  split; intros H.
  - eapply Permutation_in; [symmetry; exact Hp | exact H].
  - eapply Permutation_in; [exact Hp | exact H].
Qed.

Lemma hospital_data_levels hd :
  In hd hospital_data -> hd_trauma_level hd = 1 \/ hd_trauma_level hd = 2.
Proof.
  destruct hospital_data_entries
    as (hd0 & hd1 & hd2 & hd3 & -> & [= _ L0] & [= _ L1] & [= _ L2] & [= _ L3]).
  intros [<-|[<-|[<-|[<-|[]]]]]; auto.
Qed.

(** X14.  With the draws in the ranges of [random.randint], every
    hospital the matcher returns has between 1 and 17 beds and between 1 and
    7 ICU beds, and a level-1 hospital has at least 3 beds.  So the two
    level-1 hospitals are always among the candidates and the list is never
    empty; the critical override can only fall on a level-2 hospital, which
    is then listed with exactly one bed.  A critical patient is offered all
    four hospitals; during the peak hours 14 to 18 any other patient is
    offered the two level-1 hospitals only. *)
Theorem level_one_hospitals_always_offered
    (readings : nat -> Reading) (req : FamilyEmergencyRequest.t)
    (a : PatientAssessment.t) :
  (forall i, valid_draws (readings i)) ->
  let ranked := check_hospital_bed_availability readings req a in
  List.Forall
    (fun h =>
       1 <= RealTimeHospital.available_beds h <= 17
       /\ 1 <= RealTimeHospital.icu_beds h <= 7
       /\ (RealTimeHospital.trauma_level h = 1 ->
           3 <= RealTimeHospital.available_beds h)
       /\ (RealTimeHospital.current_load h = "CRITICAL_OVERRIDE" ->
           RealTimeHospital.available_beds h = 1
           /\ RealTimeHospital.trauma_level h = 2
           /\ PatientAssessment.severity_level a = CriticalityLevel.CRITICAL))
    ranked
  /\ In "AIIMS_DELHI" (map RealTimeHospital.id ranked)
  /\ In "SAFDARJUNG" (map RealTimeHospital.id ranked)
  /\ (2 <= length ranked <= 4)%nat
  /\ (PatientAssessment.severity_level a = CriticalityLevel.CRITICAL ->
      length ranked = 4%nat)
  /\ ((forall i, 14 <= current_hour (readings i) <= 18) ->
      PatientAssessment.severity_level a <> CriticalityLevel.CRITICAL ->
      Permutation (map RealTimeHospital.id ranked) ["AIIMS_DELHI"; "SAFDARJUNG"]).
Proof.
  intros Hv. cbv zeta.
  pose proof (sort_by_key_perm (hospital_priority req)
                (availability_loop a readings 0 hospital_data)) as Hperm.
  fold (check_hospital_bed_availability readings req a) in Hperm.
  destruct (candidates_in_range a readings Hv)
    as (p0 & p1 & tail & Hc & Hi0 & Hi1 & Hlen & Hcrit & Hpeak).
  split; [|split; [|split; [|split; [|split]]]].
  - apply List.Forall_forall. intros h Hh. apply ranked_members in Hh.
    apply availability_loop_In in Hh. destruct Hh as (j & hd & Hj & -> & Hk).
    apply kept_iff in Hk.
    assert (Hin : In hd hospital_data)
      by (apply list_elem_of_In; eapply list_elem_of_lookup_2; exact Hj).
    destruct (probe_ranges a hd (readings (0 + j)%nat) (Hv _)
                (hospital_data_levels hd Hin))
      as (_ & Hl & Hb & Hi & H1 & Ho & Hcr & _).
    cbv zeta in *.
    set (h := probe_hospital a hd (readings (0 + j)%nat)) in *.
    split; [destruct Hk as [Hk|Hk]; [lia | specialize (Hcr Hk); lia]|].
    split; [exact Hi|]. split; [rewrite Hl; exact H1|].
    intros Hov. destruct (Ho Hov) as (E1 & E2 & E3).
    split; [exact E1|]. split; [rewrite Hl; exact E3 | exact E2].
  - apply (Permutation_in _ (Permutation_map RealTimeHospital.id Hperm)).
    rewrite Hc. cbn [map]. left. exact Hi0.
  - apply (Permutation_in _ (Permutation_map RealTimeHospital.id Hperm)).
    rewrite Hc. cbn [map]. right. left. exact Hi1.
  - rewrite <- (Permutation_length Hperm), Hc. cbn [length]. lia.
  - intros Hcr. rewrite <- (Permutation_length Hperm), Hc. cbn [length].
    rewrite (Hcrit Hcr). reflexivity.
  - intros Hp Hn. rewrite <- (Permutation_map RealTimeHospital.id Hperm), Hc.
    rewrite (Hpeak Hp Hn). cbn [map]. rewrite Hi0, Hi1. reflexivity.
Qed.

(** A minor patient at 15h, with draws of the peak branch. *)
Lemma level_one_hospitals_always_offered_witness :
  Permutation
    (map RealTimeHospital.id
       (check_hospital_bed_availability (peak_readings 20 8) minor_bleeding
          (assess_patient_with_ai minor_bleeding)))
    ["AIIMS_DELHI"; "SAFDARJUNG"].
Proof.
  refine (proj2 (proj2 (proj2 (proj2 (proj2
            (level_one_hospitals_always_offered (peak_readings 20 8) minor_bleeding
               (assess_patient_with_ai minor_bleeding) _))))) _ _).
  - intros i. unfold valid_draws, peak_readings. cbn. lia.
  - intros i. cbn. lia.
  - vm_compute. discriminate.
Defined.

End MatcherProperties.

Module PlanProperties.

Import PyFloat.
Import PyFloatFacts.
Import Patient.
Import Notions.
Import Scenarios.
Import Draws.
Import RouteFacts.
Import MatcherFacts.
Import MatcherRangeFacts.

(** X15.  On a patient route the priority ETA is 55% of the baseline
    when the corridor is required and 85% when it is not, truncated to whole
    minutes (at most one minute under the exact percentage); the route is
    labelled GREEN_CORRIDOR or PRIORITY accordingly.  The time saved is at
    least 1 minute as soon as the baseline is at least 1 minute, and 0 only
    for a baseline of 0.  The ambulance id is AMB_ followed by the last four
    characters of the request id. *)
Theorem patient_priority_eta_fraction
    (now : datetime) (req : FamilyEmergencyRequest.t)
    (h : RealTimeHospital.t) (a : PatientAssessment.t) :
  (0 <= RealTimeHospital.distance_km h <= max_km)%Q ->
  let r := calculate_patient_route now req h a in
  let n := PatientRoute.estimated_time_normal r in
  let g := PatientRoute.estimated_time_green_corridor r in
  (PatientAssessment.green_corridor_required a = true ->
   54 * n / 100 <= g <= 55 * n / 100
   /\ PatientRoute.route_priority r = "GREEN_CORRIDOR")
  /\ (PatientAssessment.green_corridor_required a = false ->
      84 * n / 100 <= g <= 85 * n / 100
      /\ PatientRoute.route_priority r = "PRIORITY")
  /\ (1 <= n -> 1 <= PatientRoute.time_saved_minutes r)
  /\ (n = 0 -> PatientRoute.time_saved_minutes r = 0)
  /\ PatientRoute.ambulance_id r
     = ("AMB_" ++ PyStr.suffix 4 (FamilyEmergencyRequest.request_id req))%string
  /\ PatientRoute.hospital_destination r = h.
Proof.
  intros Hd. cbv zeta. unfold calculate_patient_route.
  assert (Hs : (traffic_of_hour (hour now)).2 = 15
               \/ (traffic_of_hour (hour now)).2 = 25
               \/ (traffic_of_hour (hour now)).2 = 35).
  { unfold traffic_of_hour.
    destruct (_ || _); [auto|]. destruct (_ && _); auto. }
  destruct (traffic_of_hour (hour now)) as [label speed]. cbn [snd] in Hs.
  pose proof (EstimatorFacts.travel_minutes_range _ speed Hd Hs) as Ht.
  set (n := py_int (fmul (fdiv (RealTimeHospital.distance_km h) (of_int speed))
                      (of_int 60))) in *.
  pose proof (EstimatorFacts.minutes_in_bound n Ht) as Hn.
  assert (H55 : 0 <= py_int (fmul (of_int n) (lit (55 # 100))) <= 55 * n / 100).
  { apply int_scale_lit_le; try lia.
    split; apply Qle_bool_imp_le; vm_compute; reflexivity. }
  assert (H85 : 0 <= py_int (fmul (of_int n) (lit (85 # 100))) <= 85 * n / 100).
  { apply int_scale_lit_le; try lia.
    split; apply Qle_bool_imp_le; vm_compute; reflexivity. }
  assert (L55 : 54 * n / 100 <= py_int (fmul (of_int n) (lit (55 # 100)))).
  { apply int_scale_ge; try lia. apply Qle_bool_imp_le; vm_compute; reflexivity. }
  assert (L85 : 84 * n / 100 <= py_int (fmul (of_int n) (lit (85 # 100)))).
  { apply int_scale_ge; try lia. apply Qle_bool_imp_le; vm_compute; reflexivity. }
  assert (U55 : 1 <= n -> 55 * n / 100 <= n - 1).
  { intros H1. apply Z.lt_succ_r. apply Z.div_lt_upper_bound; lia. }
  assert (U85 : 1 <= n -> 85 * n / 100 <= n - 1).
  { intros H1. apply Z.lt_succ_r. apply Z.div_lt_upper_bound; lia. }
  assert (Z55 : n = 0 -> 55 * n / 100 = 0) by (intros ->; reflexivity).
  assert (Z85 : n = 0 -> 85 * n / 100 = 0) by (intros ->; reflexivity).
  destruct (PatientAssessment.green_corridor_required a);
    cbn [PatientRoute.estimated_time_green_corridor
         PatientRoute.estimated_time_normal PatientRoute.time_saved_minutes
         PatientRoute.route_priority PatientRoute.ambulance_id
         PatientRoute.hospital_destination];
    (split; [first [discriminate | intros _; split; [lia | reflexivity]]|]);
    (split; [first [discriminate | intros _; split; [lia | reflexivity]]|]);
    (split; [intros H1; specialize (U55 H1); specialize (U85 H1); lia|]);
    (split; [intros H0; specialize (Z55 H0); specialize (Z85 H0); lia|]);
    split; reflexivity.
Qed.

(** Fortis at 1.2 km, 15h, a critical patient. *)
Lemma patient_priority_eta_fraction_witness :
  let h := probe_hospital (assess_patient_with_ai critical_cardiac)
             {| hd_id := "FORTIS_DELHI"; hd_name := "Fortis Hospital Shalimar Bagh";
                hd_location := "Shalimar Bagh, Delhi";
                hd_gps_lat := lit (287041 # 10000); hd_gps_lon := lit (771025 # 10000);
                hd_trauma_level := 2;
                hd_specialties := ["cardiology"; "trauma"; "emergency"] |}
             (peak_readings 20 8 2) in
  let r := calculate_patient_route (at_hour 15) critical_cardiac h
             (assess_patient_with_ai critical_cardiac) in
  PatientRoute.ambulance_id r
  = ("AMB_" ++ PyStr.suffix 4 (FamilyEmergencyRequest.request_id critical_cardiac))%string
  /\ PatientRoute.hospital_destination r = h.
Proof.
  cbv zeta.
  refine (proj2 (proj2 (proj2 (proj2
            (patient_priority_eta_fraction (at_hour 15) critical_cardiac _
               (assess_patient_with_ai critical_cardiac) _))))).
  split; apply Qle_bool_imp_le; vm_compute; reflexivity.
Defined.

Lemma plan_unfold readings now req :
  patient_run readings now req
  = (plan_route now req (assess_patient_with_ai req)
       (check_hospital_bed_availability readings req (assess_patient_with_ai req)),
     plan_corridor now
       (plan_route now req (assess_patient_with_ai req)
          (check_hospital_bed_availability readings req (assess_patient_with_ai req)))
       (assess_patient_with_ai req)).
Proof. reflexivity. Qed.

(** X16.  The plan, from the request to the corridor.  When the matcher
    returns no hospital there is no route and no corridor.  Otherwise the
    route goes to the first hospital of the ranked list and carries the id
    of the request; a corridor is activated for it exactly when the
    assessment requires one, with the ids and the time saved of the route.
    A critical patient always gets a route and a corridor, whatever the
    availability; with the draws in range every patient gets a route. *)
Theorem plan_routes_to_first_ranked_hospital
    (readings : nat -> Reading) (now : datetime) (req : FamilyEmergencyRequest.t) :
  let a := assess_patient_with_ai req in
  let ranked := check_hospital_bed_availability readings req a in
  let run := patient_run readings now req in
  (ranked = [] -> run = (None, None))
  /\ (forall h0 rest, ranked = h0 :: rest ->
        exists route,
          run.1 = Some route
          /\ PatientRoute.hospital_destination route = h0
          /\ PatientRoute.request_id route = FamilyEmergencyRequest.request_id req
          /\ (PatientAssessment.green_corridor_required a = false -> run.2 = None)
          /\ (PatientAssessment.green_corridor_required a = true ->
              exists c,
                run.2 = Some c
                /\ PatientGreenCorridor.request_id c
                   = FamilyEmergencyRequest.request_id req
                /\ PatientGreenCorridor.ambulance_id c = PatientRoute.ambulance_id route
                /\ PatientGreenCorridor.estimated_time_saved c
                   = PatientRoute.time_saved_minutes route))
  /\ (PatientAssessment.severity_level a = CriticalityLevel.CRITICAL ->
      exists route c, run = (Some route, Some c))
  /\ ((forall i, valid_draws (readings i)) -> exists route, run.1 = Some route).
Proof.
  cbv zeta. rewrite plan_unfold.
  set (a := assess_patient_with_ai req).
  set (ranked := check_hospital_bed_availability readings req a).
  assert (Hcons : forall h0 rest, ranked = h0 :: rest ->
            exists route,
              plan_route now req a ranked = Some route
              /\ PatientRoute.hospital_destination route = h0
              /\ PatientRoute.request_id route = FamilyEmergencyRequest.request_id req
              /\ (PatientAssessment.green_corridor_required a = false ->
                  plan_corridor now (plan_route now req a ranked) a = None)
              /\ (PatientAssessment.green_corridor_required a = true ->
                  exists c,
                    plan_corridor now (plan_route now req a ranked) a = Some c
                    /\ PatientGreenCorridor.request_id c
                       = FamilyEmergencyRequest.request_id req
                    /\ PatientGreenCorridor.ambulance_id c
                       = PatientRoute.ambulance_id route
                    /\ PatientGreenCorridor.estimated_time_saved c
                       = PatientRoute.time_saved_minutes route)).
  { intros h0 rest ->. cbn [plan_route plan_corridor].
    exists (calculate_patient_route now req h0 a).
    split; [reflexivity|].
    assert (Hr : PatientRoute.hospital_destination (calculate_patient_route now req h0 a) = h0
                 /\ PatientRoute.request_id (calculate_patient_route now req h0 a)
                    = FamilyEmergencyRequest.request_id req).
    { unfold calculate_patient_route.
      destruct (traffic_of_hour (hour now)) as [label speed].
      destruct (PatientAssessment.green_corridor_required a); split; reflexivity. }
    destruct Hr as [Hr1 Hr2]. split; [exact Hr1|]. split; [exact Hr2|].
    unfold activate_patient_green_corridor.
    destruct (PatientAssessment.green_corridor_required a); cbn [negb]; split.
    - discriminate.
    - intros _. eexists. split; [reflexivity|].
      cbn [PatientGreenCorridor.request_id PatientGreenCorridor.ambulance_id
           PatientGreenCorridor.estimated_time_saved].
      split; [exact Hr2|]. split; reflexivity.
    - reflexivity.
    - discriminate. }
  assert (Hlen : forall n, length ranked = S n -> exists h0 rest, ranked = h0 :: rest).
  { intros n Hn. destruct ranked as [|h0 rest]; [discriminate|]. eauto. }
  assert (Hperm : length ranked = length (availability_loop a readings 0 hospital_data)).
  { symmetry. apply Permutation_length. apply sort_by_key_perm. }
  split; [intros ->; reflexivity|]. split; [simpl; exact Hcons|]. split.
  - intros Hcr. cbn [fst snd].
    assert (Hreq : PatientAssessment.green_corridor_required a = true).
    { pose proof (ScorerFacts.assess_tier req) as Ht. cbv zeta in Ht. fold a in Ht.
      destruct (8 <=? _); [congruence|]. destruct (6 <=? _); [congruence|].
      destruct (4 <=? _); congruence. }
    assert (H4 : length ranked = 4%nat).
    { rewrite Hperm. clear -Hcr.
      assert (Hall : forall k table,
                 length (availability_loop a readings k table) = length table).
      { intros k table. revert k. induction table as [|hd table IH]; intros k;
          [reflexivity|]. cbn [availability_loop].
        rewrite (proj2 (critical_eqb_spec _) Hcr), orb_true_r. cbn [length].
        rewrite IH. reflexivity. }
      rewrite Hall. reflexivity. }
    destruct (Hlen _ H4) as (h0 & rest & Heq).
    destruct (Hcons h0 rest Heq) as (route & Hroute & _ & _ & _ & Hc).
    destruct (Hc Hreq) as (c & Hcor & _). exists route, c.
    rewrite Hcor, Hroute. reflexivity.
  - intros Hv. cbn [fst].
    destruct (candidates_in_range a readings Hv) as (p0 & p1 & tail & Hc & _).
    rewrite Hc in Hperm. cbn [length] in Hperm.
    destruct (Hlen _ Hperm) as (h0 & rest & Heq).
    destruct (Hcons h0 rest Heq) as (route & Hroute & _). exists route. exact Hroute.
Qed.

(** A critical cardiac patient in the afternoon peak. *)
Lemma plan_routes_to_first_ranked_hospital_witness :
  exists route c,
    patient_run (peak_readings 20 8) (at_hour 15) critical_cardiac
    = (Some route, Some c).
Proof.
  apply (proj1 (proj2 (proj2 (plan_routes_to_first_ranked_hospital
                                (peak_readings 20 8) (at_hour 15) critical_cardiac)))).
  vm_compute. reflexivity.
Defined.

End PlanProperties.

Module IntakeProperties.

Import PyFloat.
Import Patient.
Import Notions.
Import Scenarios.
Import ScorerClaims.

Lemma lower_startswith_y_iff (s : string) :
  PyStr.lower_startswith_y s = true
  <-> exists t, s = String "y" t \/ s = String "Y" t.
Proof.
  unfold PyStr.lower_startswith_y. destruct s as [|c t].
  - split; [discriminate | intros (t & [H|H]); discriminate].
  - rewrite orb_true_iff, !N.eqb_eq. split.
    + intros [H|H]; exists t; [left | right]; f_equal;
        rewrite <- (ascii_N_embedding c), H; reflexivity.
    + intros (t' & [[= -> _]|[= -> _]]); [left | right]; reflexivity.
Qed.

(** X17.  The three yes/no answers of the command-line intake are read by
    their first character only: an answer starting with y or Y is a yes,
    anything else (a blank line, or a yes typed after a space) is a no.  A
    request whose answers for consciousness and breathing both read as no is
    stored as critical, and the scorer rates it critical with the corridor
    required. *)
Theorem vital_answers_read_by_first_letter
    (draws : GpsDraws) (now_id now_ts : datetime)
    (l_name l_phone l_patient : string) (bad_ages : list string) (l_age : string)
    (age : Z) (l_loc l_addr : string) (bad_choices : list string)
    (l_choice : string) (choice : Z) (l_c l_b l_bl l_sym : string)
    (rest : list string) :
  Forall (fun l => PyStr.int_of_str (PyStr.strip l) = None) bad_ages ->
  PyStr.int_of_str (PyStr.strip l_age) = Some age ->
  Forall refused_choice bad_choices ->
  PyStr.int_of_str (PyStr.strip l_choice) = Some choice ->
  1 <= choice <= 6 ->
  exists r,
    collect_family_emergency_details draws now_id now_ts
      (l_name :: l_phone :: l_patient :: bad_ages ++
       l_age :: l_loc :: l_addr :: bad_choices ++
       l_choice :: l_c :: l_b :: l_bl :: l_sym :: rest) = Some (r, rest)
    /\ (FamilyEmergencyRequest.is_patient_conscious r = true
        <-> exists t, l_c = String "y" t \/ l_c = String "Y" t)
    /\ (FamilyEmergencyRequest.is_patient_breathing r = true
        <-> exists t, l_b = String "y" t \/ l_b = String "Y" t)
    /\ (FamilyEmergencyRequest.any_bleeding r = true
        <-> exists t, l_bl = String "y" t \/ l_bl = String "Y" t)
    /\ (FamilyEmergencyRequest.is_patient_conscious r = false ->
        FamilyEmergencyRequest.is_patient_breathing r = false ->
        FamilyEmergencyRequest.criticality_level r = CriticalityLevel.CRITICAL
        /\ PatientAssessment.severity_level (assess_patient_with_ai r)
           = CriticalityLevel.CRITICAL
        /\ PatientAssessment.green_corridor_required (assess_patient_with_ai r) = true).
Proof.
  intros Hbad Hage Hbadc Hchoice Hrange.
  unfold collect_family_emergency_details, bind, input, ret.
  rewrite (IntakeClaims.read_age_skips bad_ages l_age age _ Hbad Hage).
  rewrite (IntakeClaims.read_choice_skips bad_choices l_choice choice _
             Hbadc Hchoice Hrange).
  eexists. split; [reflexivity|].
  set (r := make_request _ _ _ _ _ _ _ _ _ _ _ _ _ _ _).
  assert (Hc : FamilyEmergencyRequest.is_patient_conscious r
               = PyStr.lower_startswith_y l_c) by reflexivity.
  assert (Hb : FamilyEmergencyRequest.is_patient_breathing r
               = PyStr.lower_startswith_y l_b) by reflexivity.
  assert (Hbl : FamilyEmergencyRequest.any_bleeding r
                = PyStr.lower_startswith_y l_bl) by reflexivity.
  assert (Hlev : FamilyEmergencyRequest.criticality_level r
                 = cli_criticality (PyStr.lower_startswith_y l_c)
                     (PyStr.lower_startswith_y l_b) (PyStr.lower_startswith_y l_bl)
                     (FamilyEmergencyRequest.emergency_type r)
                     (FamilyEmergencyRequest.patient_age r)) by reflexivity.
  split; [rewrite Hc; apply lower_startswith_y_iff|].
  split; [rewrite Hb; apply lower_startswith_y_iff|].
  split; [rewrite Hbl; apply lower_startswith_y_iff|].
  intros Hc0 Hb0.
  pose proof (ScorerFacts.assess_tier r) as Ht. cbv zeta in Ht.
  pose proof (ScorerFacts.assess_score_sum r) as Hs.
  rewrite ScorerFacts.category_weight_table in Hs.
  rewrite Hc0, Hb0 in Hs.
  rewrite Hlev, IntakeClaims.cli_criticality_sum. rewrite <- Hc, <- Hb, Hc0, Hb0.
  cbv zeta.
  set (s := PatientAssessment.patient_critical_score (assess_patient_with_ai r)) in *.
  assert (H10 : s = 10).
  { rewrite Hs.
    destruct (FamilyEmergencyRequest.emergency_type r),
      (FamilyEmergencyRequest.any_bleeding r);
      destruct (FamilyEmergencyRequest.patient_age r <? 1);
      destruct (FamilyEmergencyRequest.patient_age r <? 5);
      destruct (75 <? FamilyEmergencyRequest.patient_age r);
      destruct (65 <? FamilyEmergencyRequest.patient_age r); reflexivity. }
  rewrite H10 in Ht. cbn [Z.leb Z.compare Pos.compare Pos.compare_cont] in Ht.
  injection Ht as Ht1 Ht2. split; [|split; assumption].
  destruct (PyStr.lower_startswith_y l_bl),
    (FamilyEmergencyRequest.emergency_type r);
    destruct (65 <? FamilyEmergencyRequest.patient_age r);
    destruct (FamilyEmergencyRequest.patient_age r <? 5); reflexivity.
Qed.

(** A caller who leaves the first vital question blank and types a space
    before the second answer. *)
Lemma vital_answers_read_by_first_letter_witness :
  exists r,
    collect_family_emergency_details
      {| choice_index := 0; uniform_lat := 0; uniform_lon := 0 |}
      {| strftime_compact := "20250930152000"; hour := 15 |}
      {| strftime_compact := "20250930152000"; hour := 15 |}
      ("Rajesh Kumar" :: "+91-9876543210" :: "Sunita Kumar" :: [] ++
       "40" :: "Connaught Place" :: "B-12, Inner Circle" :: [] ++
       "6" :: EmptyString :: " yes" :: "n" :: "dizzy" :: []) = Some (r, [])
    /\ FamilyEmergencyRequest.criticality_level r = CriticalityLevel.CRITICAL.
Proof.
  destruct (vital_answers_read_by_first_letter
              {| choice_index := 0; uniform_lat := 0; uniform_lon := 0 |}
              {| strftime_compact := "20250930152000"; hour := 15 |}
              {| strftime_compact := "20250930152000"; hour := 15 |}
              "Rajesh Kumar" "+91-9876543210" "Sunita Kumar" [] "40" 40
              "Connaught Place" "B-12, Inner Circle" [] "6" 6
              EmptyString " yes" "n" "dizzy" [])
    as (r & Hr & Hc & Hb & _ & Hcrit).
  - constructor.
  - reflexivity.
  - constructor.
  - reflexivity.
  - lia.
  - exists r. split; [exact Hr|]. apply Hcrit.
    + destruct (FamilyEmergencyRequest.is_patient_conscious r); [|reflexivity].
      destruct (proj1 Hc eq_refl) as (t & [H|H]); discriminate.
    + destruct (FamilyEmergencyRequest.is_patient_breathing r); [|reflexivity].
      destruct (proj1 Hb eq_refl) as (t & [H|H]); discriminate.
Defined.

End IntakeProperties.

Module DashboardProperties.

Import PyFloat.
Import Patient.
Import Notions.
Import Scenarios.
Import Dashboard.

Lemma run_steps_ranked readings now req s h0 rest :
  check_hospital_bed_availability readings req (assess_patient_with_ai req)
  = h0 :: rest ->
  let a := assess_patient_with_ai req in
  let route := calculate_patient_route now req h0 a in
  run_steps readings now (load_request req s)
  = {| Session.family_emergency_request := Some req;
       Session.patient_assessment := Some a;
       Session.available_hospitals := h0 :: rest;
       Session.selected_hospital := Some (PatientRoute.hospital_destination route);
       Session.patient_route := Some route;
       Session.green_corridor_active :=
         match activate_patient_green_corridor now route a with
         | Some c => Some c
         | None => Session.green_corridor_active s
         end |}.
Proof.
  intros Hr. cbv zeta.
  unfold run_steps, load_request, dashboard_assess_patient_with_ai.
  cbn [Session.family_emergency_request fst snd].
  unfold dashboard_check_hospital_availability.
  cbn [Session.family_emergency_request Session.patient_assessment].
  rewrite Hr. cbn [fst snd].
  unfold dashboard_calculate_route.
  cbn [Session.family_emergency_request Session.patient_assessment
       Session.available_hospitals fst snd].
  unfold dashboard_activate_green_corridor.
  cbn [Session.patient_route Session.patient_assessment].
  destruct (activate_patient_green_corridor now _ _) as [c|]; reflexivity.
Qed.

Lemma run_steps_unranked readings now req s :
  check_hospital_bed_availability readings req (assess_patient_with_ai req) = [] ->
  Session.available_hospitals s = [] ->
  Session.patient_route s = None ->
  run_steps readings now (load_request req s)
  = {| Session.family_emergency_request := Some req;
       Session.patient_assessment := Some (assess_patient_with_ai req);
       Session.available_hospitals := [];
       Session.selected_hospital := Session.selected_hospital s;
       Session.patient_route := None;
       Session.green_corridor_active := Session.green_corridor_active s |}.
Proof.
  intros Hr Ha Hp.
  unfold run_steps, load_request, dashboard_assess_patient_with_ai.
  cbn [Session.family_emergency_request fst snd].
  unfold dashboard_check_hospital_availability.
  cbn [Session.family_emergency_request Session.patient_assessment].
  rewrite Hr. cbn [fst snd].
  unfold dashboard_calculate_route.
  cbn [Session.family_emergency_request Session.patient_assessment
       Session.available_hospitals fst snd].
  rewrite Ha. cbn [fst snd].
  unfold dashboard_activate_green_corridor.
  cbn [Session.patient_route]. rewrite Hp. reflexivity.
Qed.

(** X18.  The four dashboard steps, run in the order of the tabs after a
    request is loaded.  On a fresh session they leave the route and the
    corridor of the plan.  On a session that already served an earlier
    request they leave the assessment of the new request and, when the
    matcher returns a hospital, its ranked list, its first hospital as the
    selected one and the route of the plan; the corridor is the one of the
    plan when the new patient requires one, and otherwise the corridor of
    the earlier request stays in the session. *)
Theorem session_steps_follow_the_plan
    (readings : nat -> Reading) (now : datetime)
    (req : FamilyEmergencyRequest.t) (s : Session.t) :
  let a := assess_patient_with_ai req in
  let ranked := check_hospital_bed_availability readings req a in
  let run := patient_run readings now req in
  let s' := run_steps readings now (load_request req s) in
  Session.family_emergency_request s' = Some req
  /\ Session.patient_assessment s' = Some a
  /\ (s = initial ->
      Session.patient_route s' = run.1
      /\ Session.green_corridor_active s' = run.2
      /\ Session.available_hospitals s' = ranked
      /\ Session.selected_hospital s' = head ranked)
  /\ (ranked <> [] ->
      Session.available_hospitals s' = ranked
      /\ Session.selected_hospital s' = head ranked
      /\ Session.patient_route s' = run.1
      /\ (PatientAssessment.green_corridor_required a = true ->
          Session.green_corridor_active s' = run.2)
      /\ (PatientAssessment.green_corridor_required a = false ->
          run.2 = None
          /\ Session.green_corridor_active s' = Session.green_corridor_active s)).
Proof.
  cbv zeta. unfold patient_run.
  set (a := assess_patient_with_ai req).
  destruct (check_hospital_bed_availability readings req a) as [|h0 rest] eqn:Hr.
  - split; [|split; [|split]].
    + unfold run_steps, load_request, dashboard_assess_patient_with_ai.
      cbn [Session.family_emergency_request fst snd].
      unfold dashboard_check_hospital_availability.
      cbn [Session.family_emergency_request Session.patient_assessment].
      fold a. rewrite Hr. cbn [fst snd].
      unfold dashboard_calculate_route.
      cbn [Session.family_emergency_request Session.patient_assessment
           Session.available_hospitals fst snd].
      destruct (Session.available_hospitals s); cbn [fst snd];
        unfold dashboard_activate_green_corridor;
        cbn [Session.patient_route Session.patient_assessment].
      * destruct (Session.patient_route s); [|reflexivity].
        destruct (activate_patient_green_corridor now _ _); reflexivity.
      * destruct (activate_patient_green_corridor now _ _); reflexivity.
    + unfold run_steps, load_request, dashboard_assess_patient_with_ai.
      cbn [Session.family_emergency_request fst snd].
      unfold dashboard_check_hospital_availability.
      cbn [Session.family_emergency_request Session.patient_assessment].
      fold a. rewrite Hr. cbn [fst snd].
      unfold dashboard_calculate_route.
      cbn [Session.family_emergency_request Session.patient_assessment
           Session.available_hospitals fst snd].
      destruct (Session.available_hospitals s); cbn [fst snd];
        unfold dashboard_activate_green_corridor;
        cbn [Session.patient_route Session.patient_assessment].
      * destruct (Session.patient_route s); [|reflexivity].
        destruct (activate_patient_green_corridor now _ _); reflexivity.
      * destruct (activate_patient_green_corridor now _ _); reflexivity.
    + intros ->. rewrite (run_steps_unranked readings now req initial Hr eq_refl eq_refl).
      repeat split.
    + intros H. contradiction H. reflexivity.
  - pose proof (run_steps_ranked readings now req s h0 rest Hr) as Hs.
    cbv zeta in Hs. fold a in Hs. rewrite Hs.
    cbn [Session.family_emergency_request Session.patient_assessment
         Session.available_hospitals Session.selected_hospital
         Session.patient_route Session.green_corridor_active
         plan_route plan_corridor fst snd head].
    assert (Hd : PatientRoute.hospital_destination (calculate_patient_route now req h0 a)
                 = h0).
    { unfold calculate_patient_route.
      destruct (traffic_of_hour (hour now)) as [label speed].
      destruct (PatientAssessment.green_corridor_required a); reflexivity. }
    rewrite Hd.
    split; [reflexivity|]. split; [reflexivity|]. split.
    + intros ->. cbn [Session.green_corridor_active initial].
      split; [reflexivity|]. split; [|split; reflexivity].
      destruct (activate_patient_green_corridor now _ a); reflexivity.
    + intros _. split; [reflexivity|]. split; [reflexivity|]. split; [reflexivity|].
      unfold activate_patient_green_corridor.
      destruct (PatientAssessment.green_corridor_required a); cbn [negb]; split.
      * reflexivity.
      * discriminate.
      * discriminate.
      * intros _. split; reflexivity.
Qed.

(** Two requests in a row at 15h: a critical cardiac patient, then a
    conscious adult with a bleeding wound.  The second run leaves the
    corridor of the first patient in the session. *)
Lemma session_steps_follow_the_plan_witness :
  let s1 := run_steps (peak_readings 20 8) (at_hour 15)
              (load_request critical_cardiac initial) in
  let s2 := run_steps (peak_readings 20 8) (at_hour 15)
              (load_request minor_bleeding s1) in
  Session.green_corridor_active s2 = Session.green_corridor_active s1.
Proof.
  cbv zeta.
  refine (proj2 (proj2 (proj2 (proj2 (proj2 (proj2 (proj2 (proj2
            (session_steps_follow_the_plan (peak_readings 20 8) (at_hour 15)
               minor_bleeding _))) _)))) _)).
  - vm_compute. discriminate.
  - vm_compute. reflexivity.
Defined.

(** X19.  The route step does not read the hospital chosen in the select
    box of the hospital tab: whenever it produces a route, it produces the
    same route and leaves the same session after any choice, the route goes
    to the first hospital of the stored list, and that hospital replaces
    the choice as the selected one. *)
Theorem route_ignores_the_selected_hospital
    (now : datetime) (s s' : Session.t) (route : PatientRoute.t)
    (selected_index : nat) :
  dashboard_calculate_route now s = (s', Some route) ->
  dashboard_calculate_route now (select_hospital selected_index s)
  = (s', Some route)
  /\ Some (PatientRoute.hospital_destination route)
     = head (Session.available_hospitals s)
  /\ Session.selected_hospital s' = head (Session.available_hospitals s).
Proof.
  unfold dashboard_calculate_route, select_hospital.
  destruct s as [req a hospitals sel r c].
  cbn [Session.family_emergency_request Session.patient_assessment
       Session.available_hospitals Session.selected_hospital
       Session.patient_route Session.green_corridor_active].
  destruct req as [req|]; [|discriminate].
  destruct a as [a|]; [|discriminate].
  destruct hospitals as [|h0 rest]; [discriminate|].
  assert (Hd : PatientRoute.hospital_destination (calculate_patient_route now req h0 a)
               = h0).
  { unfold calculate_patient_route.
    destruct (traffic_of_hour (hour now)) as [label speed].
    destruct (PatientAssessment.green_corridor_required a); reflexivity. }
  intros [= <- <-].
  split; [|split].
  - destruct ((h0 :: rest) !! selected_index);
      cbn [Session.family_emergency_request Session.patient_assessment
           Session.available_hospitals Session.selected_hospital
           Session.patient_route Session.green_corridor_active];
      reflexivity.
  - rewrite Hd. reflexivity.
  - cbn [Session.selected_hospital head]. rewrite Hd. reflexivity.
Qed.

(** After the hospitals of a minor patient are listed, the second one is
    chosen in the select box; the route is the one without the choice. *)
Lemma route_ignores_the_selected_hospital_witness :
  let s := (dashboard_check_hospital_availability (peak_readings 20 8)
              (dashboard_assess_patient_with_ai
                 (load_request minor_bleeding initial)).1).1 in
  dashboard_calculate_route (at_hour 15) (select_hospital 1 s)
  = dashboard_calculate_route (at_hour 15) s.
Proof.
  cbv zeta.
  set (s := (dashboard_check_hospital_availability (peak_readings 20 8)
               (dashboard_assess_patient_with_ai
                  (load_request minor_bleeding initial)).1).1).
  destruct (dashboard_calculate_route (at_hour 15) s) as [s' [route|]] eqn:E.
  - exact (proj1 (route_ignores_the_selected_hospital (at_hour 15) s s' route 1 E)).
  - vm_compute in E. discriminate.
Defined.

End DashboardProperties.

Module SpecialtyProperties.

Import PyFloat.
Import Patient.
Import Notions.
Import Scenarios.
Import Draws.
Import MatcherFacts.
Import MatcherRangeFacts.

(** The id and the specialties of a candidate are those of its entry in
    the table. *)
Lemma candidate_entry a readings h :
  In h (availability_loop a readings 0 hospital_data) ->
  (RealTimeHospital.id h, RealTimeHospital.specialties h)
  = ("AIIMS_DELHI", ["trauma"; "neurosurgery"; "cardiology"; "emergency"])
  \/ (RealTimeHospital.id h, RealTimeHospital.specialties h)
     = ("SAFDARJUNG", ["trauma"; "emergency"; "orthopedics"; "neurology"])
  \/ (RealTimeHospital.id h, RealTimeHospital.specialties h)
     = ("FORTIS_DELHI", ["cardiology"; "trauma"; "emergency"])
  \/ (RealTimeHospital.id h, RealTimeHospital.specialties h)
     = ("MAX_SAKET", ["trauma"; "emergency"; "cardiology"]).
Proof.
  intros H. apply availability_loop_In in H. destruct H as (j & hd & Hj & -> & _).
  destruct (probe_hospital_fixed a hd (readings (0 + j)%nat)) as (-> & -> & _).
  assert (Hin : In hd hospital_data)
    by (apply list_elem_of_In; eapply list_elem_of_lookup_2; exact Hj).
  unfold hospital_data in Hin.
  destruct Hin as [<-|[<-|[<-|[<-|[]]]]]; cbn [hd_id hd_specialties]; auto.
Qed.

(** The first component of the key decides before the distance. *)
Lemma key_rank_le (a b : Z * Q * Z) :
  key_ltb a b = false -> b.1.1 <= a.1.1.
Proof.
  destruct a as [[a1 a2] a3], b as [[b1 b2] b3]. unfold key_ltb. cbn [fst].
  destruct (Z.eqb_spec a1 b1) as [E|E]; cbn [negb].
  - intros _. lia.
  - intros H. apply Z.ltb_ge in H. exact H.
Qed.

(** With equal first components the distance decides, then the beds. *)
Lemma key_distance_le (a b : Z * Q * Z) :
  key_ltb a b = false -> a.1.1 = b.1.1 ->
  (b.1.2 <= a.1.2)%Q /\ ((a.1.2 == b.1.2)%Q -> b.2 <= a.2).
Proof.
  intros H E. apply key_ltb_false in H.
  destruct a as [[a1 a2] a3], b as [[b1 b2] b3]. unfold key_lt in H.
  cbn [fst snd] in *. subst b1. split.
  - destruct (Qlt_le_dec a2 b2) as [L|L]; [|exact L].
    contradiction H. right. split; [reflexivity|]. left. exact L.
  - intros E2. destruct (Z_lt_le_dec a3 b3) as [L|L]; [|exact L].
    contradiction H. right. split; [reflexivity|]. right. split; assumption.
Qed.

(** The first hospital of the ranked list has a minimal key. *)
Lemma selected_minimal readings req a selected rest h :
  check_hospital_bed_availability readings req a = selected :: rest ->
  In h (selected :: rest) ->
  key_ltb (hospital_priority req h) (hospital_priority req selected) = false.
Proof.
  intros Hr Hh.
  pose proof (sort_by_key_sorted (hospital_priority req)
                (availability_loop a readings 0 hospital_data)) as Hs.
  fold (check_hospital_bed_availability readings req a) in Hs. rewrite Hr in Hs.
  apply StronglySorted_inv in Hs. destruct Hs as [_ Hs].
  destruct Hh as [<-|Hh].
  - apply key_ltb_false. intros L. exact (key_lt_asym _ _ L L).
  - rewrite List.Forall_forall in Hs. exact (Hs h Hh).
Qed.

Lemma priority_rank req h :
  (hospital_priority req h).1.1
  = if EmergencyType.eqb (FamilyEmergencyRequest.emergency_type req)
         EmergencyType.CARDIAC
       && PyStr.mem "cardiology" (RealTimeHospital.specialties h)
    then 1
    else if EmergencyType.eqb (FamilyEmergencyRequest.emergency_type req)
              EmergencyType.STROKE
            && existsb (fun s => PyStr.mem s (RealTimeHospital.specialties h))
                 ["neurology"; "neurosurgery"]
    then 1
    else if PyStr.mem "trauma" (RealTimeHospital.specialties h)
            || PyStr.mem "emergency" (RealTimeHospital.specialties h)
    then 2 else 0.
Proof. reflexivity. Qed.

(** X20.  Which hospital the matcher selects, with the draws in the
    ranges of [random.randint].  For a cardiac emergency the selected
    hospital lists cardiology: it is never Safdarjung, however near.  For
    a stroke it is AIIMS or Safdarjung, the two that list neurosurgery or
    neurology.  For every other emergency type it is a candidate at the
    least recorded distance, and among those at that distance one with the
    most beds. *)
Theorem specialty_decides_before_distance
    (readings : nat -> Reading) (req : FamilyEmergencyRequest.t)
    (a : PatientAssessment.t) (selected : RealTimeHospital.t)
    (rest : list RealTimeHospital.t) :
  (forall i, valid_draws (readings i)) ->
  check_hospital_bed_availability readings req a = selected :: rest ->
  (FamilyEmergencyRequest.emergency_type req = EmergencyType.CARDIAC ->
   In "cardiology" (RealTimeHospital.specialties selected)
   /\ RealTimeHospital.id selected <> "SAFDARJUNG")
  /\ (FamilyEmergencyRequest.emergency_type req = EmergencyType.STROKE ->
      RealTimeHospital.id selected = "AIIMS_DELHI"
      \/ RealTimeHospital.id selected = "SAFDARJUNG")
  /\ (FamilyEmergencyRequest.emergency_type req <> EmergencyType.CARDIAC ->
      FamilyEmergencyRequest.emergency_type req <> EmergencyType.STROKE ->
      forall h, In h (selected :: rest) ->
        (RealTimeHospital.distance_km selected <= RealTimeHospital.distance_km h)%Q
        /\ ((RealTimeHospital.distance_km h == RealTimeHospital.distance_km selected)%Q ->
            RealTimeHospital.available_beds h
            <= RealTimeHospital.available_beds selected)).
Proof.
  intros Hv Hr.
  assert (Hmem : forall h, In h (selected :: rest) ->
                   In h (availability_loop a readings 0 hospital_data)).
  { intros h Hh. apply (MatcherProperties.ranked_members readings req a). rewrite Hr. exact Hh. }
  pose proof (candidate_entry a readings selected (Hmem _ (or_introl eq_refl))) as Hsel.
  destruct (candidates_in_range a readings Hv)
    as (p0 & p1 & tail & Hc & Hi0 & _).
  assert (Hp0 : In p0 (selected :: rest)).
  { rewrite <- Hr. apply MatcherProperties.ranked_members. rewrite Hc. left. reflexivity. }
  pose proof (selected_minimal readings req a selected rest p0 Hr Hp0) as Hmin.
  apply key_rank_le in Hmin. rewrite !priority_rank in Hmin.
  assert (Hs0 : RealTimeHospital.specialties p0
                = ["trauma"; "neurosurgery"; "cardiology"; "emergency"]).
  { destruct (candidate_entry a readings p0 (Hmem _ Hp0))
      as [[= _ E]|[[= E _]|[[= E _]|[= E _]]]];
      [exact E | rewrite Hi0 in E; discriminate..]. }
  rewrite Hs0 in Hmin.
  split; [|split].
  - intros Ht. rewrite Ht in Hmin.
    destruct Hsel as [[= I S]|[[= I S]|[[= I S]|[= I S]]]];
      rewrite S in *; rewrite I; vm_compute in Hmin;
      try (exfalso; apply Hmin; reflexivity);
      (split; [cbn [In]; auto 6 | discriminate]).
  - intros Ht. rewrite Ht in Hmin.
    destruct Hsel as [[= I S]|[[= I S]|[[= I S]|[= I S]]]];
      rewrite S in *; rewrite I; vm_compute in Hmin;
      try (exfalso; apply Hmin; reflexivity); auto.
  - intros Hn1 Hn2 h Hh.
    pose proof (selected_minimal readings req a selected rest h Hr Hh) as Hk.
    assert (Hrank : forall x, In x (selected :: rest) ->
                      (hospital_priority req x).1.1 = 2).
    { intros x Hx. rewrite priority_rank.
      destruct (FamilyEmergencyRequest.emergency_type req);
        try (contradiction Hn1; reflexivity);
        try (contradiction Hn2; reflexivity);
        cbn [EmergencyType.eqb andb];
        rewrite (candidates_general a readings x (Hmem _ Hx)); reflexivity. }
    destruct (key_distance_le _ _ Hk) as [Hd Hb].
    { rewrite (Hrank h Hh), (Hrank selected (or_introl eq_refl)). reflexivity. }
    cbn [hospital_priority fst snd] in Hd, Hb. split; [exact Hd|].
    intros E. specialize (Hb E). lia.
Qed.

(** A critical cardiac patient near Shalimar Bagh at 15h. *)
Lemma specialty_decides_before_distance_witness :
  exists selected rest,
    check_hospital_bed_availability (peak_readings 20 8) critical_cardiac
      (assess_patient_with_ai critical_cardiac) = selected :: rest
    /\ In "cardiology" (RealTimeHospital.specialties selected).
Proof.
  destruct (check_hospital_bed_availability (peak_readings 20 8) critical_cardiac
              (assess_patient_with_ai critical_cardiac))
    as [|selected rest] eqn:Hr.
  - vm_compute in Hr. discriminate.
  - exists selected, rest. split; [reflexivity|].
    refine (proj1 (proj1 (specialty_decides_before_distance (peak_readings 20 8)
                            critical_cardiac _ selected rest _ Hr) _)).
    + intros i. unfold valid_draws, peak_readings. cbn. lia.
    + vm_compute. reflexivity.
Defined.

End SpecialtyProperties.

Module DistanceProperties.

Import PyFloat.
Import PyFloatFacts.
Import Notions.
Import Scenarios.

(** [round(x, 2)] of a distance: within half a hundredth of [x], up to one
    rounding of the result. *)
Lemma py_round2_near x :
  (0 <= x <= max_km)%Q ->
  (0 <= py_round2 x)%Q
  /\ (x - (1 # 200) - (1 # 10 ^ 10) <= py_round2 x)%Q
  /\ (py_round2 x <= x + (1 # 200) + (1 # 10 ^ 10))%Q.
Proof.
  unfold max_km. intros [H0 H1]. unfold py_round2.
  set (c := Qred (x * inject_Z 100)).
  assert (Hc0 : (0 <= x * inject_Z 100)%Q).
  { change (inject_Z 100) with (100 # 1)%Q. lra. }
  pose proof (Qred_num_sign _ Hc0) as Hn. fold c in Hn.
  pose proof (Qred_num_den (x * inject_Z 100)) as Hq. fold c in Hq.
  set (n := Qnum c) in *. set (d := Zpos (Qden c)) in *.
  assert (Hd : 0 < d) by (subst d; lia).
  pose proof (rne_bounds n d Hd) as [Hb1 Hb2].
  pose proof (rne_ge 0 n d Hd ltac:(lia)) as Hk.
  set (k := rne n d) in *.
  assert (Hdq : (0 < inject_Z d)%Q).
  { change 0%Q with (inject_Z 0). rewrite <- Zlt_Qlt. exact Hd. }
  assert (Hnq : (inject_Z n == x * inject_Z 100 * inject_Z d)%Q).
  { rewrite <- Hq. field. lra. }
  assert (Hb1q : (- inject_Z d <= 2 * (inject_Z k * inject_Z d - inject_Z n))%Q).
  { rewrite <- inject_Z_mult, <- inject_Z_opp.
    change 2%Q with (inject_Z 2).
    unfold Qminus. rewrite <- inject_Z_opp, <- inject_Z_plus, <- inject_Z_mult.
    rewrite <- Zle_Qle. lia. }
  assert (Hb2q : (2 * (inject_Z k * inject_Z d - inject_Z n) <= inject_Z d)%Q).
  { rewrite <- inject_Z_mult.
    change 2%Q with (inject_Z 2).
    unfold Qminus. rewrite <- inject_Z_opp, <- inject_Z_plus, <- inject_Z_mult.
    rewrite <- Zle_Qle. lia. }
  rewrite Hnq in Hb1q, Hb2q.
  assert (Hlo : (x * inject_Z 100 - (1 # 2) <= inject_Z k)%Q).
  { apply Qmult_le_r with (z := inject_Z d); [exact Hdq|]. lra. }
  assert (Hhi : (inject_Z k <= x * inject_Z 100 + (1 # 2))%Q).
  { apply Qmult_le_r with (z := inject_Z d); [exact Hdq|]. lra. }
  assert (Hkq : (0 <= inject_Z k)%Q).
  { change 0%Q with (inject_Z 0). rewrite <- Zle_Qle. exact Hk. }
  set (y := (inject_Z k / inject_Z 100)%Q).
  assert (Hy : (y == inject_Z k * (1 # 100))%Q).
  { subst y. unfold Qdiv. change (/ inject_Z 100)%Q with (1 # 100)%Q. reflexivity. }
  change (inject_Z 100) with (100 # 1)%Q in Hlo, Hhi.
  assert (Hy0 : (0 <= y)%Q) by (rewrite Hy; lra).
  pose proof (b64_rel_err y Hy0) as [He1 He2].
  assert (Heps : (eps64 * 100001 <= 1 # 10 ^ 10)%Q).
  { unfold eps64. apply Qle_bool_imp_le. vm_compute. reflexivity. }
  assert (Heps0 : (0 <= eps64)%Q) by (unfold eps64; apply Qle_bool_imp_le; reflexivity).
  assert (Hyx : (x - (1 # 200) <= y <= x + (1 # 200))%Q) by (rewrite Hy; lra).
  assert (Hye : (y * eps64 <= 1 # 10 ^ 10)%Q).
  { apply Qle_trans with (100001 * eps64)%Q; [|lra].
    apply Qmult_le_compat_r; [|exact Heps0].
    change (inject_Z 100000) with (100000 # 1)%Q in H1. lra. }
  assert (Hexp1 : (y * (1 - eps64) == y - y * eps64)%Q) by ring.
  assert (Hexp2 : (y * (1 + eps64) == y + y * eps64)%Q) by ring.
  rewrite Hexp1 in He1. rewrite Hexp2 in He2.
  assert (Hye0 : (0 <= y * eps64)%Q) by (apply Qmult_le_0_compat; assumption).
  split; [|split].
  - apply Qle_trans with (y * (1 - eps64))%Q.
    + apply Qmult_le_0_compat; [exact Hy0|].
      unfold eps64. apply Qle_bool_imp_le. reflexivity.
    + rewrite Hexp1. exact He1.
  - lra.
  - lra.
Qed.

Lemma py_round2_abs x :
  (0 <= x <= max_km)%Q ->
  (Qabs (py_round2 x - x) <= (1 # 200) + (1 # 10 ^ 10))%Q.
Proof.
  intros H. destruct (py_round2_near x H) as (_ & Hlo & Hhi).
  apply Qabs_Qle_condition. split; lra.
Qed.

(** X21.  The distance recorded on a hospital of the matcher is the
    geodesic distance measured to its table entry, rounded to two
    decimals: it is not negative and differs from the measured distance by
    at most 0.005 km, up to one float rounding.  The same holds for the
    distance recorded on a route of the real-time workflow. *)
Theorem recorded_distance_within_five_metres
    (readings : nat -> Patient.Reading)
    (req : Patient.FamilyEmergencyRequest.t) (a : Patient.PatientAssessment.t) :
  (forall i, (0 <= Patient.geodesic_km (readings i) <= max_km)%Q) ->
  List.Forall
    (fun h =>
       exists j hd,
         Patient.hospital_data !! j = Some hd
         /\ Patient.RealTimeHospital.id h = Patient.hd_id hd
         /\ (0 <= Patient.RealTimeHospital.distance_km h)%Q
         /\ (Qabs (Patient.RealTimeHospital.distance_km h
                   - Patient.geodesic_km (readings j))
             <= (1 # 200) + (1 # 10 ^ 10))%Q)
    (Patient.check_hospital_bed_availability readings req a)
  /\ (forall reply n_routes assessment accident_location best_hospital target d,
        (0 <= d <= max_km)%Q ->
        (Qabs (Realtime.RouteOptimization.distance_km
                 (Realtime.build_route reply n_routes assessment accident_location
                    best_hospital target d) - d)
         <= (1 # 200) + (1 # 10 ^ 10))%Q).
Proof.
  intros Hr. split.
  - apply List.Forall_forall. intros h Hh.
    apply MatcherProperties.ranked_members in Hh.
    apply MatcherFacts.availability_loop_In in Hh.
    destruct Hh as (j & hd & Hj & -> & _).
    destruct (MatcherFacts.probe_hospital_fixed a hd (readings (0 + j)%nat))
      as (Hi & _ & Hd).
    exists j, hd. rewrite Hi, Hd. cbn [Nat.add].
    split; [exact Hj|]. split; [reflexivity|]. split.
    + apply (py_round2_near _ (Hr j)).
    + apply py_round2_abs. exact (Hr j).
  - intros reply n_routes assessment accident_location best_hospital target d Hd.
    unfold Realtime.build_route. cbn [Realtime.RouteOptimization.distance_km].
    apply py_round2_abs. exact Hd.
Qed.

(** The caller near Shalimar Bagh at 15h. *)
Lemma recorded_distance_within_five_metres_witness :
  List.Forall
    (fun h =>
       exists j hd,
         Patient.hospital_data !! j = Some hd
         /\ Patient.RealTimeHospital.id h = Patient.hd_id hd
         /\ (0 <= Patient.RealTimeHospital.distance_km h)%Q
         /\ (Qabs (Patient.RealTimeHospital.distance_km h
                   - Patient.geodesic_km (peak_readings 20 8 j))
             <= (1 # 200) + (1 # 10 ^ 10))%Q)
    (Patient.check_hospital_bed_availability (peak_readings 20 8) minor_bleeding
       (Patient.assess_patient_with_ai minor_bleeding)).
Proof.
  refine (proj1 (recorded_distance_within_five_metres (peak_readings 20 8)
                   minor_bleeding _ _)).
  intros i. unfold peak_readings, max_km. cbn [Patient.geodesic_km].
  destruct i as [|[|[|i]]]; split; apply Qle_bool_imp_le; reflexivity.
Defined.

End DistanceProperties.

Module ReviewProperties.

Import Review.

Section Facts.

Context {A : Type}.
Variable eqb : A -> A -> bool.

Lemma py_in_false x l :
  py_in eqb x l = false <-> forall item, In item l -> eqb item x = false.
Proof.
  induction l as [|y l IH]; cbn [py_in In].
  - split; [intros _ item [] | reflexivity].
  - rewrite orb_false_iff, IH. split.
    + intros [H1 H2] item [<-|Hi]; [exact H1 | exact (H2 item Hi)].
    + intros H. split; [apply H; left; reflexivity | intros item Hi; apply H; right; exact Hi].
Qed.

Lemma length_py_remove x l :
  py_in eqb x l = true -> S (length (py_remove eqb x l)) = length l.
Proof.
  induction l as [|y l IH]; cbn [py_in py_remove length]; [discriminate|].
  destruct (eqb y x); cbn [orb length]; [reflexivity|].
  intros H. rewrite (IH H). reflexivity.
Qed.

Lemma py_remove_sublist x l : py_remove eqb x l `sublist_of` l.
Proof.
  induction l as [|y l IH]; cbn [py_remove]; [constructor|].
  destruct (eqb y x).
  - apply sublist_cons. reflexivity.
  - apply sublist_skip. exact IH.
Qed.

Lemma py_in_sublist x l1 l2 :
  l1 `sublist_of` l2 -> py_in eqb x l1 = true -> py_in eqb x l2 = true.
Proof.
  induction 1 as [|y l1 l2 _ IH|y l1 l2 _ IH]; cbn [py_in]; [auto| |].
  - intros H. apply orb_true_iff in H. apply orb_true_iff.
    destruct H as [H|H]; [left; exact H | right; exact (IH H)].
  - intros H. apply orb_true_iff. right. exact (IH H).
Qed.

Lemma distinct_snoc l x :
  distinct eqb l -> py_in eqb x l = false -> distinct eqb (l ++ [x]).
Proof.
  intros Hd Hx i j a b Hij Hi Hj.
  pose proof (proj1 (py_in_false x l) Hx) as Hall.
  destruct (decide (j < length l)%nat) as [Hlt|Hge].
  - rewrite lookup_app_l in Hj by exact Hlt.
    rewrite lookup_app_l in Hi by lia.
    exact (Hd i j a b Hij Hi Hj).
  - assert (Hjl : j = length l).
    { apply lookup_lt_Some in Hj. rewrite length_app in Hj. cbn [length] in Hj. lia. }
    subst j. rewrite lookup_app_l in Hi by lia.
    rewrite lookup_app_r in Hj by lia. rewrite Nat.sub_diag in Hj.
    cbn in Hj. injection Hj as <-.
    apply Hall. apply list_elem_of_In. eapply list_elem_of_lookup_2. exact Hi.
Qed.

(** One press on a pending accident. *)
Lemma click_step (s : Lists) (c : Click) :
  py_in eqb (clicked c) (detected_accidents s) = true ->
  distinct eqb (approved_accidents s) ->
  total_incidents (click eqb s c) = total_incidents s
  /\ distinct eqb (approved_accidents (click eqb s c))
  /\ detected_accidents (click eqb s c) `sublist_of` detected_accidents s
  /\ (exists more, approved_accidents (click eqb s c) = approved_accidents s ++ more
                   /\ forall x, In x more ->
                        py_in eqb x (detected_accidents s) = true)
  /\ (exists more, rejected_accidents (click eqb s c) = rejected_accidents s ++ more).
Proof.
  intros Hp Hd. destruct c as [accident|accident reason]; cbn [click clicked] in *.
  - unfold approve_accident.
    destruct (py_in eqb accident (approved_accidents s)) eqn:Ha; cbn [negb].
    + split; [reflexivity|]. split; [exact Hd|]. split; [reflexivity|].
      split; exists []; rewrite ?app_nil_r; [split; [reflexivity | intros x []] | reflexivity].
    + rewrite Hp. unfold total_incidents.
      cbn [detected_accidents approved_accidents rejected_accidents].
      pose proof (length_py_remove accident _ Hp) as Hl.
      split; [rewrite length_app; cbn [length]; lia|].
      split; [apply distinct_snoc; assumption|].
      split; [apply py_remove_sublist|].
      split.
      * exists [accident]. split; [reflexivity|].
        intros x [<-|[]]. exact Hp.
      * exists []. rewrite app_nil_r. reflexivity.
  - unfold reject_accident. destruct reason as [|ch reason].
    + split; [reflexivity|]. split; [exact Hd|]. split; [reflexivity|].
      split; exists []; rewrite ?app_nil_r; [split; [reflexivity | intros x []] | reflexivity].
    + rewrite Hp. unfold total_incidents.
      cbn [detected_accidents approved_accidents rejected_accidents].
      pose proof (length_py_remove accident _ Hp) as Hl.
      split; [rewrite length_app; cbn [length]; lia|].
      split; [exact Hd|].
      split; [apply py_remove_sublist|].
      split.
      * exists []. rewrite app_nil_r. split; [reflexivity | intros x []].
      * eexists. reflexivity.
Qed.

End Facts.

(** X22.  The review of the detected accidents on the real-time
    dashboard.  Over any sequence of presses of the approve and reject
    buttons, each on an accident that is pending when it is pressed, the
    total of pending, approved and rejected accidents stays the same; the
    pending list only loses items, the approved and the rejected lists only
    gain items at their end, every accident approved was pending at the
    start, and the approved list never comes to hold two equal accidents. *)
Theorem review_keeps_the_total {A : Type} (eqb : A -> A -> bool)
    (s : Lists) (cs : list Click) :
  on_pending eqb s cs ->
  distinct eqb (approved_accidents s) ->
  let s' := foldl (click eqb) s cs in
  total_incidents s' = total_incidents s
  /\ distinct eqb (approved_accidents s')
  /\ detected_accidents s' `sublist_of` detected_accidents s
  /\ (exists more, approved_accidents s' = approved_accidents s ++ more
                   /\ forall x, In x more ->
                        py_in eqb x (detected_accidents s) = true)
  /\ (exists more, rejected_accidents s' = rejected_accidents s ++ more).
Proof.
  cbv zeta. revert s. induction cs as [|c cs IH]; intros s Hp Hd.
  - cbn [foldl]. split; [reflexivity|]. split; [exact Hd|]. split; [reflexivity|].
    split; exists []; rewrite ?app_nil_r; [split; [reflexivity | intros x []] | reflexivity].
  - cbn [on_pending] in Hp. destruct Hp as [Hc Hp]. cbn [foldl].
    destruct (click_step eqb s c Hc Hd) as (T1 & D1 & S1 & (m1 & A1 & P1) & (r1 & R1)).
    destruct (IH (click eqb s c) Hp D1) as (T2 & D2 & S2 & (m2 & A2 & P2) & (r2 & R2)).
    split; [rewrite T2; exact T1|]. split; [exact D2|].
    split; [etransitivity; eassumption|].
    split.
    + exists (m1 ++ m2). split; [rewrite A2, A1, app_assoc; reflexivity|].
      intros x Hx. apply in_app_or in Hx. destruct Hx as [Hx|Hx].
      * exact (P1 x Hx).
      * eapply py_in_sublist; [exact S1 | exact (P2 x Hx)].
    + exists (r1 ++ r2). rewrite R2, R1, app_assoc. reflexivity.
Qed.

(** Two reports of accident "a" and one of "b" are pending: "a" is
    approved, "b" rejected, and the second report of "a" approved again.
    The second report stays pending. *)
Lemma review_keeps_the_total_witness :
  let s := {| detected_accidents := ["a"; "b"; "a"];
              approved_accidents := [];
              rejected_accidents := [] |} in
  let s' := foldl (click String.eqb) s
              [Approve "a"; Reject "b" "duplicate"; Approve "a"] in
  total_incidents s' = 3%nat
  /\ detected_accidents s' = ["a"]
  /\ approved_accidents s' = ["a"].
Proof.
  cbv zeta. split; [|split; reflexivity].
  refine (proj1 (review_keeps_the_total String.eqb
                   {| detected_accidents := ["a"; "b"; "a"];
                      approved_accidents := [];
                      rejected_accidents := [] |}
                   [Approve "a"; Reject "b" "duplicate"; Approve "a"] _ _)).
  - cbn. auto.
  - intros i j x y _ Hi. destruct i; discriminate.
Defined.

End ReviewProperties.
